(** * model/modules.py: attention and MLP blocks of the image transformer

    A shallow embedding of the classes of [model/modules.py].  Python
    objects are attribute dictionaries, calls run in a small monad that
    threads the random generator and a log of executed operations and that
    carries Python exceptions; tensors are a shape with an index function.
    Floating-point kernels (products, gelu, softmax, ...) are the members
    of a runtime interface and are never given algebraic laws. *)

From stdpp Require Import gmap strings list.
From Stdlib Require Import ZArith.

Set Warnings "-register-all".
Set Default Proof Using "Type".

(** ** Exceptions and outcomes *)

Inductive exn :=
| AssertionError
| AttributeError (name : string)
| TypeError
| ValueError
| RuntimeError
| EinopsError
| ZeroDivisionError
| OverflowError
| IndexError.

Inductive result (A : Type) :=
| Ok (a : A)
| Raise (e : exn).
Arguments Ok {A} a.
Arguments Raise {A} e.

(** ** The tensor runtime

    [R] stands for the floating-point element type and [G] for the state
    of the random generator.  The kernels are the ones the module file
    reaches through [torch], [torch.nn.functional] and Python's float
    arithmetic. *)

(** A tensor is its shape and the element at each index. *)
Record tensor_of (R : Type) := Tensor {
  shape : list nat;
  get : list nat → R;
}.
Arguments Tensor {R} shape get.
Arguments shape {R} t.
Arguments get {R} t idx.

Class Runtime := {
  R : Type;
  G : Type;
  (** the float nearest to [n/d]: the literals [0.0], [0.5], [1.0] *)
  f_lit : Z → positive → R;
  fmul : R → R → R;
  fadd : R → R → R;
  (** [float < float] *)
  fltb : R → R → bool;
  (** [n ** -0.5] for a positive Python int [n] in the range of the floats *)
  pow_neg_half : Z → R;
  (** [F.gelu(x, approximate='tanh')] and [F.gelu(x)] on one element *)
  gelu_tanh : R → R;
  gelu_erf : R → R;
  (** contraction of two rows, in the kernel's own summation order *)
  dot : list R → list R → R;
  (** [softmax] of one row *)
  softmax_row : list R → list R;
  (** [F.layer_norm] of one row with weight and bias rows, eps = 1e-5 *)
  layer_norm_row : list R → list R → list R → list R;
  (** [kaiming_uniform_] filling an [out × in] weight *)
  kaiming_uniform : G → nat → nat → (list nat → R) * G;
  (** [F.dropout(x, p, training=True)]: draws the mask, rescales *)
  dropout_train : G → R → list nat → (list nat → R) → (list nat → R) * G;
  (** the fused [F.scaled_dot_product_attention(q, k, v, dropout_p=p,
      is_causal=False)] *)
  sdpa : tensor_of R → tensor_of R → tensor_of R → R → G →
         result (tensor_of R) * G;
}.

Abbreviation tensor := (tensor_of R).

(** What the interpreter can see of the libraries' name spaces: the names
    defined in [torch.nn.functional], which the module file probes with
    [hasattr] for the fused attention function, and the names every
    [nn.Module] instance resolves through its class ([nn.Module] and
    [object]).  The functions the file calls unconditionally ([F.gelu],
    [F.dropout], [torch.einsum], [rearrange], the [nn] layers) are taken
    as imported.  [max_numel] is the largest number of float32 elements
    the machine's allocator grants one tensor; [torch.empty] raises
    [RuntimeError] beyond it. *)
Record TorchEnv := {
  F_names : gset string;
  Module_names : gset string;
  max_numel : Z;
}.

Section Embedding.
Context `{RT : Runtime} (env : TorchEnv).

Definition fzero : R := f_lit 0 1.
Definition fhalf : R := f_lit 1 2.
Definition fone : R := f_lit 1 1.

Definition ndim (t : tensor) : nat := length (shape t).

(** [idx] addresses an element of a tensor of shape [sh]. *)
Definition in_range (sh idx : list nat) : Prop := Forall2 (λ i d, i < d) idx sh.

Definition last_dim (t : tensor) : option nat := last (shape t).

(** The entries [t[pre, 0 .. n-1]] along the last axis. *)
Definition row (t : tensor) (pre : list nat) (n : nat) : list R :=
  (λ j, get t (pre ++ [j])) <$> seq 0 n.

Definition idx_init (idx : list nat) : list nat := removelast idx.
Definition idx_last (idx : list nat) : nat := List.last idx 0.

(** ** Values *)

Inductive pyval :=
| VNone
| VBool (b : bool)
| VInt (z : Z)
| VFloat (x : R)
(** a negative int raised to [-0.5] *)
| VComplex
| VTensor (t : tensor)
(** [map(lambda t: ..., src)]: a lazy iterator; [c] is the captured local *)
| VMapObject (c : pyval) (src : tensor)
(** a name resolved through the class *)
| VMethod (name : string)
(** an [nn.Module] instance of class [cls] with its attributes *)
| VModule (cls : string) (attrs : gmap string pyval).

(** ** Effects *)

Inductive event :=
| New (cls : string)
| Op (name : string).

Record world := World {
  rng : G;
  log : list event;
}.

Definition M (A : Type) : Type := world → result A * world.

Definition ret {A} (a : A) : M A := λ w, (Ok a, w).
Definition raise {A} (e : exn) : M A := λ w, (Raise e, w).
Definition bind {A B} (m : M A) (k : A → M B) : M B :=
  λ w, match m w with
       | (Ok a, w') => k a w'
       | (Raise e, w') => (Raise e, w')
       end.
Definition emit (e : event) : M unit :=
  λ w, (Ok tt, World (rng w) (log w ++ [e])).
Definition lift {A} (r : result A) : M A := λ w, (r, w).
Definition py_assert (b : bool) : M unit :=
  if b then ret tt else raise AssertionError.

(** A computation that never returns. *)
Definition always_raises {A} (m : M A) : Prop :=
  ∀ w, ∃ e w', m w = (Raise e, w').

(** In every state [m] has the outcome [r], appends the events [evs] to
    the log and leaves the generator as it found it. *)
Definition runs_to {A} (m : M A) (r : result A) (evs : list event) : Prop :=
  ∀ w, m w = (r, World (rng w) (log w ++ evs)).



(** A computation that only computes: the same outcome in every state,
    nothing logged, nothing drawn. *)
Definition silent {A} (m : M A) : Prop := ∃ r, runs_to m r [].

End Embedding.

Arguments pyval {RT}.
Arguments world {RT}.
Arguments M {RT} A.

Declare Scope py_scope.
Delimit Scope py_scope with py.
Notation "'do' x <- m ; k" := (bind m (λ x, k))
  (at level 10, x name, m at level 100, k at level 200) : py_scope.
Notation "'run' m ; k" := (bind m (λ _, k))
  (at level 10, m at level 100, k at level 200) : py_scope.
Open Scope py_scope.

(** ** Python and torch primitives *)

Section Primitives.
Context `{RT : Runtime} (env : TorchEnv).

(** *** Attributes *)

(** [hasattr(F, name)] *)
Definition hasattr_F (name : string) : bool := bool_decide (name ∈ F_names env).

(** [o.name]: the instance attributes first, then the class. *)
Definition getattr (o : pyval) (name : string) : M pyval :=
  match o with
  | VModule _ attrs =>
      match attrs !! name with
      | Some v => ret v
      | None =>
          if bool_decide (name ∈ Module_names env) then ret (VMethod name)
          else raise (AttributeError name)
      end
  | _ => raise (AttributeError name)
  end.

(** Whether the instance holds an attribute of that name. *)
Definition has_attr (o : pyval) (name : string) : bool :=
  match o with
  | VModule _ attrs => bool_decide (is_Some (attrs !! name))
  | _ => false
  end.

(** [self.name = v] *)
Definition setattr (self : pyval) (name : string) (v : pyval) : pyval :=
  match self with
  | VModule cls attrs => VModule cls (<[name := v]> attrs)
  | _ => self
  end.

(** Inside a class body an attribute name with two leading underscores and
    no two trailing ones is private and is prefixed with the class name. *)
Definition mangle (cls name : string) : string :=
  if String.prefix "__" name && negb (String.prefix "__" (String.rev name))
  then "_" +:+ cls +:+ name
  else name.

(** [super(cls, self).name]: the classes after [cls], here [nn.Module]
    and [object]. *)
Definition super_getattr (name : string) : M pyval :=
  if bool_decide (name ∈ Module_names env) then ret (VMethod name)
  else raise (AttributeError name).

(** [nn.Module.__init__]: a fresh module is in training mode. *)
Definition nn_Module_init (cls : string) : M pyval :=
  run emit (New cls);
  ret (VModule cls {["training" := VBool true]}).

(** [module.eval()] clears [training] on the module and all its children. *)
Fixpoint Module_eval (v : pyval) : pyval :=
  match v with
  | VModule cls attrs => VModule cls (<["training" := VBool false]> (Module_eval <$> attrs))
  | _ => v
  end.

(** *** Conversions *)

Definition as_int (v : pyval) : M Z :=
  match v with
  | VInt z => ret z
  | VBool b => ret (if b then 1 else 0)%Z
  | _ => raise TypeError
  end.

Definition as_tensor (v : pyval) : M tensor :=
  match v with VTensor t => ret t | _ => raise TypeError end.

Definition as_float (v : pyval) : M R :=
  match v with
  | VFloat x => ret x
  | VInt z => ret (f_lit z 1)
  | _ => raise TypeError
  end.

(** Python's truth value of an attribute holding a bool. *)
Definition truthy (v : pyval) : bool :=
  match v with
  | VNone | VBool false | VInt 0%Z => false
  | _ => true
  end.

(** [a // b] on ints *)
Definition py_floordiv (a b : Z) : M Z :=
  if (b =? 0)%Z then raise ZeroDivisionError else ret (a `div` b)%Z.

(** The ints Python converts to a float: the conversion rounds to the
    nearest double, ties to even, and raises [OverflowError] from
    [2^1024 - 2^970] on, the midpoint above the largest double. *)
Definition fits_float (n : Z) : bool := (Z.abs n <? 2 ^ 1024 - 2 ^ 970)%Z.

(** [n ** -0.5] on an int: the base is converted to a float first *)
Definition py_pow_neg_half (n : Z) : M pyval :=
  if negb (fits_float n) then raise OverflowError
  else if (n =? 0)%Z then raise ZeroDivisionError
  else if (n <? 0)%Z then ret VComplex
  else ret (VFloat (pow_neg_half n)).

(** [n] divided by [d > 0] and rounded to the nearest integer, ties to
    even. *)
Definition round_half_even (n d : Z) : Z :=
  let q := (n `div` d)%Z in
  let r := (2 * (n `mod` d))%Z in
  if (r <? d)%Z then q
  else if (d <? r)%Z then (q + 1)%Z
  else if Z.even q then q else (q + 1)%Z.

(** [int(p / 3)] on an int [p]: the true division gives the double
    nearest to [p/3] (53 bits, ties to even) or raises [OverflowError]
    when that is beyond the doubles, and [int] cuts the double toward
    zero.  Below [2^52] the double is within 1/4 of [p/3], so short of
    the next integer; from [2^52] on the doubles are integers, spaced
    [2^(e-52)] apart in [[2^e, 2^(e+1))]. *)
Definition int_of_third (p : Z) : M Z :=
  let n := Z.abs p in
  if (3 * (2 ^ 1024 - 2 ^ 970) <=? n)%Z then raise OverflowError
  else
    let q := (n `div` 3)%Z in
    let v := if (q <? 2 ^ 52)%Z then q
             else let u := (2 ^ (Z.log2 q - 52))%Z in
                  (u * round_half_even n (3 * u))%Z in
    ret (Z.sgn p * v)%Z.

(** [torch.empty(sizes)] of float32 returns: every size is an int64 and
    not negative, and the number of elements is within what the
    allocator grants, at most [2^61 - 1] since the storage size in bytes
    is an int64 too. *)
Definition allocates (sizes : list Z) : bool :=
  forallb (λ n, (0 <=? n)%Z && (n <? 2 ^ 63)%Z) sizes
  && (foldr Z.mul 1%Z sizes <=? Z.min (max_numel env) (2 ^ 61 - 1))%Z.

(** [t.shape[i]] *)
Definition shape_item (o : pyval) (i : nat) : M Z :=
  match o with
  | VTensor t =>
      match shape t !! i with
      | Some n => ret (Z.of_nat n)
      | None => raise IndexError
      end
  | _ => raise (AttributeError "shape")
  end.

(** [t.shape] and [t[idx].item()] *)
Definition Tensor_shape (o : pyval) : M (list nat) :=
  match o with
  | VTensor t => ret (shape t)
  | _ => raise (AttributeError "shape")
  end.
Definition Tensor_item (o : pyval) (idx : list nat) : M R :=
  match o with
  | VTensor t =>
      if bool_decide (Forall2 (λ i d, i < d) idx (shape t)) then ret (get t idx)
      else raise IndexError
  | _ => raise TypeError
  end.

(** [a, b = xs] and [a, b, c = xs] *)
Definition unpack2 {A} (xs : list A) : M (A * A) :=
  match xs with [a; b] => ret (a, b) | _ => raise ValueError end.
Definition unpack3 {A} (xs : list A) : M (A * A * A) :=
  match xs with [a; b; c] => ret (a, b, c) | _ => raise ValueError end.

End Primitives.

(** ** Tensor kernels: shapes and indexing *)

Section Kernels.
Context `{RT : Runtime}.

Definition map_tensor (f : R → R) (t : tensor) : tensor :=
  Tensor (shape t) (λ idx, f (get t idx)).

(** *** Broadcasting of elementwise operations *)

Fixpoint broadcast_rev (a b : list nat) : option (list nat) :=
  match a, b with
  | [], _ => Some b
  | _, [] => Some a
  | x :: a', y :: b' =>
      if x =? y then (x ::.) <$> broadcast_rev a' b'
      else if x =? 1 then (y ::.) <$> broadcast_rev a' b'
      else if y =? 1 then (x ::.) <$> broadcast_rev a' b'
      else None
  end.
Definition broadcast_shapes (a b : list nat) : option (list nat) :=
  reverse <$> broadcast_rev (reverse a) (reverse b).

(** An axis of extent one is read at position zero. *)
Definition clamp (d i : nat) : nat := if d =? 1 then 0 else i.

(** The element of [t] an index of the broadcast result reads. *)
Definition bget (t : tensor) (idx : list nat) : R :=
  get t (zip_with clamp (shape t) (drop (length idx - ndim t) idx)).

Definition broadcast_op (f : R → R → R) (a b : tensor) : result tensor :=
  match broadcast_shapes (shape a) (shape b) with
  | Some sh => Ok (Tensor sh (λ idx, f (bget a idx) (bget b idx)))
  | None => Raise RuntimeError
  end.

(** *** [Tensor.chunk(chunks, dim=-1)] *)

(** [t.narrow(-1, off, width)] *)
Definition narrow_last (t : tensor) (off width : nat) : tensor :=
  Tensor (idx_init (shape t) ++ [width])
         (λ idx, get t (idx_init idx ++ [off + idx_last idx])).

Definition chunk_last (t : tensor) (chunks : nat) : result (list tensor) :=
  match last_dim t with
  | None => Raise RuntimeError
  | Some dsz =>
      if chunks =? 0 then Raise RuntimeError else
      let split_size := (dsz + chunks - 1) / chunks in
      if split_size =? 0 then Ok (replicate chunks (narrow_last t 0 0))
      else
        let num := ((dsz + split_size - 1) / split_size) `max` 1 in
        let last_size := split_size - (split_size * num - dsz) in
        Ok ((λ i, narrow_last t (i * split_size)
                    (if i <? num - 1 then split_size else last_size))
            <$> seq 0 num)
  end.

(** *** [F.linear(x, w)] without bias, [w] of shape (out, in) *)

Definition linear_kernel (x w : tensor) (inf outf : nat) : tensor :=
  Tensor (idx_init (shape x) ++ [outf])
         (λ idx, dot (row x (idx_init idx) inf) (row w [idx_last idx] inf)).

(** *** [F.layer_norm] over the last axis of extent [d] *)

Definition layer_norm_kernel (x w b : tensor) (d : nat) : tensor :=
  Tensor (shape x)
         (λ idx, nth (idx_last idx)
                     (layer_norm_row (row x (idx_init idx) d) (row w [] d) (row b [] d))
                     fzero).

(** *** [t.softmax(dim=-1)]; a 0-d tensor is one row of one element *)

Definition softmax_last (t : tensor) : tensor :=
  Tensor (shape t)
         (λ idx, match last_dim t with
                 | Some d => nth (idx_last idx) (softmax_row (row t (idx_init idx) d)) fzero
                 | None => nth 0 (softmax_row [get t []]) fzero
                 end).

(** *** [F.unfold] with kernel [k] and stride [s] on a batched image (b, c, H, W)

    The result has shape (b, c*k*k, L) with L the number of window
    positions; row [r] of column [l] is channel [r / (k*k)] at offset
    ([r mod (k*k) / k], [r mod k]) inside window [l], the windows being
    numbered row by row. *)

Definition windows (side k s : nat) : nat := (side - k) / s + 1.

(** The channel, row and column of the image that row [r] of column [l]
    of the unfolded tensor holds, with [lw] windows per image row. *)
Definition window_pixel (k s lw r l : nat) : nat * nat * nat :=
  (r / (k * k), (l / lw) * s + (r `mod` (k * k)) / k, (l `mod` lw) * s + r `mod` k).

Definition unfold_kernel (t : tensor) (k s : Z) : result tensor :=
  match shape t with
  | [b; c; hh; ww] =>
      let kn := Z.to_nat k in
      let sn := Z.to_nat s in
      if (k <=? 0)%Z || (s <=? 0)%Z then Raise RuntimeError
      else if c =? 0 then Raise RuntimeError
      else if (hh <? kn) || (ww <? kn) then Raise RuntimeError
      else
        let lw := windows ww kn sn in
        Ok (Tensor [b; c * kn * kn; windows hh kn sn * lw]
              (λ idx, match idx with
                      | [bi; r; l] =>
                          let '(ch, i, j) := window_pixel kn sn lw r l in
                          get t [bi; ch; i; j]
                      | _ => fzero
                      end))
  | _ => Raise RuntimeError
  end.

(** *** einops patterns of the module file *)

(** [rearrange(t, "b ... (h d) -> b h ... d", h=h)]: einops checks the
    rank, then divides the last extent by [h] ([%] and [//] on ints), then
    reshapes. *)
Definition split_heads (t : tensor) (h : Z) : result tensor :=
  match shape t with
  | b :: rest =>
      match last rest with
      | Some hd =>
          let hn := Z.to_nat h in
          if (h =? 0)%Z then Raise ZeroDivisionError
          else if (h <? 0)%Z then
            (* [hd % h] passes, the reshape to negative extents does not *)
            if (Z.of_nat hd `mod` h =? 0)%Z then Raise RuntimeError
            else Raise EinopsError
          else if hd `mod` hn =? 0 then
            let d := hd / hn in
            Ok (Tensor (b :: hn :: idx_init rest ++ [d])
                  (λ idx, match idx with
                          | bi :: hi :: tl =>
                              get t (bi :: idx_init tl ++ [hi * d + idx_last tl])
                          | _ => fzero
                          end))
          else Raise EinopsError
      | None => Raise EinopsError
      end
  | [] => Raise EinopsError
  end.

(** [rearrange(y, "b h ... d -> b ... (h d)")] *)
Definition merge_heads (y : tensor) : result tensor :=
  match shape y with
  | b :: h :: rest =>
      match last rest with
      | Some d =>
          Ok (Tensor (b :: idx_init rest ++ [h * d])
                (λ idx, match idx with
                        | bi :: tl =>
                            get y (bi :: idx_last tl / d :: idx_init tl ++ [idx_last tl `mod` d])
                        | [] => fzero
                        end))
      | None => Raise EinopsError
      end
  | _ => Raise EinopsError
  end.

(** [rearrange(t, 'b n p (h c) -> b h n p c', h=h)] *)
Definition split_heads_blocks (t : tensor) (h : Z) : result tensor :=
  match shape t with
  | [b; n; p; hc] =>
      let hn := Z.to_nat h in
      if (h =? 0)%Z then Raise ZeroDivisionError
      else if (h <? 0)%Z then
        if (Z.of_nat hc `mod` h =? 0)%Z then Raise RuntimeError
        else Raise EinopsError
      else if hc `mod` hn =? 0 then
        let c := hc / hn in
        Ok (Tensor [b; hn; n; p; c]
              (λ idx, match idx with
                      | [bi; hi; ni; pi; ci] => get t [bi; ni; pi; hi * c + ci]
                      | _ => fzero
                      end))
      else Raise EinopsError
  | _ => Raise EinopsError
  end.

(** [rearrange(y, "b h n p c -> b n p (h c)")] *)
Definition merge_heads_blocks (y : tensor) : result tensor :=
  match shape y with
  | [b; h; n; p; c] =>
      Ok (Tensor [b; n; p; h * c]
            (λ idx, match idx with
                    | [bi; ni; pi; j] => get y [bi; j / c; ni; pi; j `mod` c]
                    | _ => fzero
                    end))
  | _ => Raise EinopsError
  end.

End Kernels.

(** ** Contractions and slicing *)

Section Contractions.
Context `{RT : Runtime}.

(** Two extents under one einsum subscript agree or one of them is 1. *)
Definition bcast (x y : nat) : option nat :=
  if x =? y then Some x
  else if x =? 1 then Some y
  else if y =? 1 then Some x
  else None.

(** [torch.einsum("b ... n d, b t d -> b ... n t", q, k)] *)
Definition einsum_qk (q k : tensor) : result tensor :=
  match shape k, shape q with
  | [bk; t; dk], bq :: rest =>
      match reverse rest with
      | dq :: n :: rmid =>
          match bcast bq bk, bcast dq dk with
          | Some b, Some d =>
              Ok (Tensor (b :: reverse rmid ++ [n; t])
                    (λ idx, match idx with
                            | bi :: tl =>
                                dot ((λ j, get q (clamp bq bi :: idx_init tl ++ [clamp dq j])) <$> seq 0 d)
                                    ((λ j, get k [clamp bk bi; idx_last tl; clamp dk j]) <$> seq 0 d)
                            | [] => fzero
                            end))
          | _, _ => Raise RuntimeError
          end
      | _ => Raise RuntimeError
      end
  | _, _ => Raise RuntimeError
  end.

(** [torch.einsum("b ... n t, b t d -> b ... n d", att, v)] *)
Definition einsum_av (att v : tensor) : result tensor :=
  match shape v, shape att with
  | [bv; tv; d], ba :: rest =>
      match reverse rest with
      | ta :: n :: rmid =>
          match bcast ba bv, bcast ta tv with
          | Some b, Some t =>
              Ok (Tensor (b :: reverse rmid ++ [n; d])
                    (λ idx, match idx with
                            | bi :: tl =>
                                dot ((λ j, get att (clamp ba bi :: idx_init tl ++ [clamp ta j])) <$> seq 0 t)
                                    ((λ j, get v [clamp bv bi; clamp tv j; idx_last tl]) <$> seq 0 t)
                            | [] => fzero
                            end))
          | _, _ => Raise RuntimeError
          end
      | _ => Raise RuntimeError
      end
  | _, _ => Raise RuntimeError
  end.

(** [torch.einsum("b h n p c, b h n q c -> b h n p q", q, k)] *)
Definition einsum_blocks_qk (q k : tensor) : result tensor :=
  match shape q, shape k with
  | [b1; h1; n1; p; c1], [b2; h2; n2; qq; c2] =>
      match bcast b1 b2, bcast h1 h2, bcast n1 n2, bcast c1 c2 with
      | Some b, Some h, Some n, Some c =>
          Ok (Tensor [b; h; n; p; qq]
                (λ idx, match idx with
                        | [bi; hi; ni; pi; qi] =>
                            dot ((λ j, get q [clamp b1 bi; clamp h1 hi; clamp n1 ni; pi; clamp c1 j]) <$> seq 0 c)
                                ((λ j, get k [clamp b2 bi; clamp h2 hi; clamp n2 ni; qi; clamp c2 j]) <$> seq 0 c)
                        | _ => fzero
                        end))
      | _, _, _, _ => Raise RuntimeError
      end
  | _, _ => Raise RuntimeError
  end.

(** [torch.einsum("b h n p q, b h n q c -> b h n p c", att, v)] *)
Definition einsum_blocks_av (att v : tensor) : result tensor :=
  match shape att, shape v with
  | [b1; h1; n1; p; q1], [b2; h2; n2; q2; c] =>
      match bcast b1 b2, bcast h1 h2, bcast n1 n2, bcast q1 q2 with
      | Some b, Some h, Some n, Some qq =>
          Ok (Tensor [b; h; n; p; c]
                (λ idx, match idx with
                        | [bi; hi; ni; pi; ci] =>
                            dot ((λ j, get att [clamp b1 bi; clamp h1 hi; clamp n1 ni; pi; clamp q1 j]) <$> seq 0 qq)
                                ((λ j, get v [clamp b2 bi; clamp h2 hi; clamp n2 ni; clamp q2 j; ci]) <$> seq 0 qq)
                        | _ => fzero
                        end))
      | _, _, _, _ => Raise RuntimeError
      end
  | _, _ => Raise RuntimeError
  end.

(** A bound of a Python slice over an axis of extent [len]. *)
Definition slice_bound (len : nat) (i : Z) : nat :=
  if (i <? 0)%Z then Z.to_nat (0 `max` (i + Z.of_nat len))%Z
  else Z.to_nat (i `min` Z.of_nat len)%Z.

(** [t[:, start:stop, ...]] *)
Definition slice_dim1 (t : tensor) (start stop : nat) : result tensor :=
  match shape t with
  | b :: _ :: rest =>
      Ok (Tensor (b :: (stop - start) :: rest)
            (λ idx, match idx with
                    | bi :: hi :: tl => get t (bi :: start + hi :: tl)
                    | _ => fzero
                    end))
  | _ => Raise IndexError
  end.

(** [torch.transpose(t, 2, 3)] *)
Definition transpose23 (t : tensor) : result tensor :=
  match shape t with
  | a :: b :: c :: d :: rest =>
      Ok (Tensor (a :: b :: d :: c :: rest)
            (λ idx, match idx with
                    | i :: j :: x :: y :: tl => get t (i :: j :: y :: x :: tl)
                    | _ => fzero
                    end))
  | _ => Raise IndexError
  end.

(** [torch.concat((x, y), dim=1)] *)
Definition concat_dim1 (x y : tensor) : result tensor :=
  match shape x, shape y with
  | b1 :: h1 :: r1, b2 :: h2 :: r2 =>
      if bool_decide (b1 = b2 ∧ r1 = r2) then
        Ok (Tensor (b1 :: h1 + h2 :: r1)
              (λ idx, match idx with
                      | bi :: hi :: tl =>
                          if hi <? h1 then get x idx else get y (bi :: hi - h1 :: tl)
                      | _ => fzero
                      end))
      else Raise RuntimeError
  | _, _ => Raise IndexError
  end.

End Contractions.

(** ** The torch classes and functions the module file calls *)

Section Torch.
Context `{RT : Runtime} (env : TorchEnv).

Definition draw_kaiming (outf inf : nat) : M tensor :=
  λ w, let '(f, g) := kaiming_uniform (rng w) outf inf in
       (Ok (Tensor [outf; inf] f), World g (log w)).

Definition draw_dropout (p : R) (t : tensor) : M tensor :=
  λ w, let '(f, g) := dropout_train (rng w) p (shape t) (get t) in
       (Ok (Tensor (shape t) f), World g (log w)).

(** [a * b] and [a + b] *)
Definition py_mul (a b : pyval) : M pyval :=
  match a, b with
  | VTensor x, VTensor y =>
      do t <- lift (broadcast_op fmul x y);
      run emit (Op "mul"); ret (VTensor t)
  | VTensor x, VFloat s =>
      run emit (Op "mul"); ret (VTensor (map_tensor (λ v, fmul v s) x))
  | VFloat s, VTensor x =>
      run emit (Op "mul"); ret (VTensor (map_tensor (λ v, fmul s v) x))
  | _, _ => raise TypeError
  end.

Definition py_add (a b : pyval) : M pyval :=
  match a, b with
  | VTensor x, VTensor y =>
      do t <- lift (broadcast_op fadd x y);
      run emit (Op "add"); ret (VTensor t)
  | _, _ => raise TypeError
  end.

(** [x.chunk(chunks, dim=-1)] *)
Definition Tensor_chunk (x : pyval) (chunks : nat) : M (list tensor) :=
  match x with
  | VTensor t =>
      do cs <- lift (chunk_last t chunks);
      run emit (Op "chunk"); ret cs
  | _ => raise (AttributeError "chunk")
  end.

(** [F.gelu(input, *, approximate='none')]: the approximation is
    keyword-only.  [extra] holds the arguments passed by position after
    [input]; the argument parser refuses any. *)
Definition F_gelu (input : pyval) (extra : list string) (approximate : option string)
    : M pyval :=
  match extra with
  | _ :: _ => raise TypeError
  | [] =>
      do t <- as_tensor input;
      let kind := default "none"%string approximate in
      if (kind =? "tanh")%string then
        run emit (Op "gelu"); ret (VTensor (map_tensor gelu_tanh t))
      else if (kind =? "none")%string then
        run emit (Op "gelu"); ret (VTensor (map_tensor gelu_erf t))
      else raise RuntimeError
  end.

(** [F.dropout(x, p, training)]; the defaults are [p=0.5], [training=True]. *)
Definition F_dropout (x : pyval) (p : R) (training : bool) : M pyval :=
  if fltb p fzero || fltb fone p then raise ValueError
  else
    do t <- as_tensor x;
    if training then
      do t' <- draw_dropout p t;
      run emit (Op "dropout"); ret (VTensor t')
    else ret (VTensor t).

(** [nn.Linear(in_features, out_features, bias=False)] *)
Definition nn_Linear (inf outf : Z) : M pyval :=
  do self <- nn_Module_init "Linear";
  let self := setattr self "in_features" (VInt inf) in
  let self := setattr self "out_features" (VInt outf) in
  (* torch.empty((out_features, in_features)) *)
  if negb (allocates env [outf; inf]) then raise RuntimeError
  else
    do w <- draw_kaiming (Z.to_nat outf) (Z.to_nat inf);
    ret (setattr self "weight" (VTensor w)).

Definition Linear_forward (self x : pyval) : M pyval :=
  do wv <- getattr env self "weight";
  do w <- as_tensor wv;
  do t <- as_tensor x;
  match last_dim t, shape w with
  | Some d, [outf; inf] =>
      if d =? inf then
        run emit (Op "linear"); ret (VTensor (linear_kernel t w inf outf))
      else raise RuntimeError
  | _, _ => raise RuntimeError
  end.

(** [nn.LayerNorm(d)]: weight of ones, bias of zeros *)
Definition nn_LayerNorm (d : Z) : M pyval :=
  do self <- nn_Module_init "LayerNorm";
  let self := setattr self "normalized_shape" (VInt d) in
  (* torch.empty(normalized_shape) for the weight, then for the bias *)
  if negb (allocates env [d]) then raise RuntimeError
  else
    let self := setattr self "weight" (VTensor (Tensor [Z.to_nat d] (λ _, fone))) in
    ret (setattr self "bias" (VTensor (Tensor [Z.to_nat d] (λ _, fzero)))).

Definition LayerNorm_forward (self x : pyval) : M pyval :=
  do dv <- getattr env self "normalized_shape";
  do d <- as_int dv;
  do wv <- getattr env self "weight";
  do w <- as_tensor wv;
  do bv <- getattr env self "bias";
  do b <- as_tensor bv;
  do t <- as_tensor x;
  if bool_decide (last_dim t = Some (Z.to_nat d)) then
    run emit (Op "layer_norm"); ret (VTensor (layer_norm_kernel t w b (Z.to_nat d)))
  else raise RuntimeError.

(** [nn.Dropout(p)] *)
Definition nn_Dropout (p : R) : M pyval :=
  do self <- nn_Module_init "Dropout";
  if fltb p fzero || fltb fone p then raise ValueError
  else ret (setattr self "p" (VFloat p)).

Definition Dropout_forward (self x : pyval) : M pyval :=
  do pv <- getattr env self "p";
  do p <- as_float pv;
  do tr <- getattr env self "training";
  F_dropout x p (truthy tr).

(** [nn.Unfold(kernel_size, stride=stride)] *)
Definition nn_Unfold (kernel_size stride : Z) : M pyval :=
  do self <- nn_Module_init "Unfold";
  let self := setattr self "kernel_size" (VInt kernel_size) in
  ret (setattr self "stride" (VInt stride)).

(** The instance [nn.Unfold(k, stride=k)] builds. *)
Definition unfold_module (k : Z) : pyval :=
  VModule "Unfold"
    (<["stride" := VInt k]> (<["kernel_size" := VInt k]> {["training" := VBool true]})).

Definition Unfold_forward (self x : pyval) : M pyval :=
  do kv <- getattr env self "kernel_size";
  do k <- as_int kv;
  do sv <- getattr env self "stride";
  do s <- as_int sv;
  do t <- as_tensor x;
  do u <- lift (unfold_kernel t k s);
  run emit (Op "unfold"); ret (VTensor u).

Definition class_of (m : pyval) : string :=
  match m with VModule cls _ => cls | _ => "" end.

(** Calling an instance of one of torch's own module classes. *)
Definition call_torch (m x : pyval) : M pyval :=
  let cls := class_of m in
  if (cls =? "Linear")%string then Linear_forward m x
  else if (cls =? "LayerNorm")%string then LayerNorm_forward m x
  else if (cls =? "Dropout")%string then Dropout_forward m x
  else if (cls =? "Unfold")%string then Unfold_forward m x
  else raise TypeError.

End Torch.

(** ** The classes of model/modules.py *)

Module GEGLU.
Section defs.
Context `{RT : Runtime} (env : TorchEnv).

(** The class defines no initializer of its own. *)
Definition __init__ : M pyval := nn_Module_init "GEGLU".

Definition forward (self x : pyval) : M pyval :=
  do cs <- Tensor_chunk x 2;
  do xg <- unpack2 cs;
  let '(x, gate) := xg in
  (* F.gelu(x, 'tanh') *)
  do a <- F_gelu (VTensor x) ["tanh"%string] None;
  py_mul (VTensor gate) a.

End defs.
End GEGLU.

Section Leaf.
Context `{RT : Runtime} (env : TorchEnv).

(** Calling a sub-module that is a torch layer or the activation. *)
Definition call_leaf (m x : pyval) : M pyval :=
  if (class_of m =? "GEGLU")%string then GEGLU.forward m x
  else call_torch env m x.

End Leaf.

Module MLP.
Section defs.
Context `{RT : Runtime} (env : TorchEnv).

(** [int(emb_dim * 4 * 2/3)] *)
Definition inner_dim (emb_dim : Z) : M Z := int_of_third (emb_dim * 4 * 2).

Definition __init__ (emb_dim : Z) : M pyval :=
  do self <- nn_Module_init "MLP";
  (* inner dimension - per Shazeer's recommendation on GEGLU *)
  do inner <- inner_dim emb_dim;
  do ln1 <- nn_LayerNorm env emb_dim;
  let self := setattr self "ln1" ln1 in
  do proj1 <- nn_Linear env emb_dim inner;
  let self := setattr self "proj1" proj1 in
  do act <- GEGLU.__init__;
  let self := setattr self "act" act in
  do ln2 <- nn_LayerNorm env inner;
  let self := setattr self "ln2" ln2 in
  do proj2 <- nn_Linear env inner emb_dim;
  ret (setattr self "proj2" proj2).

Definition forward (self x : pyval) : M pyval :=
  do proj1 <- getattr env self "proj1";
  do ln1 <- getattr env self "ln1";
  do n <- call_leaf env ln1 x;
  do x <- call_leaf env proj1 n;
  do act <- getattr env self "act";
  do x <- call_leaf env act x;
  do proj2 <- getattr env self "proj2";
  do ln2 <- getattr env self "ln2";
  do n <- call_leaf env ln2 x;
  call_leaf env proj2 n.

End defs.
End MLP.

Section Fused.
Context `{RT : Runtime} (env : TorchEnv).

(** [F.scaled_dot_product_attention(q, k, v, dropout_p=self.dropout if
    self.training else 0.0, is_causal=False)] *)
Definition F_scaled_dot_product_attention (self q k v : pyval) : M pyval :=
  if hasattr_F env "scaled_dot_product_attention" then
    do tr <- getattr env self "training";
    do p <- (if truthy tr then do d <- getattr env self "dropout"; as_float d
             else ret fzero);
    do q <- as_tensor q;
    do k <- as_tensor k;
    do v <- as_tensor v;
    do y <- (λ w, let '(r, g) := sdpa q k v p (rng w) in (r, World g (log w)));
    run emit (Op "scaled_dot_product_attention"); ret (VTensor y)
  else raise (AttributeError "scaled_dot_product_attention").

(** [rearrange] and [einsum] applied to a value *)
Definition rearrange (f : tensor → result tensor) (x : pyval) : M pyval :=
  match x with
  | VTensor t =>
      do y <- lift (f t);
      run emit (Op "rearrange"); ret (VTensor y)
  | _ => raise EinopsError
  end.

Definition einsum (f : tensor → tensor → result tensor) (x y : pyval) : M pyval :=
  do a <- as_tensor x;
  do b <- as_tensor y;
  do r <- lift (f a b);
  run emit (Op "einsum"); ret (VTensor r).

(** [sim.softmax(dim=-1)] *)
Definition Tensor_softmax (x : pyval) : M pyval :=
  match x with
  | VTensor t => run emit (Op "softmax"); ret (VTensor (softmax_last t))
  | _ => raise (AttributeError "softmax")
  end.

End Fused.

Module MultiQueryAttention.
Section defs.
Context `{RT : Runtime} (env : TorchEnv).

Definition __init__ (emb_dim nhead : Z) (dropout : R) : M pyval :=
  do self <- nn_Module_init "MultiQueryAttention";
  let self := setattr self "nhead" (VInt nhead) in
  let self := setattr self "emb_dim" (VInt emb_dim) in
  do width <- py_floordiv emb_dim nhead;
  do scale <- py_pow_neg_half width;
  let self := setattr self "scale" scale in
  do to_q <- nn_Linear env emb_dim emb_dim;
  let self := setattr self "to_q" to_q in
  do kv_width <- py_floordiv (2 * emb_dim) nhead;
  do to_kv <- nn_Linear env emb_dim kv_width;
  let self := setattr self "to_kv" to_kv in
  do to_o <- nn_Linear env emb_dim emb_dim;
  let self := setattr self "to_o" to_o in
  let self := setattr self "dropout" (VFloat dropout) in
  do attn_dropout <- nn_Dropout dropout;
  let self := setattr self "attn_dropout" attn_dropout in
  ret (setattr self "flash" (VBool (hasattr_F env "scaled_dot_product_attnetion"))).

(** The explicit branch: einsum, softmax, dropout, einsum. *)
Definition explicit_attention (self q k v : pyval) : M pyval :=
  do sim <- einsum einsum_qk q k;
  do drop <- getattr env self "attn_dropoutdropout";
  do sm <- Tensor_softmax sim;
  do att <- call_leaf env drop sm;
  einsum einsum_av att v.

(** The attention proper: fused when [flash] is set, explicit otherwise. *)
Definition attention (self q k v : pyval) : M pyval :=
  do flash <- getattr env self "flash";
  if truthy flash then F_scaled_dot_product_attention env self q k v
  else explicit_attention self q k v.

Definition forward (self input context : pyval) : M pyval :=
  do h <- getattr env self "nhead";
  (* [context if not None else input]: the condition is [not None] *)
  let context := if negb (truthy VNone) then context else input in
  do to_q <- getattr env self "to_q";
  do q <- call_leaf env to_q input;
  do to_kv <- getattr env self "to_kv";
  do kv <- call_leaf env to_kv context;
  do cs <- Tensor_chunk kv 2;
  do qkv <- unpack3 (q :: (VTensor <$> cs));
  let '(q, k, v) := qkv in
  do hn <- as_int h;
  do qh <- rearrange (λ t, split_heads t hn) q;
  do scale <- getattr env self "scale";
  do q <- py_mul qh scale;
  do y <- attention self q k v;
  do y <- rearrange merge_heads y;
  do to_o <- getattr env self "to_o";
  call_leaf env to_o y.

End defs.
End MultiQueryAttention.

Section Helpers.
Context `{RT : Runtime} (env : TorchEnv).

(** [t[:, lo:hi, ...]] with either bound optional *)
Definition Tensor_slice_dim1 (x : pyval) (lo hi : option Z) : M pyval :=
  do t <- as_tensor x;
  match shape t with
  | _ :: hh :: _ =>
      do r <- lift (slice_dim1 t (from_option (slice_bound hh) 0 lo)
                                 (from_option (slice_bound hh) hh hi));
      run emit (Op "slice"); ret (VTensor r)
  | _ => raise IndexError
  end.

Definition torch_transpose23 (x : pyval) : M pyval :=
  do t <- as_tensor x;
  do r <- lift (transpose23 t);
  run emit (Op "transpose"); ret (VTensor r).

Definition torch_concat_dim1 (x y : pyval) : M pyval :=
  do a <- as_tensor x;
  do b <- as_tensor y;
  do r <- lift (concat_dim1 a b);
  run emit (Op "concat"); ret (VTensor r).

Definition axis_splitting (q k v : pyval) (h : pyval) : M (pyval * pyval * pyval) :=
  do hn <- as_int h;
  let half := (hn `div` 2)%Z in
  (* channel splitting *)
  do q1 <- Tensor_slice_dim1 q None (Some half);
  do k1 <- Tensor_slice_dim1 k None (Some half);
  do v1 <- Tensor_slice_dim1 v None (Some half);
  do q2 <- Tensor_slice_dim1 q (Some half) None;
  do k2 <- Tensor_slice_dim1 k (Some half) None;
  do v2 <- Tensor_slice_dim1 v (Some half) None;
  (* transpose and concat *)
  do q1 <- torch_transpose23 q1;
  do k1 <- torch_transpose23 k1;
  do v1 <- torch_transpose23 v1;
  do q <- torch_concat_dim1 q1 q2;
  do k <- torch_concat_dim1 k1 k2;
  do v <- torch_concat_dim1 v1 v2;
  ret (q, k, v).

(** [map(lambda t: rearrange(t, "b (c k k) n -> b n (k k) c", c=c), (xs))]:
    the parentheses around [xs] make no tuple, so [map] takes the
    iterator of [xs] itself and returns a lazy map object; the lambda is
    not applied. *)
Definition map_rearrange_blocks (c xs : pyval) : M pyval :=
  match xs with
  | VTensor t => if ndim t =? 0 then raise TypeError else ret (VMapObject c t)
  | _ => raise TypeError
  end.

End Helpers.

Module MultiAxisAttention.
Section defs.
Context `{RT : Runtime} (env : TorchEnv).

Definition __init__ (nchannels block_size nhead : Z) (dropout : R) : M pyval :=
  do self <- nn_Module_init "MultiAxisAttention";
  (* create the blocker *)
  do blocker <- nn_Unfold block_size block_size;
  let self := setattr self "blocker" blocker in
  let self := setattr self "nhead" (VInt nhead) in
  let self := setattr self "nchannels" (VInt nchannels) in
  let self := setattr self "block_size" (VInt block_size) in
  do width <- py_floordiv nchannels nhead;
  do scale <- py_pow_neg_half width;
  let self := setattr self "scale" scale in
  (* projection layers *)
  do to_qkv <- nn_Linear env nchannels (3 * nchannels);
  let self := setattr self "to_qkv" to_qkv in
  do to_o <- nn_Linear env nchannels nchannels;
  let self := setattr self "to_o" to_o in
  (* check if the flash attention is available *)
  let flash := hasattr_F env "scaled_dot_product_attnetion" in
  let self := setattr self "flash" (VBool flash) in
  (* regularization based on flash attention *)
  if flash then ret (setattr self "dropout" (VFloat dropout))
  else
    do attn_dropout <- nn_Dropout dropout;
    ret (setattr self "attn_dropout" attn_dropout).

(** The two assertions that open [forward]. *)
Definition check_image (self img : pyval) : M unit :=
  do s2 <- shape_item img 2;
  do s3 <- shape_item img 3;
  run py_assert (s2 =? s3)%Z;
  do s2 <- shape_item img 2;
  do bs <- getattr env self "block_size";
  do bs <- as_int bs;
  do quo <- py_floordiv s2 bs;
  py_assert (quo =? bs)%Z.

(** [lambda t: rearrange(t, 'b n p (h c) -> b h n p c', h = h) * self.scale] *)
Definition scale_heads (self h t : pyval) : M pyval :=
  do hn <- as_int h;
  do r <- rearrange (λ t, split_heads_blocks t hn) t;
  do scale <- getattr env self "scale";
  py_mul r scale.

(** [q, k, v = map(that lambda, (q, k, v))] *)
Definition project_heads (self h q k v : pyval) : M (pyval * pyval * pyval) :=
  do q <- scale_heads self h q;
  do k <- scale_heads self h k;
  do v <- scale_heads self h v;
  ret (q, k, v).

(** The slower operation using einsum. *)
Definition explicit_attention (q k v : pyval) : M pyval :=
  do sim <- einsum einsum_blocks_qk q k;
  do sm <- Tensor_softmax sim;
  do att <- F_dropout sm fhalf true;
  einsum einsum_blocks_av att v.

(** The attention proper: fused when [flash] is set, explicit otherwise. *)
Definition attention (self q k v : pyval) : M pyval :=
  do flash <- getattr env self "flash";
  if truthy flash then F_scaled_dot_product_attention env self q k v
  else explicit_attention q k v.

Definition forward (self img : pyval) : M pyval :=
  (* assert that images are square and can be square rooted by the block sizes *)
  run check_image self img;
  (* cache the head and channel information *)
  do h <- getattr env self "nhead";
  do c <- getattr env self "nchannels";
  (* chop the image into blocks *)
  do blocker <- getattr env self "blocker";
  do img_blocks <- call_leaf env blocker img;
  do img_blocks <- map_rearrange_blocks c img_blocks;
  (* project the image into query and key values *)
  do to_qkv <- getattr env self "to_qkv";
  do qkv <- call_leaf env to_qkv img_blocks;
  do cs <- Tensor_chunk qkv 3;
  do qkv <- unpack3 (VTensor <$> cs);
  let '(q, k, v) := qkv in
  do qkv <- project_heads self h q k v;
  let '(q, k, v) := qkv in
  (* split and transpose *)
  do qkv <- axis_splitting q k v h;
  let '(q, k, v) := qkv in
  do y <- attention self q k v;
  rearrange merge_heads_blocks y.

End defs.
End MultiAxisAttention.

Section Call.
Context `{RT : Runtime} (env : TorchEnv).

(** Calling [m] on [args]: dispatch on the class of the callee. *)
Definition call_module (m : pyval) (args : list pyval) : M pyval :=
  let cls := class_of m in
  if (cls =? "MultiQueryAttention")%string then
    match args with
    | [x] => MultiQueryAttention.forward env m x VNone
    | [x; context] => MultiQueryAttention.forward env m x context
    | _ => raise TypeError
    end
  else if (cls =? "MultiAxisAttention")%string then
    match args with
    | [x] => MultiAxisAttention.forward env m x
    | _ => raise TypeError
    end
  else if (cls =? "MLP")%string then
    match args with
    | [x] => MLP.forward env m x
    | _ => raise TypeError
    end
  else
    match args with
    | [x] => call_leaf env m x
    | _ => raise TypeError
    end.

(** [self.name = module]: [nn.Module] refuses the assignment on an object
    whose [nn.Module.__init__] has not run. *)
Definition assign_module (self : pyval) (name : string) (v : pyval) : M pyval :=
  match self with
  | VModule _ attrs =>
      if bool_decide (is_Some (attrs !! "training")) then ret (setattr self name v)
      else raise (AttributeError name)
  | _ => raise (AttributeError name)
  end.

(** Calling a method found on the class: run for its effect on nothing
    the model tracks. *)
Definition call_bound (m : pyval) : M pyval :=
  match m with
  | VMethod _ => ret VNone
  | _ => raise TypeError
  end.

End Call.

Module EncoderBlock.
Section defs.
Context `{RT : Runtime} (env : TorchEnv).

Definition __init__ (emb_dim nhead : Z) (dropout : R) : M pyval :=
  do self <- nn_Module_init "EncoderBlock";
  do ln1 <- nn_LayerNorm env emb_dim;
  let self := setattr self "ln1" ln1 in
  do self_attn <- MultiQueryAttention.__init__ env emb_dim nhead dropout;
  let self := setattr self "self_attn" self_attn in
  do mlp <- MLP.__init__ env emb_dim;
  ret (setattr self "mlp" mlp).

Definition forward (self input : pyval) : M pyval :=
  do self_attn <- getattr env self "self_attn";
  do ln1 <- getattr env self "ln1";
  do n <- call_module env ln1 [input];
  do a <- call_module env self_attn [n];
  do x <- py_add input a;
  do mlp <- getattr env self "mlp";
  call_module env mlp [x].

End defs.
End EncoderBlock.

Module MultiAxisTransformerBlock.
Section defs.
Context `{RT : Runtime} (env : TorchEnv).

Definition __init__ (nchannels block_size nhead : Z) (dropout : R) : M pyval :=
  let self := VModule "MultiAxisTransformerBlock" ∅ in
  (* super(MultiAxisTransformerBlock, self).__init() *)
  do init <- super_getattr env (mangle "MultiAxisTransformerBlock" "__init");
  run call_bound init;
  do ln1 <- nn_LayerNorm env nchannels;
  do self <- assign_module self "ln1" ln1;
  do self_attn <- MultiAxisAttention.__init__ env nchannels block_size nhead dropout;
  do self <- assign_module self "self_attn" self_attn;
  do ln2 <- nn_LayerNorm env nchannels;
  do self <- assign_module self "ln2" ln2;
  do cross_attn <- MultiQueryAttention.__init__ env nchannels nhead dropout;
  do self <- assign_module self "cross_attn" cross_attn;
  do mlp <- MLP.__init__ env nchannels;
  assign_module self "mlp" mlp.

Definition forward (self input context : pyval) : M pyval :=
  do self_attn <- getattr env self "self_attn";
  do ln1 <- getattr env self "ln1";
  do n <- call_module env ln1 [input];
  do a <- call_module env self_attn [n];
  do x <- py_add input a;
  do cross_attn <- getattr env self "cross_attn";
  do ln2 <- getattr env self "ln2";
  do n <- call_module env ln2 [x];
  do a <- call_module env cross_attn [n; context];
  do x <- py_add x a;
  do mlp <- getattr env self "mlp";
  call_module env mlp [x].

End defs.
End MultiAxisTransformerBlock.

Module TransformerBlock.
Section defs.
Context `{RT : Runtime} (env : TorchEnv).

Definition __init__ (emb_dim nhead : Z) (dropout : R) : M pyval :=
  do self <- nn_Module_init "TransformerBlock";
  do ln1 <- nn_LayerNorm env emb_dim;
  let self := setattr self "ln1" ln1 in
  do self_attn <- MultiQueryAttention.__init__ env emb_dim nhead dropout;
  let self := setattr self "self_attn" self_attn in
  do ln2 <- nn_LayerNorm env emb_dim;
  let self := setattr self "ln2" ln2 in
  do cross_attn <- MultiQueryAttention.__init__ env emb_dim nhead dropout;
  let self := setattr self "cross_attn" cross_attn in
  do mlp <- MLP.__init__ env emb_dim;
  ret (setattr self "mlp" mlp).

Definition forward (self input context : pyval) : M pyval :=
  do self_attn <- getattr env self "self_attn";
  do ln1 <- getattr env self "ln1";
  do n <- call_module env ln1 [input];
  do a <- call_module env self_attn [n];
  do x <- py_add input a;
  do x <- match context with
          | VNone => ret x
          | _ =>
              do cross_attn <- getattr env self "cross_attn";
              do ln2 <- getattr env self "ln2";
              do n <- call_module env ln2 [x];
              do a <- call_module env cross_attn [n; context];
              py_add x a
          end;
  do mlp <- getattr env self "mlp";
  call_module env mlp [x].

End defs.
End TransformerBlock.

(** ** A symbolic runtime and a concrete environment

    Elements are terms over the kernels, so that a computed tensor shows
    which kernels were applied to which inputs; the generator state counts
    the draws. *)

Module Sym.

Inductive expr :=
| Lit (n : Z) (d : positive)
| Mul (a b : expr)
| Add (a b : expr)
| PowNegHalf (n : Z)
| Gelu (a : expr)
| GeluErf (a : expr)
| Dot (xs ys : list expr)
| Softmax (xs : list expr) (j : nat)
| LayerNorm (xs ws bs : list expr) (j : nat)
| Kaiming (draw : nat) (idx : list nat)
| Dropout (draw : nat) (p : expr) (idx : list nat) (x : expr)
| Fused (draw : nat) (idx : list nat).

Definition ltb (a b : expr) : bool :=
  match a, b with
  | Lit n d, Lit n' d' => (n * Z.pos d' <? n' * Z.pos d)%Z
  | _, _ => false
  end.

#[export] Instance runtime : Runtime := {|
  R := expr;
  G := nat;
  f_lit := Lit;
  fmul := Mul;
  fadd := Add;
  fltb := ltb;
  pow_neg_half := PowNegHalf;
  gelu_tanh := Gelu;
  gelu_erf := GeluErf;
  dot := Dot;
  softmax_row := λ xs, Softmax xs <$> seq 0 (length xs);
  layer_norm_row := λ xs ws bs, LayerNorm xs ws bs <$> seq 0 (length xs);
  kaiming_uniform := λ g _ _, (Kaiming g, S g);
  dropout_train := λ g p _ f, (λ idx, Dropout g p idx (f idx), S g);
  sdpa := λ q _ _ _ g, (Ok (Tensor (shape q) (Fused g)), S g);
|}.

(** torch 2: the fused attention function exists under its own name; the
    machine grants tensors of up to 2^28 elements (1 GiB of float32). *)
Definition torch : TorchEnv := {|
  F_names := list_to_set
    ["scaled_dot_product_attention"; "gelu"; "dropout"; "softmax"; "linear"; "layer_norm"; "unfold"];
  Module_names := list_to_set
    ["__init__"; "__call__"; "__setattr__"; "__getattr__"; "forward"; "train"; "eval";
     "parameters"; "named_parameters"; "children"; "modules"; "state_dict";
     "load_state_dict"; "register_buffer"; "register_parameter"; "to"; "apply";
     "zero_grad"; "requires_grad_"; "extra_repr"];
  max_numel := 2 ^ 28;
|}.

(** The start of a run: no draw yet, nothing logged. *)
Definition w0 : world := World (0 : G) [].

(** The object a constructor returns from the start state, and the state
    it leaves. *)
Definition built (m : M pyval) : pyval :=
  match (m w0).1 with Ok v => v | Raise _ => VNone end.
Definition after {A} (m : M A) : world := (m w0).2.

(** A block object whose attention and MLP slots hold plain linear
    layers, to watch the data flow of a forward that returns. *)
Definition stand_in_block (cls : string) : M pyval :=
  do self <- nn_Module_init cls;
  do ln1 <- nn_LayerNorm torch 2;
  do attn <- nn_Linear torch 2 2;
  do mlp <- nn_Linear torch 2 2;
  ret (setattr (setattr (setattr self "ln1" ln1) "self_attn" attn) "mlp" mlp).

(** A tensor filled with one value. *)
Definition full (sh : list nat) (x : expr) : tensor := Tensor sh (λ _, x).

(** A vector given by its entries. *)
Definition vector (xs : list expr) : tensor :=
  Tensor [length xs] (λ idx, nth (idx_last idx) xs (Lit 0 1)).

End Sym.

(** * Properties *)

Section Proofs.
Context `{RT : Runtime} (env : TorchEnv).

#[local] Arguments bget : simpl never.
#[local] Arguments broadcast_op : simpl never.
#[local] Arguments window_pixel : simpl never.
#[local] Arguments nn_Linear : simpl never.
#[local] Arguments nn_Dropout : simpl never.
#[local] Arguments nn_LayerNorm : simpl never.
#[local] Arguments py_floordiv : simpl never.
#[local] Arguments py_pow_neg_half : simpl never.

(** ** The monad *)

Lemma bind_ok {A B} (m : M A) (k : A → M B) w a w' :
  m w = (Ok a, w') → bind m k w = k a w'.
Proof. unfold bind. by intros ->. Qed.

Lemma bind_raise {A B} (m : M A) (k : A → M B) w e w' :
  m w = (Raise e, w') → bind m k w = (Raise e, w').
Proof. unfold bind. by intros ->. Qed.

Lemma always_raises_bind_l {A B} (m : M A) (k : A → M B) :
  always_raises m → always_raises (bind m k).
Proof.
  intros H w. destruct (H w) as (e & w' & E).
  exists e, w'. by apply bind_raise.
Qed.

Lemma always_raises_bind_r {A B} (m : M A) (k : A → M B) :
  (∀ a, always_raises (k a)) → always_raises (bind m k).
Proof.
  intros H w. unfold bind.
  destruct (m w) as [[a|e] w']; [apply H | eauto].
Qed.

Lemma getattr_Some cls (attrs : gmap string pyval) name v w :
  attrs !! name = Some v → getattr env (VModule cls attrs) name w = (Ok v, w).
Proof. unfold getattr. by intros ->. Qed.

Lemma getattr_None cls (attrs : gmap string pyval) name w :
  attrs !! name = None → name ∉ Module_names env →
  getattr env (VModule cls attrs) name w = (Raise (AttributeError name), w).
Proof. unfold getattr. intros -> H. by rewrite bool_decide_eq_false_2. Qed.

Ltac run_m := repeat (progress (unfold bind, ret, raise, lift, emit; cbn)).

(** Splits the outcome of the first pending step of a constructor that is
    known to have returned. *)
Ltac init_step H E :=
  try unfold bind at 1 in H;
  match type of H with
  | context [match ?m ?w with pair _ _ => _ end] =>
      destruct (m w) as [[?|?] ?] eqn:E; try discriminate H
  end; cbn in H.

(** ** Calling a linear layer *)

Lemma call_Linear_not_tensor lin (wt : tensor) (x : pyval) w :
  lin !! "weight" = Some (VTensor wt) →
  (∀ t, x ≠ VTensor t) →
  call_leaf env (VModule "Linear" lin) x w = (Raise TypeError, w).
Proof.
  intros Hw Hx. unfold call_leaf, call_torch. cbn.
  unfold Linear_forward, getattr. rewrite Hw. run_m.
  destruct x; try reflexivity. by destruct (Hx t).
Qed.

Lemma call_Linear_tensor lin (wt t : tensor) outf inf w :
  lin !! "weight" = Some (VTensor wt) →
  shape wt = [outf; inf] → last_dim t = Some inf →
  call_leaf env (VModule "Linear" lin) (VTensor t) w
  = (Ok (VTensor (linear_kernel t wt inf outf)),
     World (rng w) (log w ++ [Op "linear"])).
Proof.
  intros Hw Hsh Hd. unfold call_leaf, call_torch. cbn.
  unfold Linear_forward, getattr. rewrite Hw. run_m.
  rewrite Hd, Hsh, Nat.eqb_refl. reflexivity.
Qed.

(** ** Indices and broadcasting *)

Lemma last_dim_snoc (t : tensor) pre d :
  shape t = pre ++ [d] → last_dim t = Some d.
Proof. intros E. unfold last_dim. rewrite E. apply last_snoc. Qed.

Lemma idx_init_snoc (pre : list nat) j : idx_init (pre ++ [j]) = pre.
Proof. apply removelast_last. Qed.

Lemma idx_last_snoc (pre : list nat) j : idx_last (pre ++ [j]) = j.
Proof. apply last_last. Qed.

Lemma broadcast_rev_same (l : list nat) : broadcast_rev l l = Some l.
Proof.
  induction l as [|x l IH]; simpl; [done|].
  by rewrite Nat.eqb_refl, IH.
Qed.

Lemma broadcast_shapes_same (l : list nat) : broadcast_shapes l l = Some l.
Proof.
  unfold broadcast_shapes. rewrite broadcast_rev_same. simpl.
  by rewrite reverse_involutive.
Qed.

Lemma broadcast_op_same f (a b : tensor) :
  shape a = shape b →
  broadcast_op f a b = Ok (Tensor (shape a) (λ idx, f (bget a idx) (bget b idx))).
Proof. intros E. unfold broadcast_op. by rewrite <- E, broadcast_shapes_same. Qed.

Lemma zip_clamp_in_range sh idx : in_range sh idx → zip_with clamp sh idx = idx.
Proof.
  unfold in_range. intros H.
  induction H as [|i d idx sh Hi _ IH]; simpl; [done|].
  rewrite IH. f_equal. unfold clamp. destruct (Nat.eqb_spec d 1); lia.
Qed.

Lemma bget_in_range (t : tensor) idx :
  in_range (shape t) idx → bget t idx = get t idx.
Proof.
  intros H. unfold bget, ndim.
  rewrite (Forall2_length _ _ _ H), Nat.sub_diag. simpl.
  by rewrite zip_clamp_in_range.
Qed.

Lemma in_range_snoc pre idx d j :
  in_range pre idx → j < d → in_range (pre ++ [d]) (idx ++ [j]).
Proof. intros H Hj. apply Forall2_app; [done|]. by constructor. Qed.

(** ** GEGLU *)

(** An even last axis is cut into its two halves. *)
Lemma chunk_last_halves (t : tensor) pre m :
  shape t = pre ++ [2 * m] →
  chunk_last t 2 = Ok [narrow_last t 0 m; narrow_last t m m].
Proof.
  intros E. unfold chunk_last. rewrite (last_dim_snoc _ _ _ E).
  destruct m as [|m]; [reflexivity|].
  assert (H1 : (2 * S m + 2 - 1) / 2 = S m)
    by (symmetry; apply (Nat.div_unique _ 2 _ 1); lia).
  assert (H2 : (2 * S m + S m - 1) / S m = 2)
    by (symmetry; apply (Nat.div_unique _ _ _ m); lia).
  change (2 =? 0) with false. cbv beta iota zeta. rewrite H1, H2.
  change (S m =? 0) with false. cbv beta iota.
  replace (S m - (S m * 2 `max` 1 - 2 * S m)) with (S m) by lia.
  change (2 `max` 1) with 2. change (seq 0 2) with [0; 1].
  cbn [fmap list_fmap]. replace (1 * S m) with (S m) by lia.
  reflexivity.
Qed.

(** [chunk(2, dim=-1)] on a tensor whose last axis has even extent. *)
Lemma Tensor_chunk_halves (t : tensor) pre m w :
  shape t = pre ++ [2 * m] →
  Tensor_chunk (VTensor t) 2 w
  = (Ok [narrow_last t 0 m; narrow_last t m m], World (rng w) (log w ++ [Op "chunk"])).
Proof. intros E. unfold Tensor_chunk. run_m. by rewrite (chunk_last_halves _ _ _ E). Qed.

(** [F.gelu(x, 'tanh')]: a second positional argument. *)
Lemma F_gelu_positional (x : pyval) (a : string) (more : list string) kw w :
  F_gelu x (a :: more) kw w = (Raise TypeError, w).
Proof. reflexivity. Qed.

(** C8, on the code: on a tensor whose last axis has even extent [2m],
    [GEGLU.forward] cuts the halves [x] and [gate] of width [m] and then
    raises [TypeError] at [F.gelu(x, 'tanh')], whose approximation is a
    keyword-only argument: it has run the chunk and nothing else, and
    returns no product [gate * gelu_tanh(x)]. *)
Theorem GEGLU_forward_gelu_raises (self : pyval) (t : tensor) (pre : list nat) (m : nat)
    (w : world) :
  shape t = pre ++ [2 * m] →
  Tensor_chunk (VTensor t) 2 w
  = (Ok [narrow_last t 0 m; narrow_last t m m], World (rng w) (log w ++ [Op "chunk"]))
  ∧ GEGLU.forward self (VTensor t) w
    = (Raise TypeError, World (rng w) (log w ++ [Op "chunk"])).
Proof.
  intros E. split; [by apply (Tensor_chunk_halves _ pre)|].
  unfold GEGLU.forward.
  rewrite (bind_ok _ _ _ _ _ (Tensor_chunk_halves _ _ _ _ E)).
  reflexivity.
Qed.

(** ** MultiQueryAttention *)

Lemma MultiQueryAttention_init_attrs emb_dim nhead dropout w self w1 :
  MultiQueryAttention.__init__ env emb_dim nhead dropout w = (Ok self, w1) →
  ∃ attrs, self = VModule "MultiQueryAttention" attrs
    ∧ attrs !! "flash" = Some (VBool (hasattr_F env "scaled_dot_product_attnetion"))
    ∧ attrs !! "attn_dropoutdropout" = None.
Proof.
  unfold MultiQueryAttention.__init__. intros H.
  unfold bind at 1 in H. cbn in H.
  init_step H Ediv. init_step H Epow. init_step H Etoq. init_step H Ediv2.
  init_step H Ekv. init_step H Eo. init_step H Edrop.
  injection H as <- <-. eexists. split; [reflexivity|]. split.
  - apply lookup_insert_eq.
  - by rewrite !lookup_insert_ne, lookup_singleton_ne.
Qed.

Lemma MultiQueryAttention_explicit_raises cls attrs q k v :
  attrs !! "attn_dropoutdropout" = None →
  "attn_dropoutdropout" ∉ Module_names env →
  always_raises (MultiQueryAttention.explicit_attention env (VModule cls attrs) q k v).
Proof.
  intros Hattr Hcls. unfold MultiQueryAttention.explicit_attention.
  apply always_raises_bind_r. intros sim. apply always_raises_bind_l.
  intros w. eauto using getattr_None.
Qed.

(** C9: in a torch whose [torch.nn.functional] has no
    [scaled_dot_product_attnetion] and whose [nn.Module] has no
    [attn_dropoutdropout], every constructed [MultiQueryAttention] has
    [flash] false, fails to resolve [attn_dropoutdropout], and its
    [forward] raises on every input and every context, whatever the state
    it is called in. *)
Theorem MultiQueryAttention_forward_always_raises
    emb_dim nhead dropout (w w1 : world) (self : pyval) :
  "scaled_dot_product_attnetion" ∉ F_names env →
  "attn_dropoutdropout" ∉ Module_names env →
  MultiQueryAttention.__init__ env emb_dim nhead dropout w = (Ok self, w1) →
  (∀ w2, getattr env self "flash" w2 = (Ok (VBool false), w2)) ∧
  (∀ w2, getattr env self "attn_dropoutdropout" w2
           = (Raise (AttributeError "attn_dropoutdropout"), w2)) ∧
  ∀ input context, always_raises (MultiQueryAttention.forward env self input context).
Proof.
  intros HF HM Hinit.
  destruct (MultiQueryAttention_init_attrs _ _ _ _ _ _ Hinit)
    as (attrs & -> & Hflash & Hdrop).
  unfold hasattr_F in Hflash. rewrite bool_decide_eq_false_2 in Hflash by done.
  split; [|split].
  - intros w2. by apply getattr_Some.
  - intros w2. by apply getattr_None.
  - intros input context. unfold MultiQueryAttention.forward.
    do 6 (apply always_raises_bind_r; intros ?).
    apply always_raises_bind_r. intros [[q k] v].
    do 4 (apply always_raises_bind_r; intros ?).
    apply always_raises_bind_l. unfold MultiQueryAttention.attention.
    intros w2. rewrite (bind_ok _ _ _ _ _ (getattr_Some _ _ _ _ _ Hflash)).
    cbn [truthy]. by apply MultiQueryAttention_explicit_raises.
Qed.

(** ** MultiAxisTransformerBlock *)

(** C10: in a torch whose [nn.Module] defines no
    [_MultiAxisTransformerBlock__init], the name [super().__init] stands
    for inside the class, the constructor raises [AttributeError] for
    every argument tuple and leaves the state as it found it: no module
    was created and no parameter drawn. *)
Theorem MultiAxisTransformerBlock_init_raises
    (nchannels block_size nhead : Z) (dropout : R) (w : world) :
  "_MultiAxisTransformerBlock__init" ∉ Module_names env →
  MultiAxisTransformerBlock.__init__ env nchannels block_size nhead dropout w
  = (Raise (AttributeError "_MultiAxisTransformerBlock__init"), w).
Proof.
  intros H. unfold MultiAxisTransformerBlock.__init__.
  apply bind_raise. unfold super_getattr.
  change (mangle "MultiAxisTransformerBlock" "__init")
    with "_MultiAxisTransformerBlock__init".
  by rewrite bool_decide_eq_false_2.
Qed.

(** ** MultiAxisAttention: blocking *)

Lemma divmod_of (b q r : nat) : r < b → (q * b + r) / b = q ∧ (q * b + r) `mod` b = r.
Proof.
  intros H. split.
  - symmetry. apply (Nat.div_unique _ _ _ r); lia.
  - symmetry. apply (Nat.mod_unique _ _ q); lia.
Qed.

Lemma windows_exact k m : 0 < k → 0 < m → windows (m * k) k k = m.
Proof.
  intros Hk Hm. unfold windows.
  replace (m * k - k) with ((m - 1) * k + 0) by nia.
  rewrite (proj1 (divmod_of k (m - 1) 0 Hk)). lia.
Qed.

Lemma window_pixel_of_pixel k m ci i j :
  0 < k → i < m * k → j < m * k →
  window_pixel k k m (ci * (k * k) + ((i `mod` k) * k + j `mod` k)) ((i / k) * m + j / k)
  = (ci, i, j).
Proof.
  intros Hk Hi Hj. unfold window_pixel.
  assert (Hik : i `mod` k < k) by (apply Nat.mod_upper_bound; lia).
  assert (Hjk : j `mod` k < k) by (apply Nat.mod_upper_bound; lia).
  assert (Hjm : j / k < m) by (apply Nat.Div0.div_lt_upper_bound; lia).
  assert (Hx : (i `mod` k) * k + j `mod` k < k * k) by nia.
  destruct (divmod_of (k * k) ci _ Hx) as [-> ->].
  destruct (divmod_of k (i `mod` k) _ Hjk) as [-> _].
  destruct (divmod_of m (i / k) _ Hjm) as [-> ->].
  replace (ci * (k * k) + (i `mod` k * k + j `mod` k))
    with ((ci * k + i `mod` k) * k + j `mod` k) by lia.
  destruct (divmod_of k (ci * k + i `mod` k) _ Hjk) as [_ ->].
  pose proof (Nat.div_mod_eq i k). pose proof (Nat.div_mod_eq j k).
  f_equal; [f_equal|]; lia.
Qed.

Lemma pixel_of_window k m c r l :
  0 < k → r < c * (k * k) → l < m * m →
  ∃ ci i j, window_pixel k k m r l = (ci, i, j)
    ∧ ci < c ∧ i < m * k ∧ j < m * k
    ∧ r = ci * (k * k) + ((i `mod` k) * k + j `mod` k)
    ∧ l = (i / k) * m + j / k.
Proof.
  intros Hk Hr Hl. unfold window_pixel.
  assert (Hm : 0 < m) by nia.
  set (x := r `mod` (k * k)).
  assert (Hx : x < k * k) by (apply Nat.mod_upper_bound; nia).
  assert (Hxk : x / k < k) by (apply Nat.Div0.div_lt_upper_bound; lia).
  assert (Hxm : x `mod` k < k) by (apply Nat.mod_upper_bound; lia).
  assert (Hrk : r `mod` k = x `mod` k).
  { pose proof (Nat.div_mod_eq r (k * k)). pose proof (Nat.div_mod_eq x k).
    fold x in H. symmetry. apply (Nat.mod_unique _ _ (r / (k * k) * k + x / k)); [done|]. nia. }
  assert (Hlm : l / m < m) by (apply Nat.Div0.div_lt_upper_bound; lia).
  assert (Hlr : l `mod` m < m) by (apply Nat.mod_upper_bound; lia).
  eexists _, _, _. split; [reflexivity|].
  rewrite Hrk.
  destruct (divmod_of k (l / m) _ Hxk) as [-> ->].
  destruct (divmod_of k (l `mod` m) _ Hxm) as [-> ->].
  pose proof (Nat.div_mod_eq r (k * k)). pose proof (Nat.div_mod_eq x k).
  pose proof (Nat.div_mod_eq l m). fold x in H.
  assert (r / (k * k) < c) by (apply Nat.Div0.div_lt_upper_bound; lia).
  repeat split; nia.
Qed.

Lemma py_floordiv_ok a b w q w' :
  py_floordiv a b w = (Ok q, w') → q = (a `div` b)%Z ∧ w' = w.
Proof. unfold py_floordiv. destruct (b =? 0)%Z; [done|]. by intros [= <- <-]. Qed.

Lemma py_pow_neg_half_pos n w v w' :
  py_pow_neg_half n w = (Ok v, w') → (0 < n)%Z → v = VFloat (pow_neg_half n).
Proof.
  unfold py_pow_neg_half. intros H Hn.
  destruct (fits_float n); [|done]. cbn [negb] in H.
  destruct (Z.eqb_spec n 0); [lia|]. destruct (Z.ltb_spec n 0); [lia|].
  by injection H as <- _.
Qed.

Lemma nn_Linear_ok inf outf w v w' :
  nn_Linear env inf outf w = (Ok v, w') →
  ∃ attrs f, v = VModule "Linear" attrs
    ∧ attrs !! "weight" = Some (VTensor (Tensor [Z.to_nat outf; Z.to_nat inf] f)).
Proof.
  unfold nn_Linear, bind, nn_Module_init, draw_kaiming. cbn.
  destruct (allocates _ _); [|done]. cbn.
  destruct (kaiming_uniform _ _ _) as [f g]. intros [= <- <-].
  eexists _, f. split; [reflexivity|]. apply lookup_insert_eq.
Qed.

Lemma MultiAxisAttention_init_attrs nchannels block_size nhead dropout w self w1 :
  MultiAxisAttention.__init__ env nchannels block_size nhead dropout w = (Ok self, w1) →
  ∃ attrs lin f, self = VModule "MultiAxisAttention" attrs
    ∧ attrs !! "block_size" = Some (VInt block_size)
    ∧ attrs !! "blocker" = Some (unfold_module block_size)
    ∧ attrs !! "nhead" = Some (VInt nhead)
    ∧ attrs !! "nchannels" = Some (VInt nchannels)
    ∧ attrs !! "flash" = Some (VBool (hasattr_F env "scaled_dot_product_attnetion"))
    ∧ attrs !! "to_qkv" = Some (VModule "Linear" lin)
    ∧ lin !! "weight" = Some (VTensor (Tensor [Z.to_nat (3 * nchannels); Z.to_nat nchannels] f))
    ∧ ((0 < nchannels `div` nhead)%Z →
        attrs !! "scale" = Some (VFloat (pow_neg_half (nchannels `div` nhead)))).
Proof.
  unfold MultiAxisAttention.__init__. intros H.
  unfold bind at 1 in H. cbn in H.
  unfold bind at 1 in H. cbn in H.
  init_step H Ediv. init_step H Epow. init_step H Eqkv. init_step H Eo.
  apply py_floordiv_ok in Ediv as [-> ->].
  apply nn_Linear_ok in Eqkv as (lin & f & -> & Hw).
  assert (Hscale : (0 < nchannels `div` nhead)%Z →
                   a0 = VFloat (pow_neg_half (nchannels `div` nhead)))
    by (intros Hpos; by eapply py_pow_neg_half_pos).
  destruct (hasattr_F env _) eqn:Hflash.
  - injection H as <- <-. eexists _, lin, f. split; [reflexivity|].
    repeat split; try (by simplify_map_eq).
    intros Hpos. rewrite (Hscale Hpos). by simplify_map_eq.
  - init_step H Edrop.
    injection H as <- <-. eexists _, lin, f. split; [reflexivity|].
    repeat split; try (by simplify_map_eq).
    intros Hpos. rewrite (Hscale Hpos). by simplify_map_eq.
Qed.

Lemma check_image_square cls attrs (k : Z) (t : tensor) b c s rest w :
  attrs !! "block_size" = Some (VInt k) → (0 < k)%Z →
  shape t = b :: c :: s :: s :: rest →
  MultiAxisAttention.check_image env (VModule cls attrs) (VTensor t) w
  = (if (Z.of_nat s `div` k =? k)%Z then Ok tt else Raise AssertionError, w).
Proof.
  intros Hbs Hk Hsh.
  unfold MultiAxisAttention.check_image, shape_item, getattr, py_floordiv, py_assert.
  rewrite Hsh, Hbs. run_m. rewrite Z.eqb_refl. run_m.
  destruct (Z.eqb_spec k 0); [lia|]. run_m.
  by destruct (_ =? _)%Z.
Qed.

Lemma unfold_kernel_blocks (t : tensor) (b c k m : nat) :
  0 < k → 0 < m → 0 < c → shape t = [b; c; m * k; m * k] →
  unfold_kernel t (Z.of_nat k) (Z.of_nat k)
  = Ok (Tensor [b; c * k * k; m * m]
          (λ idx, match idx with
                  | [bi; r; l] =>
                      let '(ch, i, j) := window_pixel k k m r l in get t [bi; ch; i; j]
                  | _ => fzero
                  end)).
Proof.
  intros Hk Hm Hc Hsh. unfold unfold_kernel. rewrite Hsh, Nat2Z.id.
  destruct (Z.leb_spec (Z.of_nat k) 0); [lia|]. cbn [orb].
  destruct (Nat.eqb_spec c 0); [lia|].
  destruct (Nat.ltb_spec (m * k) k); [nia|]. cbn [orb].
  by rewrite windows_exact.
Qed.

Lemma call_unfold_module (k : Z) (t : tensor) w :
  call_leaf env (unfold_module k) (VTensor t) w
  = match unfold_kernel t k k with
    | Ok u => (Ok (VTensor u), World (rng w) (log w ++ [Op "unfold"]))
    | Raise e => (Raise e, w)
    end.
Proof.
  unfold call_leaf, call_torch, unfold_module. cbn.
  unfold Unfold_forward, getattr. simplify_map_eq. run_m.
  by destruct (unfold_kernel t k k).
Qed.

(** C2, as amended: a square image of side [m*k] is cut by the blocker of
    a [MultiAxisAttention] with block size [k] into [m*m] patches of
    [k*k] pixels per channel: every pixel lies in exactly one patch, at
    one position of it, and every entry of the blocked tensor is one
    pixel.  The assertions of [forward] let the image through exactly
    when [m = k]. *)
Theorem MultiAxisAttention_blocking
    (nchannels nhead : Z) (dropout : R) (k m b c : nat) (t : tensor)
    (w w1 : world) (self : pyval) :
  MultiAxisAttention.__init__ env nchannels (Z.of_nat k) nhead dropout w = (Ok self, w1) →
  0 < k → 0 < m → 0 < c →
  shape t = [b; c; m * k; m * k] →
  ∃ blocker u,
    (∀ w2, getattr env self "blocker" w2 = (Ok blocker, w2))
    ∧ (∀ w2, call_leaf env blocker (VTensor t) w2
             = (Ok (VTensor u), World (rng w2) (log w2 ++ [Op "unfold"])))
    ∧ shape u = [b; c * k * k; m * m]
    ∧ (∀ bi ci i j, ci < c → i < m * k → j < m * k →
         let r := ci * (k * k) + ((i `mod` k) * k + j `mod` k) in
         let l := (i / k) * m + j / k in
         r < c * k * k ∧ l < m * m ∧ get u [bi; r; l] = get t [bi; ci; i; j])
    ∧ (∀ bi r l, r < c * k * k → l < m * m →
         ∃ ci i j, ci < c ∧ i < m * k ∧ j < m * k
           ∧ r = ci * (k * k) + ((i `mod` k) * k + j `mod` k)
           ∧ l = (i / k) * m + j / k
           ∧ get u [bi; r; l] = get t [bi; ci; i; j])
    ∧ (∀ w2, MultiAxisAttention.check_image env self (VTensor t) w2
             = (if bool_decide (m = k) then Ok tt else Raise AssertionError, w2)).
Proof.
  intros Hinit Hk Hm Hc Hsh.
  destruct (MultiAxisAttention_init_attrs _ _ _ _ _ _ _ Hinit)
    as (attrs & lin & f & -> & Hbs & Hblocker & _).
  eexists _, _. split; [|split; [|split; [|split; [|split]]]].
  - intros w2. by apply getattr_Some.
  - intros w2. rewrite call_unfold_module, (unfold_kernel_blocks _ b c k m) by done.
    reflexivity.
  - reflexivity.
  - intros bi ci i j Hci Hi Hj r l. cbn.
    unfold r, l. rewrite window_pixel_of_pixel by done.
    assert (i `mod` k < k) by (apply Nat.mod_upper_bound; lia).
    assert (j `mod` k < k) by (apply Nat.mod_upper_bound; lia).
    assert (i / k < m) by (apply Nat.Div0.div_lt_upper_bound; lia).
    assert (j / k < m) by (apply Nat.Div0.div_lt_upper_bound; lia).
    repeat split; nia.
  - intros bi r l Hr Hl. cbn.
    destruct (pixel_of_window k m c r l) as (ci & i & j & -> & ? & ? & ? & ? & ?);
      [lia..|]. by exists ci, i, j.
  - intros w2. rewrite (check_image_square _ _ (Z.of_nat k) _ b c (m * k) []) by (done || lia).
    replace (Z.of_nat (m * k) `div` Z.of_nat k)%Z with (Z.of_nat m).
    2:{ rewrite Nat2Z.inj_mul, Z.div_mul; lia. }
    destruct (Z.eqb_spec (Z.of_nat m) (Z.of_nat k)), (decide (m = k)) as [->|];
      try lia; by rewrite ?bool_decide_eq_true_2, ?bool_decide_eq_false_2 by done.
Qed.
(** What the two assertions let through: square images whose side,
    floor-divided by the block size, gives the block size. *)
Lemma check_image_not_square cls attrs (t : tensor) b c s s' rest w :
  shape t = b :: c :: s :: s' :: rest → s ≠ s' →
  MultiAxisAttention.check_image env (VModule cls attrs) (VTensor t) w
  = (Raise AssertionError, w).
Proof.
  intros Hsh Hne.
  unfold MultiAxisAttention.check_image, shape_item, py_assert. rewrite Hsh. run_m.
  destruct (Z.eqb_spec (Z.of_nat s) (Z.of_nat s')); [lia|]. reflexivity.
Qed.

(** The floor division lets through the [k - 1] sides that follow [k*k],
    none of which is a multiple of [k]. *)
Lemma check_image_accepts_indivisible cls attrs (k s : nat) (t : tensor) b c rest w :
  attrs !! "block_size" = Some (VInt (Z.of_nat k)) →
  k * k < s < k * k + k →
  shape t = b :: c :: s :: s :: rest →
  s `mod` k ≠ 0
  ∧ MultiAxisAttention.check_image env (VModule cls attrs) (VTensor t) w = (Ok tt, w).
Proof.
  intros Hbs [Hlo Hhi] Hsh.
  assert (Hdiv : s / k = k) by (symmetry; apply (Nat.div_unique _ _ _ (s - k * k)); lia).
  assert (Hmod : s `mod` k = s - k * k)
    by (symmetry; apply (Nat.mod_unique _ _ k); lia).
  split; [lia|].
  rewrite (check_image_square _ _ (Z.of_nat k) _ b c s rest) by (done || lia).
  rewrite <- (Nat2Z.inj_div s k), Hdiv, Z.eqb_refl. reflexivity.
Qed.

(** X11: what the two assertions of [forward] reject.  On a constructed
    [MultiAxisAttention] with a positive block size, an image whose third
    and fourth extents differ, or whose side floor-divided by the block
    size is not the block size, raises [AssertionError] before anything
    else runs: the state is unchanged. *)
Lemma MultiAxisAttention_forward_asserts
    nchannels block_size nhead dropout w w1 self (t : tensor) b c s s' rest w2 :
  MultiAxisAttention.__init__ env nchannels block_size nhead dropout w = (Ok self, w1) →
  (0 < block_size)%Z →
  shape t = b :: c :: s :: s' :: rest →
  s ≠ s' ∨ (Z.of_nat s `div` block_size ≠ block_size)%Z →
  MultiAxisAttention.forward env self (VTensor t) w2 = (Raise AssertionError, w2).
Proof.
  intros Hinit Hk Hsh Hbad.
  destruct (MultiAxisAttention_init_attrs _ _ _ _ _ _ _ Hinit)
    as (attrs & lin & f & -> & Hbs & _).
  unfold MultiAxisAttention.forward. apply bind_raise.
  destruct (decide (s = s')) as [<-|Hne].
  - rewrite (check_image_square _ _ block_size _ b c s rest) by done.
    destruct Hbad as [|Hbad]; [done|].
    by destruct (Z.eqb_spec (Z.of_nat s `div` block_size) block_size).
  - by eapply check_image_not_square.
Qed.

Lemma always_raises_bind_ok {A B} (m : M A) (k : A → M B) :
  (∀ a w w', m w = (Ok a, w') → ∃ e w'', k a w' = (Raise e, w'')) →
  always_raises (bind m k).
Proof.
  intros H w. unfold bind.
  destruct (m w) as [[a|e] w'] eqn:E; [by eapply H | eauto].
Qed.

(** X10: the blocked image never reaches the projection as a tensor:
    [forward] of a constructed [MultiAxisAttention] returns on no input,
    whatever the arguments of the constructor. *)
Lemma MultiAxisAttention_forward_never_returns
    nchannels block_size nhead dropout w w1 self img :
  MultiAxisAttention.__init__ env nchannels block_size nhead dropout w = (Ok self, w1) →
  always_raises (MultiAxisAttention.forward env self img).
Proof.
  intros Hinit.
  destruct (MultiAxisAttention_init_attrs _ _ _ _ _ _ _ Hinit)
    as (attrs & lin & f & -> & _ & _ & _ & _ & _ & Hqkv & Hw & _).
  unfold MultiAxisAttention.forward.
  do 5 (apply always_raises_bind_r; intros ?).
  apply always_raises_bind_ok. intros blocks w2 w3 Hmap.
  rewrite (bind_ok _ _ _ _ _ (getattr_Some _ _ _ _ _ Hqkv)).
  eexists _, _. apply bind_raise. eapply call_Linear_not_tensor; [exact Hw|].
  intros t ->. unfold map_rearrange_blocks in Hmap.
  repeat case_match; discriminate Hmap.
Qed.

(** ** MultiAxisAttention: the head split *)

Lemma scale_heads_spec cls attrs (s : R) (h : Z) (t : tensor) (b n p c : nat) w :
  attrs !! "scale" = Some (VFloat s) → (0 < h)%Z →
  shape t = [b; n; p; Z.to_nat h * c] →
  ∃ y, MultiAxisAttention.scale_heads env (VModule cls attrs) (VInt h) (VTensor t) w
       = (Ok (VTensor y), World (rng w) (log w ++ [Op "rearrange"; Op "mul"]))
     ∧ shape y = [b; Z.to_nat h; n; p; c]
     ∧ ∀ bi hi ni pi ci,
         get y [bi; hi; ni; pi; ci] = fmul (get t [bi; ni; pi; hi * c + ci]) s.
Proof.
  intros Hs Hh Hsh.
  unfold MultiAxisAttention.scale_heads, rearrange, split_heads_blocks, getattr, py_mul.
  rewrite Hsh, Hs.
  assert (Hn : 0 < Z.to_nat h) by lia.
  assert (Hmod : (Z.to_nat h * c) `mod` Z.to_nat h = 0)
    by (rewrite Nat.mul_comm; apply Nat.Div0.mod_mul).
  assert (Hdiv : (Z.to_nat h * c) / Z.to_nat h = c)
    by (rewrite Nat.mul_comm; apply Nat.div_mul; lia).
  run_m. destruct (Z.eqb_spec h 0); [lia|]. destruct (Z.ltb_spec h 0); [lia|].
  rewrite Hmod, Hdiv.
  run_m. eexists. split; [|split].
  - rewrite <- !app_assoc. reflexivity.
  - reflexivity.
  - reflexivity.
Qed.

(** The head split of line 217 taken alone, on three tensors handed to
    it directly: it multiplies the keys and the values by
    [(c // h) ** -0.5] exactly as it does the queries.  No call of
    [forward] gets this far. *)
Lemma MultiAxisAttention_scales_keys_and_values
    (nchannels block_size nhead : Z) (dropout : R) (w w1 : world) (self : pyval)
    (q k v : tensor) (b n p c : nat) :
  MultiAxisAttention.__init__ env nchannels block_size nhead dropout w = (Ok self, w1) →
  (0 < nhead ≤ nchannels)%Z →
  shape q = [b; n; p; Z.to_nat nhead * c] →
  shape k = [b; n; p; Z.to_nat nhead * c] →
  shape v = [b; n; p; Z.to_nat nhead * c] →
  ∀ w2, ∃ q' k' v' w3,
    MultiAxisAttention.project_heads env self (VInt nhead)
      (VTensor q) (VTensor k) (VTensor v) w2
    = (Ok (VTensor q', VTensor k', VTensor v'), w3)
    ∧ ∀ bi hi ni pi ci,
        let s := pow_neg_half (nchannels `div` nhead) in
        get q' [bi; hi; ni; pi; ci] = fmul (get q [bi; ni; pi; hi * c + ci]) s
        ∧ get k' [bi; hi; ni; pi; ci] = fmul (get k [bi; ni; pi; hi * c + ci]) s
        ∧ get v' [bi; hi; ni; pi; ci] = fmul (get v [bi; ni; pi; hi * c + ci]) s.
Proof.
  intros Hinit [Hh Hc] Hq Hk Hv w2.
  destruct (MultiAxisAttention_init_attrs _ _ _ _ _ _ _ Hinit)
    as (attrs & lin & f & -> & _ & _ & _ & _ & _ & _ & _ & Hscale).
  assert (Hpos : (0 < nchannels `div` nhead)%Z) by (apply Z.div_str_pos; lia).
  specialize (Hscale Hpos).
  unfold MultiAxisAttention.project_heads.
  destruct (scale_heads_spec "MultiAxisAttention" _ _ _ _ _ _ _ _ w2 Hscale Hh Hq)
    as (q' & Eq' & _ & Gq).
  rewrite (bind_ok _ _ _ _ _ Eq').
  match goal with |- context [bind _ _ ?w] =>
    destruct (scale_heads_spec "MultiAxisAttention" _ _ _ _ _ _ _ _ w Hscale Hh Hk)
      as (k' & Ek' & _ & Gk) end.
  rewrite (bind_ok _ _ _ _ _ Ek').
  match goal with |- context [bind _ _ ?w] =>
    destruct (scale_heads_spec "MultiAxisAttention" _ _ _ _ _ _ _ _ w Hscale Hh Hv)
      as (v' & Ev' & _ & Gv) end.
  rewrite (bind_ok _ _ _ _ _ Ev').
  eexists q', k', v', _. split; [reflexivity|].
  intros. cbn. by rewrite Gq, Gk, Gv.
Qed.
(** ** MultiQueryAttention without a context *)

Lemma MultiQueryAttention_init_layers emb_dim nhead dropout w self w1 :
  MultiQueryAttention.__init__ env emb_dim nhead dropout w = (Ok self, w1) →
  ∃ attrs lq fq lkv wkv, self = VModule "MultiQueryAttention" attrs
    ∧ attrs !! "nhead" = Some (VInt nhead)
    ∧ attrs !! "to_q" = Some (VModule "Linear" lq)
    ∧ lq !! "weight" = Some (VTensor (Tensor [Z.to_nat emb_dim; Z.to_nat emb_dim] fq))
    ∧ attrs !! "to_kv" = Some (VModule "Linear" lkv)
    ∧ lkv !! "weight" = Some (VTensor wkv).
Proof.
  unfold MultiQueryAttention.__init__. intros H.
  unfold bind at 1 in H. cbn in H.
  init_step H Ediv. init_step H Epow. init_step H Etoq. init_step H Ediv2.
  init_step H Ekv. init_step H Eo. init_step H Edrop.
  apply nn_Linear_ok in Etoq as (lq & fq & -> & Hq).
  apply nn_Linear_ok in Ekv as (lkv & fkv & -> & Hkv).
  injection H as <- <-. eexists _, lq, fq, lkv, _.
  split; [reflexivity|]. repeat split; by simplify_map_eq.
Qed.

Lemma MultiQueryAttention_forward_None cls attrs h lq (wq : tensor) lkv (wkv : tensor) :
  attrs !! "nhead" = Some h →
  attrs !! "to_q" = Some (VModule "Linear" lq) →
  lq !! "weight" = Some (VTensor wq) →
  attrs !! "to_kv" = Some (VModule "Linear" lkv) →
  lkv !! "weight" = Some (VTensor wkv) →
  (∀ input, always_raises (MultiQueryAttention.forward env (VModule cls attrs) input VNone))
  ∧ ∀ (t : tensor) outf inf w,
      shape wq = [outf; inf] → last_dim t = Some inf →
      MultiQueryAttention.forward env (VModule cls attrs) (VTensor t) VNone w
      = (Raise TypeError, World (rng w) (log w ++ [Op "linear"])).
Proof.
  intros Hh Hq Hwq Hkv Hwkv. split.
  - intros input. unfold MultiQueryAttention.forward. cbn [truthy negb].
    do 3 (apply always_raises_bind_r; intros ?).
    intros w. rewrite (bind_ok _ _ _ _ _ (getattr_Some _ _ _ _ _ Hkv)).
    revert w. apply always_raises_bind_l. intros w.
    eexists _, _. by eapply call_Linear_not_tensor.
  - intros t outf inf w Hsh Hd. unfold MultiQueryAttention.forward. cbn [truthy negb].
    rewrite (bind_ok _ _ _ _ _ (getattr_Some _ _ _ _ _ Hh)).
    rewrite (bind_ok _ _ _ _ _ (getattr_Some _ _ _ _ _ Hq)).
    rewrite (bind_ok _ _ _ _ _ (call_Linear_tensor _ _ _ _ _ _ Hwq Hsh Hd)).
    rewrite (bind_ok _ _ _ _ _ (getattr_Some _ _ _ _ _ Hkv)).
    apply bind_raise. by eapply call_Linear_not_tensor.
Qed.

(** C3, on the code: called without a context, [forward] of a constructed
    [MultiQueryAttention] never returns, whatever the input; on an input
    of the right width it runs the query projection and then raises the
    [TypeError] of [to_kv(None)]: [context if not None else input] keeps
    the absent context. *)
Theorem MultiQueryAttention_self_attention_raises
    (emb_dim nhead : Z) (dropout : R) (w w1 : world) (self : pyval) :
  MultiQueryAttention.__init__ env emb_dim nhead dropout w = (Ok self, w1) →
  (∀ input, always_raises (MultiQueryAttention.forward env self input VNone))
  ∧ ∀ (t : tensor) w2,
      last_dim t = Some (Z.to_nat emb_dim) →
      MultiQueryAttention.forward env self (VTensor t) VNone w2
      = (Raise TypeError, World (rng w2) (log w2 ++ [Op "linear"])).
Proof.
  intros Hinit.
  destruct (MultiQueryAttention_init_layers _ _ _ _ _ _ Hinit)
    as (attrs & lq & fq & lkv & wkv & -> & Hh & Hq & Hwq & Hkv & Hwkv).
  destruct (MultiQueryAttention_forward_None "MultiQueryAttention"
              _ _ _ _ _ _ Hh Hq Hwq Hkv Hwkv) as [Hall Hty].
  split; [exact Hall|]. intros t w2 Hd. by eapply Hty.
Qed.

(** C5, on the code: with the context absent, [forward] raises the same
    [TypeError] after the query projection whichever value [flash] holds;
    neither the fused nor the explicit attention is reached, so there is
    no output of either path. *)
Theorem MultiQueryAttention_paths_raise_alike
    (emb_dim nhead : Z) (dropout : R) (w w1 : world) (self : pyval) (flash : bool) :
  MultiQueryAttention.__init__ env emb_dim nhead dropout w = (Ok self, w1) →
  let self' := setattr self "flash" (VBool flash) in
  (∀ w2, getattr env self' "flash" w2 = (Ok (VBool flash), w2))
  ∧ (∀ input, always_raises (MultiQueryAttention.forward env self' input VNone))
  ∧ ∀ (t : tensor) w2,
      last_dim t = Some (Z.to_nat emb_dim) →
      MultiQueryAttention.forward env self' (VTensor t) VNone w2
      = (Raise TypeError, World (rng w2) (log w2 ++ [Op "linear"])).
Proof.
  intros Hinit.
  destruct (MultiQueryAttention_init_layers _ _ _ _ _ _ Hinit)
    as (attrs & lq & fq & lkv & wkv & -> & Hh & Hq & Hwq & Hkv & Hwkv).
  cbn [setattr].
  destruct (MultiQueryAttention_forward_None "MultiQueryAttention"
              (<["flash" := VBool flash]> attrs) (VInt nhead) lq
              (Tensor [Z.to_nat emb_dim; Z.to_nat emb_dim] fq) lkv wkv)
    as [Hall Hty]; try (by simplify_map_eq).
  split; [|split].
  - intros w2. apply getattr_Some. by simplify_map_eq.
  - exact Hall.
  - intros t w2 Hd. by eapply Hty.
Qed.
(** ** MultiAxisAttention: sides the assertions should not admit *)

Lemma unfold_kernel_overhang (t : tensor) (b c k s : nat) :
  0 < c → k * k < s < k * k + k → shape t = [b; c; s; s] →
  ∃ u, unfold_kernel t (Z.of_nat k) (Z.of_nat k) = Ok u
     ∧ shape u = [b; c * k * k; k * k].
Proof.
  intros Hc [Hlo Hhi] Hsh. unfold unfold_kernel. rewrite Hsh, Nat2Z.id.
  assert (Hk : 0 < k) by nia.
  destruct (Z.leb_spec (Z.of_nat k) 0); [lia|]. cbn [orb].
  destruct (Nat.eqb_spec c 0); [lia|].
  destruct (Nat.ltb_spec s k); [nia|]. cbn [orb].
  assert (Hw : windows s k k = k).
  { unfold windows.
    replace ((s - k) / k) with (k - 1); [lia|].
    apply (Nat.div_unique _ _ _ (s - k * k)); nia. }
  rewrite Hw. eexists. split; reflexivity.
Qed.

(** C1, on the code: for a block size [k] and a side [s] with
    [k*k < s < k*k + k] (17 for [k = 4]) the side is no multiple of [k],
    yet a constructed [MultiAxisAttention] lets the square image through
    both assertions, runs the blocker on it, which keeps [k] windows per
    axis and drops the [s - k*k] last rows and columns, and ends in the
    [TypeError] of the projection, not in an [AssertionError]. *)
Theorem MultiAxisAttention_accepts_overhang
    (nchannels nhead : Z) (dropout : R) (k s b c : nat) (t : tensor)
    (w w1 : world) (self : pyval) :
  MultiAxisAttention.__init__ env nchannels (Z.of_nat k) nhead dropout w = (Ok self, w1) →
  0 < c → k * k < s < k * k + k →
  shape t = [b; c; s; s] →
  s `mod` k ≠ 0
  ∧ ∀ w2,
      MultiAxisAttention.check_image env self (VTensor t) w2 = (Ok tt, w2)
      ∧ (∃ blocks,
           (do blocker <- getattr env self "blocker";
            call_leaf env blocker (VTensor t)) w2
           = (Ok (VTensor blocks), World (rng w2) (log w2 ++ [Op "unfold"]))
           ∧ shape blocks = [b; c * k * k; k * k])
      ∧ MultiAxisAttention.forward env self (VTensor t) w2
        = (Raise TypeError, World (rng w2) (log w2 ++ [Op "unfold"])).
Proof.
  intros Hinit Hc Hs Hsh.
  destruct (MultiAxisAttention_init_attrs _ _ _ _ _ _ _ Hinit)
    as (attrs & lin & f & -> & Hbs & Hblocker & Hh & Hch & _ & Hqkv & Hw & _).
  destruct (check_image_accepts_indivisible "MultiAxisAttention" attrs k s t b c [] w Hbs Hs Hsh)
    as [Hmod _].
  split; [exact Hmod|]. intros w2.
  destruct (check_image_accepts_indivisible "MultiAxisAttention" attrs k s t b c [] w2 Hbs Hs Hsh)
    as [_ Hcheck].
  destruct (unfold_kernel_overhang t b c k s Hc Hs Hsh) as (u & Hu & Hshape).
  assert (Hcall : call_leaf env (unfold_module (Z.of_nat k)) (VTensor t) w2
                  = (Ok (VTensor u), World (rng w2) (log w2 ++ [Op "unfold"])))
    by (by rewrite call_unfold_module, Hu).
  split; [exact Hcheck|]. split.
  - exists u. split; [|exact Hshape].
    by rewrite (bind_ok _ _ _ _ _ (getattr_Some _ _ _ _ _ Hblocker)).
  - unfold MultiAxisAttention.forward.
    rewrite (bind_ok _ _ _ _ _ Hcheck).
    rewrite (bind_ok _ _ _ _ _ (getattr_Some _ _ _ _ _ Hh)).
    rewrite (bind_ok _ _ _ _ _ (getattr_Some _ _ _ _ _ Hch)).
    rewrite (bind_ok _ _ _ _ _ (getattr_Some _ _ _ _ _ Hblocker)).
    rewrite (bind_ok _ _ _ _ _ Hcall).
    unfold map_rearrange_blocks, ndim. rewrite Hshape. cbn [length Nat.eqb].
    unfold bind at 1, ret at 1.
    rewrite (bind_ok _ _ _ _ _ (getattr_Some _ _ _ _ _ Hqkv)).
    apply bind_raise. by eapply call_Linear_not_tensor.
Qed.
(** ** MultiAxisAttention: dropout in evaluation mode *)

Lemma Module_eval_lookup (attrs : gmap string pyval) cls name v :
  name ≠ "training" → attrs !! name = Some v →
  ∃ attrs', Module_eval (VModule cls attrs) = VModule cls attrs'
    ∧ attrs' !! name = Some (Module_eval v)
    ∧ attrs' !! "training" = Some (VBool false).
Proof.
  intros Hne Hv. cbn. eexists. split; [reflexivity|]. split.
  - rewrite lookup_insert_ne by done. by rewrite lookup_fmap, Hv.
  - apply lookup_insert_eq.
Qed.

(** The explicit branch of lines 228-232 taken alone, on three tensors
    handed to it directly, for an instance in evaluation mode: the softmax
    weights pass through [F.dropout] with its defaults, probability 0.5
    and [training=True], and the generator advances by one draw.  No call
    of [forward] gets this far. *)
Lemma MultiAxisAttention_eval_attention_draws
    nchannels block_size nhead dropout w w1 self (q k v : tensor) :
  "scaled_dot_product_attnetion" ∉ F_names env →
  fltb fhalf fzero = false → fltb fone fhalf = false →
  MultiAxisAttention.__init__ env nchannels block_size nhead dropout w = (Ok self, w1) →
  ∀ w2,
    getattr env (Module_eval self) "training" w2 = (Ok (VBool false), w2)
    ∧ MultiAxisAttention.attention env (Module_eval self) (VTensor q) (VTensor k) (VTensor v) w2
      = match einsum_blocks_qk q k with
        | Raise e => (Raise e, w2)
        | Ok sim =>
            let '(f, g) :=
              dropout_train (rng w2) fhalf (shape sim) (get (softmax_last sim)) in
            match einsum_blocks_av (Tensor (shape sim) f) v with
            | Ok y =>
                (Ok (VTensor y),
                 World g (log w2 ++ [Op "einsum"; Op "softmax"; Op "dropout"; Op "einsum"]))
            | Raise e =>
                (Raise e, World g (log w2 ++ [Op "einsum"; Op "softmax"; Op "dropout"]))
            end
        end.
Proof.
  intros HF Hlo Hhi Hinit w2.
  destruct (MultiAxisAttention_init_attrs _ _ _ _ _ _ _ Hinit)
    as (attrs & lin & f & -> & _ & _ & _ & _ & Hflash & _).
  unfold hasattr_F in Hflash. rewrite bool_decide_eq_false_2 in Hflash by done.
  destruct (Module_eval_lookup attrs "MultiAxisAttention" "flash" _ ltac:(done) Hflash)
    as (attrs' & -> & Hflash' & Htr).
  split; [by apply getattr_Some|].
  unfold MultiAxisAttention.attention.
  rewrite (bind_ok _ _ _ _ _ (getattr_Some _ _ _ _ _ Hflash')).
  cbn [Module_eval truthy].
  unfold MultiAxisAttention.explicit_attention, einsum, Tensor_softmax, F_dropout,
    draw_dropout.
  rewrite Hlo, Hhi. run_m.
  destruct (einsum_blocks_qk q k) as [sim|e]; run_m; [|reflexivity].
  destruct (dropout_train _ _ _ _) as [f' g]. run_m.
  destruct (einsum_blocks_av _ v); run_m; rewrite <- !app_assoc; reflexivity.
Qed.
(** * Further properties of the code *)

Lemma idx_snoc_split (tl : list nat) : tl ≠ [] → idx_init tl ++ [idx_last tl] = tl.
Proof. intros H. symmetry. by apply app_removelast_last. Qed.

Lemma in_range_cons_inv d sh idx :
  in_range (d :: sh) idx → ∃ i tl, idx = i :: tl ∧ i < d ∧ in_range sh tl.
Proof. unfold in_range. intros H. inversion H; subst. eauto. Qed.

Lemma in_range_snoc_nonempty pre d idx : in_range (pre ++ [d]) idx → idx ≠ [].
Proof.
  unfold in_range. intros H ->. apply Forall2_length in H.
  rewrite length_app in H. simpl in H. lia.
Qed.

(** X1: the head split of [MultiQueryAttention.forward],
    [rearrange(q, "b ... (h d) -> b h ... d", h=h)], followed by its head
    merge, [rearrange(y, "b h ... d -> b ... (h d)")], gives back the
    tensor it started from, for every rank and every positive head count
    that divides the last axis; each of the two runs one [rearrange]. *)
Theorem MultiQueryAttention_heads_round_trip (t : tensor) (h : Z) (b d : nat)
    (mid : list nat) (w : world) :
  (0 < h)%Z →
  shape t = b :: mid ++ [Z.to_nat h * d] →
  ∃ y,
    (do s <- rearrange (λ t, split_heads t h) (VTensor t);
     rearrange merge_heads s) w
    = (Ok (VTensor y), World (rng w) (log w ++ [Op "rearrange"; Op "rearrange"]))
    ∧ shape y = shape t
    ∧ ∀ idx, in_range (shape t) idx → get y idx = get t idx.
Proof.
  intros Hh Hsh.
  assert (Hmod : (Z.to_nat h * d) `mod` Z.to_nat h = 0)
    by (rewrite Nat.mul_comm; apply Nat.Div0.mod_mul).
  assert (Hdiv : (Z.to_nat h * d) / Z.to_nat h = d)
    by (rewrite Nat.mul_comm; apply Nat.div_mul; lia).
  unfold rearrange, split_heads. rewrite Hsh, last_snoc.
  destruct (Z.eqb_spec h 0); [lia|]. destruct (Z.ltb_spec h 0); [lia|].
  rewrite Hmod, Hdiv. cbn [Nat.eqb].
  rewrite idx_init_snoc. run_m.
  unfold merge_heads. cbn [shape]. rewrite last_snoc, idx_init_snoc. run_m.
  eexists. split; [by rewrite <- app_assoc|]. split; [reflexivity|].
  intros idx Hidx.
  apply in_range_cons_inv in Hidx as (bi & tl & -> & _ & Htl).
  apply in_range_snoc_nonempty in Htl. cbn.
  rewrite idx_init_snoc, idx_last_snoc.
  pose proof (Nat.div_mod_eq (idx_last tl) d).
  replace (idx_last tl / d * d + idx_last tl `mod` d) with (idx_last tl) by lia.
  by rewrite idx_snoc_split.
Qed.

(** [chunk(2, dim=-1)] on a last axis of extent at least two: the first
    chunk takes the larger half. *)
Lemma chunk_last_two (t : tensor) pre D :
  shape t = pre ++ [D] → 2 ≤ D →
  chunk_last t 2
  = Ok [narrow_last t 0 ((D + 1) / 2); narrow_last t ((D + 1) / 2) (D - (D + 1) / 2)].
Proof.
  intros E HD. unfold chunk_last. rewrite (last_dim_snoc _ _ _ E).
  change (2 =? 0) with false. cbv beta iota zeta.
  replace (D + 2 - 1) with (D + 1) by lia.
  set (s := (D + 1) / 2).
  assert (Hs : 2 * s ≤ D + 1 < 2 * s + 2).
  { pose proof (Nat.div_mod_eq (D + 1) 2). pose proof (Nat.mod_upper_bound (D + 1) 2).
    fold s in H. lia. }
  assert (H2 : (D + s - 1) / s = 2)
    by (symmetry; apply (Nat.div_unique _ _ _ (D - 1 - s)); lia).
  destruct (Nat.eqb_spec s 0); [lia|]. rewrite H2.
  change (2 `max` 1) with 2. change (seq 0 2) with [0; 1].
  cbn [fmap list_fmap Nat.ltb Nat.leb Nat.sub].
  replace (1 * s) with s by lia. replace (s - (s * 2 - D)) with (D - s) by lia.
  replace (0 * s) with 0 by lia. reflexivity.
Qed.

Lemma chunk_last_one (t : tensor) pre :
  shape t = pre ++ [1] → chunk_last t 2 = Ok [narrow_last t 0 1].
Proof. intros E. unfold chunk_last. by rewrite (last_dim_snoc _ _ _ E). Qed.

(** Every extent but one gives two chunks, the empty extent included. *)
Lemma chunk_last_pair (t : tensor) pre D :
  shape t = pre ++ [D] → D ≠ 1 → ∃ a b, chunk_last t 2 = Ok [a; b].
Proof.
  intros E HD. destruct D as [|[|D]]; [|done|].
  - eexists _, _. by apply (chunk_last_halves _ pre 0).
  - eexists _, _. apply (chunk_last_two _ pre); [done|lia].
Qed.

Lemma GEGLU_forward_always_raises (self x : pyval) : always_raises (GEGLU.forward self x).
Proof.
  unfold GEGLU.forward.
  apply always_raises_bind_r. intros cs.
  apply always_raises_bind_r. intros [a gate].
  apply always_raises_bind_l. intros w. by eexists _, _.
Qed.

(** X6: [GEGLU.forward] returns on no input.  On a tensor it runs the
    chunk and then raises: [ValueError] from the unpacking into
    [x, gate] when the last axis has extent one and [chunk] gives a
    single piece, and the [TypeError] of [F.gelu(x, 'tanh')] for every
    other extent, odd ones and the empty one included. *)
Theorem GEGLU_forward_never_returns (self : pyval) (t : tensor) (pre : list nat)
    (D : nat) (w : world) :
  shape t = pre ++ [D] →
  (∀ x, always_raises (GEGLU.forward self x))
  ∧ GEGLU.forward self (VTensor t) w
    = (Raise (if D =? 1 then ValueError else TypeError),
       World (rng w) (log w ++ [Op "chunk"])).
Proof.
  intros E. split; [intros x; apply GEGLU_forward_always_raises|].
  unfold GEGLU.forward, Tensor_chunk. unfold bind at 1 2, lift at 1.
  destruct (Nat.eqb_spec D 1) as [->|HD].
  - by rewrite (chunk_last_one _ _ E).
  - by destruct (chunk_last_pair _ _ _ E HD) as (a & b & ->).
Qed.

(** ** MLP *)

Lemma nn_LayerNorm_ok d w v w' :
  nn_LayerNorm env d w = (Ok v, w') →
  ∃ attrs (wt bt : tensor), v = VModule "LayerNorm" attrs
    ∧ attrs !! "normalized_shape" = Some (VInt d)
    ∧ attrs !! "weight" = Some (VTensor wt)
    ∧ attrs !! "bias" = Some (VTensor bt).
Proof.
  unfold nn_LayerNorm, bind, nn_Module_init. cbn.
  destruct (allocates _ _); [|done]. cbn. intros [= <- <-].
  eexists _, _, _. split; [reflexivity|]. repeat split; by simplify_map_eq.
Qed.

Lemma call_LayerNorm ln d (wt bt : tensor) x w :
  ln !! "normalized_shape" = Some (VInt d) →
  ln !! "weight" = Some (VTensor wt) →
  ln !! "bias" = Some (VTensor bt) →
  call_leaf env (VModule "LayerNorm" ln) x w
  = match x with
    | VTensor t =>
        if bool_decide (last_dim t = Some (Z.to_nat d))
        then (Ok (VTensor (layer_norm_kernel t wt bt (Z.to_nat d))),
              World (rng w) (log w ++ [Op "layer_norm"]))
        else (Raise RuntimeError, w)
    | _ => (Raise TypeError, w)
    end.
Proof.
  intros Hd Hw Hb. unfold call_leaf, call_torch. cbn.
  unfold LayerNorm_forward, getattr. rewrite Hd, Hw, Hb. run_m.
  destruct x; try reflexivity. run_m. by case_bool_decide.
Qed.

(** What [int(emb_dim * 4 * 2/3)] can be: never one. *)
Lemma inner_dim_ok emb_dim w v w' :
  MLP.inner_dim emb_dim w = (Ok v, w') → (0 ≤ emb_dim)%Z →
  w' = w ∧ (v = 0 ∨ 2 ≤ v)%Z.
Proof.
  unfold MLP.inner_dim, int_of_third. intros H He.
  destruct (_ <=? _)%Z; [done|]. injection H as <- <-. split; [done|].
  replace (emb_dim * 4 * 2)%Z with (8 * emb_dim)%Z by lia.
  destruct (Z.eq_dec emb_dim 0) as [->|Hne]; [by left|right].
  rewrite Z.abs_eq, Z.sgn_pos by lia.
  set (n := (8 * emb_dim)%Z). set (q := (n `div` 3)%Z).
  assert (Hq : (2 ≤ q)%Z) by (apply Z.div_le_lower_bound; lia).
  destruct (Z.ltb_spec q (2 ^ 52)) as [|Hbig]; [lia|].
  set (e := Z.log2 q).
  assert (He52 : (52 ≤ e)%Z)
    by (rewrite <- (Z.log2_pow2 52) by lia; by apply Z.log2_le_mono).
  pose proof (Z.log2_spec q ltac:(lia)) as [Hlo _]. fold e in Hlo.
  set (u := (2 ^ (e - 52))%Z).
  assert (Hu : (1 ≤ u)%Z) by (apply (Z.pow_le_mono_r 2 0); lia).
  assert (Hpow : (2 ^ e = u * 2 ^ 52)%Z)
    by (unfold u; rewrite <- Z.pow_add_r by lia; f_equal; lia).
  assert (Hn : (3 * q ≤ n)%Z) by (apply Z.mul_div_le; lia).
  assert (Hfl : (2 ^ 52 ≤ n `div` (3 * u))%Z) by (apply Z.div_le_lower_bound; nia).
  assert (Hr : (n `div` (3 * u) ≤ round_half_even n (3 * u))%Z)
    by (unfold round_half_even; cbv zeta; repeat case_match; lia).
  assert (1 ≤ 2 ^ 52)%Z by done. nia.
Qed.

Lemma MLP_init_layers emb_dim w self w1 :
  MLP.__init__ env emb_dim w = (Ok self, w1) →
  ∃ inner attrs ln1 (w1t b1t : tensor) p1 f1 act,
    self = VModule "MLP" attrs
    ∧ (0 ≤ emb_dim)%Z ∧ (inner = 0 ∨ 2 ≤ inner)%Z
    ∧ attrs !! "ln1" = Some (VModule "LayerNorm" ln1)
    ∧ ln1 !! "normalized_shape" = Some (VInt emb_dim)
    ∧ ln1 !! "weight" = Some (VTensor w1t) ∧ ln1 !! "bias" = Some (VTensor b1t)
    ∧ attrs !! "proj1" = Some (VModule "Linear" p1)
    ∧ p1 !! "weight" = Some (VTensor (Tensor [Z.to_nat inner; Z.to_nat emb_dim] f1))
    ∧ attrs !! "act" = Some (VModule "GEGLU" act).
Proof.
  unfold MLP.__init__. intros H.
  unfold bind at 1 in H. cbn [nn_Module_init bind emit ret] in H.
  unfold bind at 1 in H. cbn [emit fst snd] in H. cbv beta iota in H.
  init_step H Einner. init_step H Eln1. init_step H Ep1.
  unfold bind at 1 in H. cbn in H.
  init_step H Eln2. init_step H Ep2.
  assert (He : (0 ≤ emb_dim)%Z).
  { apply nn_Linear_ok in Ep1 as _. revert Eln1.
    unfold nn_LayerNorm, bind, nn_Module_init, allocates. cbn.
    destruct (Z.leb_spec 0 emb_dim); [done|]. by cbn. }
  apply inner_dim_ok in Einner as [-> Hinner]; [|done].
  apply nn_LayerNorm_ok in Eln1 as (ln1 & w1t & b1t & -> & ? & ? & ?).
  apply nn_Linear_ok in Ep1 as (p1 & f1 & -> & ?).
  injection H as <- <-.
  eexists _, _, ln1, w1t, b1t, p1, f1, _.
  split; [reflexivity|]. repeat split; try done; by simplify_map_eq.
Qed.

(** X7: [forward] of a constructed [MLP] returns on no input: whatever
    the first normalization and the first projection give, the
    activation raises. *)
Theorem MLP_forward_never_returns (emb_dim : Z) (w w1 : world) (self : pyval) :
  MLP.__init__ env emb_dim w = (Ok self, w1) →
  ∀ x, always_raises (MLP.forward env self x).
Proof.
  intros Hinit x.
  destruct (MLP_init_layers _ _ _ _ Hinit)
    as (inner & attrs & ln1 & w1t & b1t & p1 & f1 & act & -> & _ & _
        & _ & _ & _ & _ & _ & _ & Hact).
  unfold MLP.forward.
  do 4 (apply always_raises_bind_r; intros ?).
  intros w2. rewrite (bind_ok _ _ _ _ _ (getattr_Some _ _ _ _ _ Hact)).
  revert w2. apply always_raises_bind_l.
  apply GEGLU_forward_always_raises.
Qed.

(** X8: on an input whose last axis is [emb_dim], [forward] of a
    constructed [MLP] with [emb_dim >= 1] runs [ln1], [proj1] and the
    activation's chunk and raises the [TypeError] of
    [F.gelu(x, 'tanh')]; [ln2] and [proj2] are not reached and nothing is
    drawn from the generator. *)
Theorem MLP_forward_type_error (emb_dim : Z) (w w1 : world) (self : pyval)
    (t : tensor) (pre : list nat) (w2 : world) :
  (1 ≤ emb_dim)%Z →
  MLP.__init__ env emb_dim w = (Ok self, w1) →
  shape t = pre ++ [Z.to_nat emb_dim] →
  MLP.forward env self (VTensor t) w2
  = (Raise TypeError,
     World (rng w2) (log w2 ++ [Op "layer_norm"; Op "linear"; Op "chunk"])).
Proof.
  intros Hemb Hinit Hsh.
  destruct (MLP_init_layers _ _ _ _ Hinit)
    as (inner & attrs & ln1 & w1t & b1t & p1 & f1 & act & -> & _ & Hinner
        & Hln1 & Hd1 & Hw1t & Hb1t & Hp1 & Hw1 & Hact).
  unfold MLP.forward.
  rewrite (bind_ok _ _ _ _ _ (getattr_Some _ _ _ _ _ Hp1)).
  rewrite (bind_ok _ _ _ _ _ (getattr_Some _ _ _ _ _ Hln1)).
  unfold bind at 1. rewrite (call_LayerNorm _ _ _ _ _ _ Hd1 Hw1t Hb1t).
  rewrite bool_decide_eq_true_2 by (by apply (last_dim_snoc _ pre)).
  unfold bind at 1.
  rewrite (call_Linear_tensor _ _ _ _ _ _ Hw1 eq_refl)
    by (unfold last_dim; cbn [shape layer_norm_kernel]; by rewrite Hsh, last_snoc).
  rewrite (bind_ok _ _ _ _ _ (getattr_Some _ _ _ _ _ Hact)).
  apply bind_raise.
  change (call_leaf env (VModule "GEGLU" act) ?x) with (GEGLU.forward (VModule "GEGLU" act) x).
  assert (Hout : shape (linear_kernel (layer_norm_kernel t w1t b1t (Z.to_nat emb_dim))
                          (Tensor [Z.to_nat inner; Z.to_nat emb_dim] f1)
                          (Z.to_nat emb_dim) (Z.to_nat inner))
                 = pre ++ [Z.to_nat inner])
    by (cbn [shape linear_kernel layer_norm_kernel]; by rewrite Hsh, idx_init_snoc).
  cbn [rng log].
  destruct (GEGLU_forward_never_returns (VModule "GEGLU" act) _ _ _
              (World (rng w2) ((log w2 ++ [Op "layer_norm"]) ++ [Op "linear"])) Hout)
    as [_ ->].
  destruct (Nat.eqb_spec (Z.to_nat inner) 1); [lia|].
  cbn [rng log]. by rewrite <- !app_assoc.
Qed.

Lemma MultiQueryAttention_init_full emb_dim nhead dropout w self w1 :
  MultiQueryAttention.__init__ env emb_dim nhead dropout w = (Ok self, w1) →
  ∃ attrs lq fq lkv fkv, self = VModule "MultiQueryAttention" attrs
    ∧ attrs !! "nhead" = Some (VInt nhead)
    ∧ attrs !! "to_q" = Some (VModule "Linear" lq)
    ∧ lq !! "weight" = Some (VTensor (Tensor [Z.to_nat emb_dim; Z.to_nat emb_dim] fq))
    ∧ attrs !! "to_kv" = Some (VModule "Linear" lkv)
    ∧ lkv !! "weight"
      = Some (VTensor (Tensor [Z.to_nat ((2 * emb_dim) `div` nhead); Z.to_nat emb_dim] fkv))
    ∧ attrs !! "flash" = Some (VBool (hasattr_F env "scaled_dot_product_attnetion"))
    ∧ attrs !! "attn_dropoutdropout" = None
    ∧ ((0 < emb_dim `div` nhead)%Z →
        attrs !! "scale" = Some (VFloat (pow_neg_half (emb_dim `div` nhead)))).
Proof.
  unfold MultiQueryAttention.__init__. intros H.
  unfold bind at 1 in H. cbn in H.
  init_step H Ediv. init_step H Epow. init_step H Etoq. init_step H Ediv2.
  init_step H Ekv. init_step H Eo. init_step H Edrop.
  apply py_floordiv_ok in Ediv as [-> ->].
  apply py_floordiv_ok in Ediv2 as [-> ->].
  apply nn_Linear_ok in Etoq as (lq & fq & -> & Hq).
  apply nn_Linear_ok in Ekv as (lkv & fkv & -> & Hkv).
  assert (Hscale : (0 < emb_dim `div` nhead)%Z →
                   a0 = VFloat (pow_neg_half (emb_dim `div` nhead)))
    by (intros Hpos; by eapply py_pow_neg_half_pos).
  injection H as <- <-. eexists _, lq, fq, lkv, fkv.
  split; [reflexivity|]. repeat split; try (by simplify_map_eq).
  intros Hpos. rewrite (Hscale Hpos). by simplify_map_eq.
Qed.

Lemma rearrange_split_heads (t : tensor) (h : Z) (b d : nat) (mid : list nat) w :
  (0 < h)%Z → shape t = b :: mid ++ [Z.to_nat h * d] →
  rearrange (λ t, split_heads t h) (VTensor t) w
  = (Ok (VTensor (Tensor (b :: Z.to_nat h :: mid ++ [d])
                    (λ idx, match idx with
                            | bi :: hi :: tl =>
                                get t (bi :: idx_init tl ++ [hi * d + idx_last tl])
                            | _ => fzero
                            end))),
     World (rng w) (log w ++ [Op "rearrange"])).
Proof.
  intros Hh Hsh.
  assert (Hmod : (Z.to_nat h * d) `mod` Z.to_nat h = 0)
    by (rewrite Nat.mul_comm; apply Nat.Div0.mod_mul).
  assert (Hdiv : (Z.to_nat h * d) / Z.to_nat h = d)
    by (rewrite Nat.mul_comm; apply Nat.div_mul; lia).
  unfold rearrange, split_heads. rewrite Hsh, last_snoc.
  destruct (Z.eqb_spec h 0); [lia|]. destruct (Z.ltb_spec h 0); [lia|].
  rewrite Hmod, Hdiv. cbn [Nat.eqb].
  rewrite idx_init_snoc. by run_m.
Qed.

Lemma py_mul_scalar (t : tensor) (s : R) w :
  py_mul (VTensor t) (VFloat s) w
  = (Ok (VTensor (map_tensor (λ v, fmul v s) t)), World (rng w) (log w ++ [Op "mul"])).
Proof. reflexivity. Qed.

Lemma einsum_ok f (a b r : tensor) w :
  f a b = Ok r →
  einsum f (VTensor a) (VTensor b) w
  = (Ok (VTensor r), World (rng w) (log w ++ [Op "einsum"])).
Proof. intros E. unfold einsum. run_m. by rewrite E. Qed.

(** Queries split into heads meet keys of the head width. *)
Lemma einsum_qk_heads (q k : tensor) b hn mid tt d :
  shape q = b :: hn :: mid ++ [d] → shape k = [b; tt; d] →
  ∃ r, einsum_qk q k = Ok r.
Proof.
  intros Hq Hk. unfold einsum_qk. rewrite Hq, Hk.
  change (hn :: mid ++ [d]) with ((hn :: mid) ++ [d]). rewrite reverse_snoc.
  destruct (reverse (hn :: mid)) as [|n rmid] eqn:Er.
  { apply (f_equal length) in Er. rewrite length_reverse in Er. discriminate Er. }
  unfold bcast. rewrite !Nat.eqb_refl. by eexists.
Qed.

Lemma unpack3_ok {A} (a b c : A) w : unpack3 [a; b; c] w = (Ok (a, b, c), w).
Proof. reflexivity. Qed.

Lemma as_int_ok z w : as_int (VInt z) w = (Ok z, w).
Proof. reflexivity. Qed.

(** X9: cross-attention on well-formed arguments.  With a head count
    that divides [emb_dim], an input of shape (b, ..., emb_dim) and a
    context of shape (b, t, emb_dim), [forward] of a constructed
    [MultiQueryAttention] runs both projections, the chunk of the
    key/value projection, the head split, the scaling of the queries and
    the first einsum, and stops at the lookup of [attn_dropoutdropout],
    before the softmax. *)
Theorem MultiQueryAttention_cross_attention_run
    (emb_dim nhead : Z) (dropout : R) (w w1 : world) (self : pyval)
    (x c : tensor) (b tt dh : nat) (mid : list nat) (w2 : world) :
  "scaled_dot_product_attnetion" ∉ F_names env →
  "attn_dropoutdropout" ∉ Module_names env →
  MultiQueryAttention.__init__ env emb_dim nhead dropout w = (Ok self, w1) →
  (0 < nhead)%Z → 0 < dh → emb_dim = (nhead * Z.of_nat dh)%Z →
  shape x = b :: mid ++ [Z.to_nat emb_dim] →
  shape c = [b; tt; Z.to_nat emb_dim] →
  MultiQueryAttention.forward env self (VTensor x) (VTensor c) w2
  = (Raise (AttributeError "attn_dropoutdropout"),
     World (rng w2)
       (log w2 ++ [Op "linear"; Op "linear"; Op "chunk"; Op "rearrange"; Op "mul";
                   Op "einsum"])).
Proof.
  intros HF HM Hinit Hh Hdh Hemb Hx Hc.
  destruct (MultiQueryAttention_init_full _ _ _ _ _ _ Hinit)
    as (attrs & lq & fq & lkv & fkv & -> & Hnh & Hq & Hwq & Hkv & Hwkv & Hflash & Hdd
        & Hscale).
  unfold hasattr_F in Hflash. rewrite bool_decide_eq_false_2 in Hflash by done.
  assert (Hdiv : (emb_dim `div` nhead)%Z = Z.of_nat dh)
    by (rewrite Hemb, Z.mul_comm, Z.div_mul by lia; done).
  assert (Hdiv2 : Z.to_nat ((2 * emb_dim) `div` nhead) = 2 * dh).
  { replace (2 * emb_dim)%Z with ((2 * Z.of_nat dh) * nhead)%Z by lia.
    rewrite Z.div_mul by lia. lia. }
  rewrite Hdiv2 in Hwkv. specialize (Hscale ltac:(lia)).
  assert (HE : Z.to_nat emb_dim = Z.to_nat nhead * dh) by (rewrite Hemb; lia).
  set (E := Z.to_nat emb_dim) in *.
  unfold MultiQueryAttention.forward. cbn [truthy negb].
  rewrite (bind_ok _ _ _ _ _ (getattr_Some _ _ _ _ _ Hnh)).
  rewrite (bind_ok _ _ _ _ _ (getattr_Some _ _ _ _ _ Hq)).
  rewrite (bind_ok _ _ _ _ _ (call_Linear_tensor _ _ x E E _ Hwq eq_refl
             (last_dim_snoc _ (b :: mid) _ Hx))).
  rewrite (bind_ok _ _ _ _ _ (getattr_Some _ _ _ _ _ Hkv)).
  rewrite (bind_ok _ _ _ _ _ (call_Linear_tensor _ _ c (2 * dh) E _ Hwkv eq_refl
             (last_dim_snoc _ [b; tt] _ Hc))).
  assert (Hkvs : shape (linear_kernel c (Tensor [2 * dh; E] fkv) E (2 * dh))
                 = [b; tt] ++ [2 * dh])
    by (cbn [shape linear_kernel]; by rewrite Hc).
  assert (Hqs : shape (linear_kernel x (Tensor [E; E] fq) E E)
                = b :: mid ++ [Z.to_nat nhead * dh]).
  { cbn [shape linear_kernel]. rewrite Hx.
    change (b :: mid ++ [E]) with ((b :: mid) ++ [E]).
    by rewrite idx_init_snoc, HE. }
  rewrite (bind_ok _ _ _ _ _ (Tensor_chunk_halves _ _ _ _ Hkvs)).
  cbn [fmap list_fmap].
  rewrite (bind_ok _ _ _ _ _ (unpack3_ok _ _ _ _)). cbv beta iota.
  rewrite (bind_ok _ _ _ _ _ (as_int_ok _ _)).
  rewrite (bind_ok _ _ _ _ _ (rearrange_split_heads _ nhead b dh mid _ Hh Hqs)).
  rewrite (bind_ok _ _ _ _ _ (getattr_Some _ _ _ _ _ Hscale)).
  rewrite (bind_ok _ _ _ _ _ (py_mul_scalar _ _ _)).
  destruct (einsum_qk_heads
              (map_tensor (λ v, fmul v (pow_neg_half (emb_dim `div` nhead)))
                 (Tensor (b :: Z.to_nat nhead :: mid ++ [dh])
                    (λ idx, match idx with
                            | bi :: hi :: tl =>
                                get (linear_kernel x (Tensor [E; E] fq) E E)
                                  (bi :: idx_init tl ++ [hi * dh + idx_last tl])
                            | _ => fzero
                            end)))
              (narrow_last (linear_kernel c (Tensor [2 * dh; E] fkv) E (2 * dh)) 0 dh)
              b (Z.to_nat nhead) mid tt dh eq_refl
              ltac:(cbn [shape narrow_last linear_kernel]; by rewrite Hc))
    as (sim & Hsim).
  apply bind_raise. unfold MultiQueryAttention.attention.
  rewrite (bind_ok _ _ _ _ _ (getattr_Some _ _ _ _ _ Hflash)). cbn [truthy].
  unfold MultiQueryAttention.explicit_attention.
  rewrite (bind_ok _ _ _ _ _ (einsum_ok _ _ _ _ _ Hsim)).
  rewrite (bind_raise _ _ _ _ _ (getattr_None _ _ _ _ Hdd HM)).
  cbn [rng log]. by rewrite <- !app_assoc.
Qed.

(** ** What a constructor that returns has checked *)

Lemma py_floordiv_returns a b w :
  (b ≠ 0)%Z → py_floordiv a b w = (Ok (a `div` b)%Z, w).
Proof. unfold py_floordiv. by destruct (Z.eqb_spec b 0). Qed.

Lemma py_floordiv_inv a b w q w' :
  py_floordiv a b w = (Ok q, w') → (b ≠ 0)%Z.
Proof. unfold py_floordiv. by destruct (Z.eqb_spec b 0). Qed.

Lemma py_pow_neg_half_inv n w v w' :
  py_pow_neg_half n w = (Ok v, w') → (n ≠ 0)%Z.
Proof.
  unfold py_pow_neg_half. destruct (fits_float n); [|done].
  by destruct (Z.eqb_spec n 0).
Qed.

Lemma py_pow_neg_half_zero w : py_pow_neg_half 0 w = (Raise ZeroDivisionError, w).
Proof. reflexivity. Qed.

Lemma allocates_nonneg sizes n : allocates env sizes = true → n ∈ sizes → (0 ≤ n)%Z.
Proof.
  unfold allocates. intros H Hn. apply andb_prop in H as [H _].
  rewrite forallb_forall in H. apply list_elem_of_In, H in Hn.
  apply andb_prop in Hn as [Hn _]. lia.
Qed.

Lemma nn_Linear_inv inf outf w v w' :
  nn_Linear env inf outf w = (Ok v, w') → (0 ≤ inf)%Z ∧ (0 ≤ outf)%Z.
Proof.
  unfold nn_Linear, bind, nn_Module_init. cbn.
  destruct (allocates env [outf; inf]) eqn:E; [|done]. intros _.
  split; apply (allocates_nonneg _ _ E); set_solver.
Qed.

Lemma nn_Dropout_inv p w v w' :
  nn_Dropout p w = (Ok v, w') → fltb p fzero || fltb fone p = false.
Proof.
  unfold nn_Dropout, bind, nn_Module_init. cbn. by destruct (_ || _).
Qed.

Lemma nn_Module_init_bind {B} cls (k : pyval → M B) w :
  bind (nn_Module_init cls) k w
  = k (VModule cls {["training" := VBool true]}) (World (rng w) (log w ++ [New cls])).
Proof. reflexivity. Qed.

Lemma MultiQueryAttention_init_inv emb_dim nhead dropout w self w1 :
  MultiQueryAttention.__init__ env emb_dim nhead dropout w = (Ok self, w1) →
  (0 < nhead ≤ emb_dim)%Z ∧ fltb dropout fzero || fltb fone dropout = false.
Proof.
  unfold MultiQueryAttention.__init__. intros H.
  unfold bind at 1 in H. cbn in H.
  init_step H Ediv. init_step H Epow. init_step H Etoq. init_step H Ediv2.
  init_step H Ekv. init_step H Eo. init_step H Edrop.
  pose proof (py_floordiv_inv _ _ _ _ _ Ediv) as Hh.
  apply py_floordiv_ok in Ediv as [-> ->].
  apply py_floordiv_ok in Ediv2 as [-> ->].
  apply py_pow_neg_half_inv in Epow.
  apply nn_Linear_inv in Etoq as [He _]. apply nn_Linear_inv in Ekv as [_ Hkv].
  apply nn_Dropout_inv in Edrop. split; [|done].
  destruct (Z.lt_trichotomy nhead 0) as [Hneg|[?|Hpos]]; [|done|].
  - assert (0 < emb_dim)%Z.
    { destruct (Z.eq_dec emb_dim 0) as [->|]; [by rewrite Z.div_0_l in Epow|lia]. }
    pose proof (Z.div_mod (2 * emb_dim) nhead ltac:(lia)).
    pose proof (Z.mod_neg_bound (2 * emb_dim) nhead Hneg). nia.
  - split; [done|].
    destruct (Z.lt_ge_cases emb_dim nhead); [|done].
    by rewrite Z.div_small in Epow by lia.
Qed.

Lemma MultiAxisAttention_init_inv nchannels block_size nhead dropout w self w1 :
  MultiAxisAttention.__init__ env nchannels block_size nhead dropout w = (Ok self, w1) →
  ((0 < nhead ≤ nchannels) ∨ (nhead < 0 ∧ 0 < nchannels))%Z
  ∧ (hasattr_F env "scaled_dot_product_attnetion" = false →
     fltb dropout fzero || fltb fone dropout = false).
Proof.
  unfold MultiAxisAttention.__init__. intros H.
  unfold bind at 1 in H. cbn in H.
  unfold bind at 1 in H. cbn in H.
  init_step H Ediv. init_step H Epow. init_step H Eqkv. init_step H Eo.
  pose proof (py_floordiv_inv _ _ _ _ _ Ediv) as Hh.
  apply py_floordiv_ok in Ediv as [-> ->].
  apply py_pow_neg_half_inv in Epow. apply nn_Linear_inv in Eo as [Hc _].
  split.
  - destruct (Z.lt_trichotomy nhead 0) as [Hneg|[?|Hpos]]; [|done|].
    + right. split; [done|].
      destruct (Z.eq_dec nchannels 0) as [->|]; [by rewrite Z.div_0_l in Epow|lia].
    + left. split; [done|].
      destruct (Z.lt_ge_cases nchannels nhead); [|done].
      by rewrite Z.div_small in Epow by lia.
  - intros Hflash. rewrite Hflash in H. init_step H Edrop.
    by apply nn_Dropout_inv in Edrop.
Qed.

(** X14: a [MultiQueryAttention] that its constructor returned has
    [0 < nhead <= emb_dim] and a dropout rate that passes [nn.Dropout]'s
    range check; every other argument tuple makes the constructor
    raise. *)
Theorem MultiQueryAttention_init_requires
    (emb_dim nhead : Z) (dropout : R) (w w1 : world) (self : pyval) :
  MultiQueryAttention.__init__ env emb_dim nhead dropout w = (Ok self, w1) →
  (0 < nhead ≤ emb_dim)%Z ∧ fltb dropout fzero || fltb fone dropout = false.
Proof. apply MultiQueryAttention_init_inv. Qed.

(** X15: in a torch without the misspelled function name, a
    [MultiAxisAttention] that its constructor returned has a dropout rate
    in range and either [0 < nhead <= nchannels], or a negative head
    count with a positive [nchannels] (its scale is then the complex
    power of a negative int); the block size is not looked at. *)
Theorem MultiAxisAttention_init_requires
    (nchannels block_size nhead : Z) (dropout : R) (w w1 : world) (self : pyval) :
  "scaled_dot_product_attnetion" ∉ F_names env →
  MultiAxisAttention.__init__ env nchannels block_size nhead dropout w = (Ok self, w1) →
  ((0 < nhead ≤ nchannels) ∨ (nhead < 0 ∧ 0 < nchannels))%Z
  ∧ fltb dropout fzero || fltb fone dropout = false.
Proof.
  intros HF H.
  destruct (MultiAxisAttention_init_inv _ _ _ _ _ _ _ H) as [Hh Hp].
  split; [done|]. apply Hp. unfold hasattr_F. by apply bool_decide_eq_false_2.
Qed.

(** X16: with [nhead = 0], or with more heads than [emb_dim], the
    constructor of [MultiQueryAttention] raises [ZeroDivisionError] from
    the computation of the scale, after [nn.Module.__init__] and before
    any layer is built or any parameter drawn. *)
Theorem MultiQueryAttention_init_zero_division
    (emb_dim nhead : Z) (dropout : R) (w : world) :
  (nhead = 0 ∨ 0 ≤ emb_dim < nhead)%Z →
  MultiQueryAttention.__init__ env emb_dim nhead dropout w
  = (Raise ZeroDivisionError, World (rng w) (log w ++ [New "MultiQueryAttention"])).
Proof.
  intros H. unfold MultiQueryAttention.__init__.
  rewrite nn_Module_init_bind. cbv beta zeta.
  destruct H as [->|H]; [reflexivity|].
  assert (Hn0 : (nhead ≠ 0)%Z) by lia.
  rewrite (bind_ok _ _ _ _ _ (py_floordiv_returns emb_dim nhead _ Hn0)).
  rewrite Z.div_small by lia. apply bind_raise, py_pow_neg_half_zero.
Qed.

(** X17: with [nhead = 0], or with more heads than [nchannels], the
    constructor of [MultiAxisAttention] raises [ZeroDivisionError] from
    the computation of the scale: the blocker has been built, no
    projection layer has and no parameter was drawn. *)
Theorem MultiAxisAttention_init_zero_division
    (nchannels block_size nhead : Z) (dropout : R) (w : world) :
  (nhead = 0 ∨ 0 ≤ nchannels < nhead)%Z →
  MultiAxisAttention.__init__ env nchannels block_size nhead dropout w
  = (Raise ZeroDivisionError,
     World (rng w) (log w ++ [New "MultiAxisAttention"; New "Unfold"])).
Proof.
  intros H. unfold MultiAxisAttention.__init__.
  rewrite nn_Module_init_bind. cbv beta zeta.
  unfold nn_Unfold. unfold bind at 1. rewrite nn_Module_init_bind.
  unfold ret at 1. cbv beta iota zeta. cbn [rng log]. rewrite <- app_assoc.
  destruct H as [->|H]; [reflexivity|].
  assert (Hn0 : (nhead ≠ 0)%Z) by lia.
  rewrite (bind_ok _ _ _ _ _ (py_floordiv_returns nchannels nhead _ Hn0)).
  rewrite Z.div_small by lia. apply bind_raise, py_pow_neg_half_zero.
Qed.

(** X18: an [EncoderBlock] that its constructor returned has
    [0 < nhead <= emb_dim] and a dropout rate in range: the constructor
    passes its arguments to [MultiQueryAttention] as they are. *)
Theorem EncoderBlock_init_requires
    (emb_dim nhead : Z) (dropout : R) (w w1 : world) (self : pyval) :
  EncoderBlock.__init__ env emb_dim nhead dropout w = (Ok self, w1) →
  (0 < nhead ≤ emb_dim)%Z ∧ fltb dropout fzero || fltb fone dropout = false.
Proof.
  intros H. unfold EncoderBlock.__init__ in H.
  rewrite nn_Module_init_bind in H.
  init_step H Eln. init_step H Eattn.
  by eapply MultiQueryAttention_init_inv.
Qed.

(** X19: a [TransformerBlock] that its constructor returned has
    [0 < nhead <= emb_dim] and a dropout rate in range. *)
Theorem TransformerBlock_init_requires
    (emb_dim nhead : Z) (dropout : R) (w w1 : world) (self : pyval) :
  TransformerBlock.__init__ env emb_dim nhead dropout w = (Ok self, w1) →
  (0 < nhead ≤ emb_dim)%Z ∧ fltb dropout fzero || fltb fone dropout = false.
Proof.
  intros H. unfold TransformerBlock.__init__ in H.
  rewrite nn_Module_init_bind in H.
  init_step H Eln. init_step H Eattn.
  by eapply MultiQueryAttention_init_inv.
Qed.

(** The first two steps of every block: normalize, then self-attention
    called without a context. *)
Lemma block_self_attention_raises ln d (wt bt : tensor) attrs h lq fq lkv (wkv : tensor)
    (k : pyval → M pyval) :
  ln !! "normalized_shape" = Some (VInt d) →
  ln !! "weight" = Some (VTensor wt) →
  ln !! "bias" = Some (VTensor bt) →
  attrs !! "nhead" = Some h →
  attrs !! "to_q" = Some (VModule "Linear" lq) →
  lq !! "weight" = Some (VTensor (Tensor [Z.to_nat d; Z.to_nat d] fq)) →
  attrs !! "to_kv" = Some (VModule "Linear" lkv) →
  lkv !! "weight" = Some (VTensor wkv) →
  let m := (λ input,
              do n <- call_module env (VModule "LayerNorm" ln) [input];
              do a <- call_module env (VModule "MultiQueryAttention" attrs) [n];
              k a) in
  (∀ input, always_raises (m input))
  ∧ ∀ (t : tensor) pre w,
      shape t = pre ++ [Z.to_nat d] →
      m (VTensor t) w
      = (Raise TypeError, World (rng w) (log w ++ [Op "layer_norm"; Op "linear"])).
Proof.
  intros Hd Hw Hb Hh Hq Hwq Hkv Hwkv m.
  destruct (MultiQueryAttention_forward_None "MultiQueryAttention" attrs h lq _ lkv wkv
              Hh Hq Hwq Hkv Hwkv) as [Hall Hrun].
  split.
  - intros input. apply always_raises_bind_r. intros n.
    apply always_raises_bind_l. apply Hall.
  - intros t pre w Hsh. unfold m, bind at 1.
    change (call_module env (VModule "LayerNorm" ln) [VTensor t] w)
      with (call_leaf env (VModule "LayerNorm" ln) (VTensor t) w).
    rewrite (call_LayerNorm _ _ _ _ _ _ Hd Hw Hb).
    rewrite bool_decide_eq_true_2 by (by apply (last_dim_snoc _ pre)).
    apply bind_raise.
    change (call_module env (VModule "MultiQueryAttention" attrs) [?x])
      with (MultiQueryAttention.forward env (VModule "MultiQueryAttention" attrs) x VNone).
    rewrite (Hrun _ (Z.to_nat d) (Z.to_nat d))
      by (done || (cbn [shape layer_norm_kernel]; by apply (last_dim_snoc _ pre))).
    cbn [rng log]. by rewrite <- app_assoc.
Qed.

(** X20: [forward] of a constructed [EncoderBlock] returns on no input;
    on an input whose last axis is [emb_dim] it runs [ln1] and the query
    projection of [self_attn] and raises the [TypeError] of
    [to_kv(None)]: the block calls its attention without a context. *)
Theorem EncoderBlock_forward_never_returns
    (emb_dim nhead : Z) (dropout : R) (w w1 : world) (self : pyval) :
  EncoderBlock.__init__ env emb_dim nhead dropout w = (Ok self, w1) →
  (∀ input, always_raises (EncoderBlock.forward env self input))
  ∧ ∀ (t : tensor) pre w2,
      shape t = pre ++ [Z.to_nat emb_dim] →
      EncoderBlock.forward env self (VTensor t) w2
      = (Raise TypeError, World (rng w2) (log w2 ++ [Op "layer_norm"; Op "linear"])).
Proof.
  intros H. unfold EncoderBlock.__init__ in H.
  unfold bind at 1 in H. cbn in H.
  init_step H Eln. init_step H Eattn. init_step H Emlp. injection H as <- <-.
  apply nn_LayerNorm_ok in Eln as (ln & wt & bt & -> & Hd & Hw & Hb).
  apply MultiQueryAttention_init_layers in Eattn
    as (attrs & lq & fq & lkv & wkv & -> & Hh & Hq & Hwq & Hkv & Hwkv).
  unfold EncoderBlock.forward. cbn [setattr].
  match goal with |- context [VModule "EncoderBlock" ?a] => set (A := a) end.
  assert (Hsa : A !! "self_attn" = Some (VModule "MultiQueryAttention" attrs))
    by (by subst A; simplify_map_eq).
  assert (Hl1 : A !! "ln1" = Some (VModule "LayerNorm" ln))
    by (by subst A; simplify_map_eq).
  clearbody A.
  split.
  - intros input wa.
    rewrite (bind_ok _ _ _ _ _ (getattr_Some _ _ _ _ _ Hsa)).
    rewrite (bind_ok _ _ _ _ _ (getattr_Some _ _ _ _ _ Hl1)).
    revert wa.
    apply (block_self_attention_raises ln emb_dim wt bt attrs _ lq fq lkv wkv _
             Hd Hw Hb Hh Hq Hwq Hkv Hwkv).
  - intros t pre wa Hsh.
    rewrite (bind_ok _ _ _ _ _ (getattr_Some _ _ _ _ _ Hsa)).
    rewrite (bind_ok _ _ _ _ _ (getattr_Some _ _ _ _ _ Hl1)).
    exact (proj2 (block_self_attention_raises ln emb_dim wt bt attrs _ lq fq lkv wkv _
                    Hd Hw Hb Hh Hq Hwq Hkv Hwkv) t pre wa Hsh).
Qed.

(** X21: [forward] of a constructed [TransformerBlock] returns on no
    input and no context; with or without a context, an input whose last
    axis is [emb_dim] gets through [ln1] and the query projection of
    [self_attn] and raises [TypeError] there, so the cross-attention
    branch is never reached. *)
Theorem TransformerBlock_forward_never_returns
    (emb_dim nhead : Z) (dropout : R) (w w1 : world) (self : pyval) :
  TransformerBlock.__init__ env emb_dim nhead dropout w = (Ok self, w1) →
  (∀ input context, always_raises (TransformerBlock.forward env self input context))
  ∧ ∀ (t : tensor) context pre w2,
      shape t = pre ++ [Z.to_nat emb_dim] →
      TransformerBlock.forward env self (VTensor t) context w2
      = (Raise TypeError, World (rng w2) (log w2 ++ [Op "layer_norm"; Op "linear"])).
Proof.
  intros H. unfold TransformerBlock.__init__ in H.
  unfold bind at 1 in H. cbn in H.
  init_step H Eln. init_step H Eattn. init_step H Eln2. init_step H Ecross.
  init_step H Emlp. injection H as <- <-.
  apply nn_LayerNorm_ok in Eln as (ln & wt & bt & -> & Hd & Hw & Hb).
  apply MultiQueryAttention_init_layers in Eattn
    as (attrs & lq & fq & lkv & wkv & -> & Hh & Hq & Hwq & Hkv & Hwkv).
  unfold TransformerBlock.forward. cbn [setattr].
  match goal with |- context [VModule "TransformerBlock" ?a] => set (A := a) end.
  assert (Hsa : A !! "self_attn" = Some (VModule "MultiQueryAttention" attrs))
    by (by subst A; simplify_map_eq).
  assert (Hl1 : A !! "ln1" = Some (VModule "LayerNorm" ln))
    by (by subst A; simplify_map_eq).
  clearbody A.
  split.
  - intros input context wa.
    rewrite (bind_ok _ _ _ _ _ (getattr_Some _ _ _ _ _ Hsa)).
    rewrite (bind_ok _ _ _ _ _ (getattr_Some _ _ _ _ _ Hl1)).
    revert wa.
    apply (block_self_attention_raises ln emb_dim wt bt attrs _ lq fq lkv wkv _
             Hd Hw Hb Hh Hq Hwq Hkv Hwkv).
  - intros t context pre wa Hsh.
    rewrite (bind_ok _ _ _ _ _ (getattr_Some _ _ _ _ _ Hsa)).
    rewrite (bind_ok _ _ _ _ _ (getattr_Some _ _ _ _ _ Hl1)).
    exact (proj2 (block_self_attention_raises ln emb_dim wt bt attrs _ lq fq lkv wkv _
                    Hd Hw Hb Hh Hq Hwq Hkv Hwkv) t pre wa Hsh).
Qed.

(** X12: on a tensor with fewer than four axes [MultiAxisAttention.forward]
    raises [IndexError] from the first assertion's [img.shape[2]] or
    [img.shape[3]], whatever the instance, and changes nothing. *)
Theorem MultiAxisAttention_forward_low_rank (self : pyval) (t : tensor) (w : world) :
  ndim t < 4 →
  MultiAxisAttention.forward env self (VTensor t) w = (Raise IndexError, w).
Proof.
  intros Hr. unfold MultiAxisAttention.forward, MultiAxisAttention.check_image.
  apply bind_raise. unfold ndim in Hr. unfold shape_item, bind.
  destruct (shape t) as [|b [|c [|s [|s' rest]]]]; cbn in Hr |- *; try done. lia.
Qed.

(** X13: the constructor accepts [block_size = 0]; [forward] of such an
    instance raises [ZeroDivisionError] from the second assertion on
    every input with equal third and fourth extents. *)
Theorem MultiAxisAttention_zero_block_size
    (nchannels nhead : Z) (dropout : R) (w w1 : world) (self : pyval)
    (t : tensor) (b c s : nat) (rest : list nat) (w2 : world) :
  MultiAxisAttention.__init__ env nchannels 0 nhead dropout w = (Ok self, w1) →
  shape t = b :: c :: s :: s :: rest →
  MultiAxisAttention.forward env self (VTensor t) w2 = (Raise ZeroDivisionError, w2).
Proof.
  intros Hinit Hsh.
  destruct (MultiAxisAttention_init_attrs _ _ _ _ _ _ _ Hinit)
    as (attrs & lin & f & -> & Hbs & _).
  unfold MultiAxisAttention.forward. apply bind_raise.
  unfold MultiAxisAttention.check_image, shape_item, getattr, py_floordiv, py_assert.
  rewrite Hsh, Hbs. run_m. by rewrite Z.eqb_refl.
Qed.

(** * Outcomes that do not depend on the state *)

Lemma world_eta (w : world) : World (rng w) (log w ++ []) = w.
Proof. destruct w. cbn. by rewrite app_nil_r. Qed.

Lemma runs_to_ret {A} (a : A) : runs_to (ret a) (Ok a) [].
Proof. intros w. unfold ret. by rewrite world_eta. Qed.

Lemma runs_to_raise {A} (e : exn) : runs_to (raise e : M A) (Raise e) [].
Proof. intros w. unfold raise. by rewrite world_eta. Qed.

Lemma runs_to_lift {A} (r : result A) : runs_to (lift r) r [].
Proof. intros w. unfold lift. by rewrite world_eta. Qed.

Lemma runs_to_emit (ev : event) : runs_to (emit ev) (Ok tt) [ev].
Proof. by intros w. Qed.

Lemma runs_to_bind {A B} (m : M A) (k : A → M B) a r e1 e2 :
  runs_to m (Ok a) e1 → runs_to (k a) r e2 → runs_to (bind m k) r (e1 ++ e2).
Proof. intros Hm Hk w. unfold bind. rewrite Hm, Hk. cbn. by rewrite app_assoc. Qed.

Lemma runs_to_bind_raise {A B} (m : M A) (k : A → M B) e evs :
  runs_to m (Raise e) evs → runs_to (bind m k) (Raise e) evs.
Proof. intros Hm w. unfold bind. by rewrite Hm. Qed.

Lemma runs_to_getattr cls (attrs : gmap string pyval) name v :
  attrs !! name = Some v → runs_to (getattr env (VModule cls attrs) name) (Ok v) [].
Proof. intros H w. rewrite world_eta. by apply getattr_Some. Qed.


(** ** Computations that only compute *)

Lemma silent_ret {A} (a : A) : silent (ret a).
Proof. eexists. apply runs_to_ret. Qed.

Lemma silent_raise {A} (e : exn) : silent (raise e : M A).
Proof. eexists. apply runs_to_raise. Qed.

Lemma silent_bind {A B} (m : M A) (k : A → M B) :
  silent m → (∀ a, silent (k a)) → silent (bind m k).
Proof.
  intros [[a|e] Hm] Hk.
  - destruct (Hk a) as [r Hr]. exists r. apply (runs_to_bind _ _ _ _ [] [] Hm Hr).
  - exists (Raise e). by apply runs_to_bind_raise.
Qed.

Lemma silent_getattr (o : pyval) name : silent (getattr env o name).
Proof.
  unfold getattr. destruct o; try apply silent_raise.
  destruct (_ !! _); [apply silent_ret|].
  case_bool_decide; [apply silent_ret | apply silent_raise].
Qed.

Ltac quiet :=
  repeat first
    [ apply silent_ret | apply silent_raise | apply silent_getattr
    | apply silent_bind; [|intros ?]
    | match goal with
      | |- silent (match ?x with _ => _ end) => destruct x
      end ].

Lemma silent_check_image (self img : pyval) :
  silent (MultiAxisAttention.check_image env self img).
Proof.
  unfold MultiAxisAttention.check_image, shape_item, py_assert, as_int, py_floordiv.
  quiet.
Qed.

Lemma map_rearrange_blocks_gives (c x : pyval) :
  ∃ r, runs_to (map_rearrange_blocks c x) r [] ∧ ∀ t, r ≠ Ok (VTensor t).
Proof.
  unfold map_rearrange_blocks.
  destruct x; try (eexists; split; [apply runs_to_raise|done]).
  destruct (_ =? _); eexists; (split; [apply runs_to_raise || apply runs_to_ret|done]).
Qed.

(** A linear layer called on what is no tensor. *)
Lemma Linear_forward_not_tensor (self x : pyval) :
  (∀ t, x ≠ VTensor t) → ∃ e, runs_to (Linear_forward env self x) (Raise e) [].
Proof.
  intros Hx. unfold Linear_forward.
  destruct (silent_getattr self "weight") as [[wv|e] Hw].
  - destruct wv;
      try (eexists; apply (runs_to_bind _ _ _ _ [] [] Hw); apply runs_to_bind_raise,
             runs_to_raise).
    destruct x; try (by destruct (Hx t0));
      eexists; apply (runs_to_bind _ _ _ _ [] [] Hw);
      apply (runs_to_bind _ _ _ _ [] [] (runs_to_ret _));
      apply runs_to_bind_raise, runs_to_raise.
  - eexists. by apply runs_to_bind_raise.
Qed.

(** ** Computations that repeat *)


























(** ** The classes *)




(** ** Evaluation mode *)




(** ** Where [MultiAxisAttention.forward] stops *)

Lemma runs_to_bind_getattr {B} cls (attrs : gmap string pyval) name v (k : pyval → M B)
    r evs :
  attrs !! name = Some v → runs_to (k v) r evs →
  runs_to (bind (getattr env (VModule cls attrs) name) k) r evs.
Proof. intros H Hk. apply (runs_to_bind _ _ _ _ [] evs (runs_to_getattr _ _ _ _ H) Hk). Qed.

(** A silent step before a computation that stops. *)
Lemma stops_after_silent {A B} (P : list event → Prop) (m : M A) (k : A → M B) :
  silent m → P [] →
  (∀ a, ∃ e evs, runs_to (k a) (Raise e) evs ∧ P evs) →
  ∃ e evs, runs_to (bind m k) (Raise e) evs ∧ P evs.
Proof.
  intros [[a|e] Hm] Hnil Hk.
  - destruct (Hk a) as (e & evs & Hr & HP). exists e, evs.
    split; [apply (runs_to_bind _ _ _ _ [] evs Hm Hr) | done].
  - exists e, []. split; [by apply runs_to_bind_raise | done].
Qed.

Lemma stops_after_getattr {B} (P : list event → Prop) cls (attrs : gmap string pyval)
    name v (k : pyval → M B) :
  attrs !! name = Some v →
  (∃ e evs, runs_to (k v) (Raise e) evs ∧ P evs) →
  ∃ e evs, runs_to (bind (getattr env (VModule cls attrs) name) k) (Raise e) evs ∧ P evs.
Proof.
  intros H (e & evs & Hr & HP). exists e, evs.
  split; [by apply (runs_to_bind_getattr _ _ _ _ _ _ _ H) | done].
Qed.

Lemma Unfold_forward_logs (self x : pyval) :
  ∃ r evs, runs_to (Unfold_forward env self x) r evs ∧ (evs = [] ∨ evs = [Op "unfold"]).
Proof.
  assert (Hstep : ∀ {A B} (m : M A) (k : A → M B),
             silent m →
             (∀ a, ∃ r evs, runs_to (k a) r evs ∧ (evs = [] ∨ evs = [Op "unfold"])) →
             ∃ r evs, runs_to (bind m k) r evs ∧ (evs = [] ∨ evs = [Op "unfold"])).
  { intros A B m k [[a|e] Hm] Hk.
    - destruct (Hk a) as (r & evs & Hr & HP). exists r, evs.
      split; [apply (runs_to_bind _ _ _ _ [] evs Hm Hr) | done].
    - exists (Raise e), []. split; [by apply runs_to_bind_raise | by left]. }
  unfold Unfold_forward.
  apply Hstep; [apply silent_getattr|]. intros kv.
  apply Hstep; [unfold as_int; quiet|]. intros k.
  apply Hstep; [apply silent_getattr|]. intros sv.
  apply Hstep; [unfold as_int; quiet|]. intros st.
  apply Hstep; [unfold as_tensor; quiet|]. intros t.
  apply Hstep; [eexists; apply runs_to_lift|]. intros u.
  exists (Ok (VTensor u)), [Op "unfold"]. split; [|by right].
  change [Op "unfold"] with ([Op "unfold"] ++ @nil event).
  eapply runs_to_bind; [apply runs_to_emit | apply runs_to_ret].
Qed.

Lemma MultiAxisAttention_forward_outcome cls (attrs : gmap string pyval) vb lin
    (img : pyval) :
  attrs !! "blocker" = Some vb → class_of vb = "Unfold"%string →
  attrs !! "to_qkv" = Some (VModule "Linear" lin) →
  ∃ e evs, runs_to (MultiAxisAttention.forward env (VModule cls attrs) img) (Raise e) evs
         ∧ (evs = [] ∨ evs = [Op "unfold"]).
Proof.
  intros Hb Hcb Hqkv. unfold MultiAxisAttention.forward.
  apply stops_after_silent; [apply silent_check_image | by left |]. intros _.
  apply stops_after_silent; [apply silent_getattr | by left |]. intros h.
  apply stops_after_silent; [apply silent_getattr | by left |]. intros c.
  assert (Hcall : call_leaf env vb img = Unfold_forward env vb img).
  { unfold call_leaf, call_torch. by rewrite Hcb. }
  destruct (Unfold_forward_logs vb img) as (r & e1 & Hrun & He1).
  assert (Hrest : ∀ blocks, ∃ e,
            runs_to (do img_blocks <- map_rearrange_blocks c blocks;
                     do to_qkv <- getattr env (VModule cls attrs) "to_qkv";
                     do qkv <- call_leaf env to_qkv img_blocks;
                     do cs <- Tensor_chunk qkv 3;
                     do qkv <- unpack3 (VTensor <$> cs);
                     let '(q, k, v) := qkv in
                     do qkv <- MultiAxisAttention.project_heads env (VModule cls attrs) h q k v;
                     let '(q, k, v) := qkv in
                     do qkv <- axis_splitting q k v h;
                     let '(q, k, v) := qkv in
                     do y <- MultiAxisAttention.attention env (VModule cls attrs) q k v;
                     rearrange merge_heads_blocks y) (Raise e) []).
  { intros blocks.
    destruct (map_rearrange_blocks_gives c blocks) as ([v|e] & Hmap & Hnt).
    - destruct (Linear_forward_not_tensor (VModule "Linear" lin) v) as [e He];
        [intros t ->; by apply (Hnt t)|].
      exists e. apply (runs_to_bind _ _ _ _ [] [] Hmap).
      apply (runs_to_bind_getattr _ _ _ _ _ _ _ Hqkv).
      by apply runs_to_bind_raise.
    - exists e. by apply runs_to_bind_raise. }
  destruct r as [blocks|e].
  - destruct (Hrest blocks) as [e He]. exists e, e1. split; [|done].
    apply (runs_to_bind_getattr _ _ _ _ _ _ _ Hb). rewrite Hcall.
    rewrite <- (app_nil_r e1). by eapply runs_to_bind.
  - exists e, e1. split; [|done].
    apply (runs_to_bind_getattr _ _ _ _ _ _ _ Hb). rewrite Hcall.
    by apply runs_to_bind_raise.
Qed.

(** C4, on the code: [forward] of a constructed [MultiAxisAttention]
    raises on every image, in every state, having run the blocker at
    most: the projection [c -> 3c], the split into heads and the
    multiplication by [(c // h) ** -0.5] are never run, so the queries
    are not scaled, nor is anything else. *)
Theorem MultiAxisAttention_forward_scales_nothing
    (nchannels block_size nhead : Z) (dropout : R) (w w1 : world) (self img : pyval) :
  MultiAxisAttention.__init__ env nchannels block_size nhead dropout w = (Ok self, w1) →
  ∃ e evs,
    (∀ w2, MultiAxisAttention.forward env self img w2
           = (Raise e, World (rng w2) (log w2 ++ evs)))
    ∧ (evs = [] ∨ evs = [Op "unfold"])
    ∧ (Op "linear" ∉ evs) ∧ (Op "rearrange" ∉ evs) ∧ (Op "mul" ∉ evs).
Proof.
  intros Hinit.
  destruct (MultiAxisAttention_init_attrs _ _ _ _ _ _ _ Hinit)
    as (attrs & lin & f & -> & _ & Hb & _ & _ & _ & Hqkv & _).
  destruct (MultiAxisAttention_forward_outcome "MultiAxisAttention" attrs _ lin img
              Hb eq_refl Hqkv) as (e & evs & Hrun & Hevs).
  exists e, evs. split; [exact Hrun|]. split; [exact Hevs|].
  destruct Hevs as [->| ->]; repeat split;
    rewrite ?list_elem_of_singleton; try apply not_elem_of_nil; discriminate.
Qed.

(** ** Where the blocks stop *)

Lemma EncoderBlock_init_parts emb_dim nhead dropout w self w1 :
  EncoderBlock.__init__ env emb_dim nhead dropout w = (Ok self, w1) →
  ∃ (attrs ln a1 : gmap string pyval) mlp wa wa' wb wb' wc wc',
    self = VModule "EncoderBlock" attrs
    ∧ attrs !! "ln1" = Some (VModule "LayerNorm" ln)
    ∧ attrs !! "self_attn" = Some (VModule "MultiQueryAttention" a1)
    ∧ attrs !! "mlp" = Some mlp
    ∧ nn_LayerNorm env emb_dim wa = (Ok (VModule "LayerNorm" ln), wa')
    ∧ MultiQueryAttention.__init__ env emb_dim nhead dropout wb
      = (Ok (VModule "MultiQueryAttention" a1), wb')
    ∧ MLP.__init__ env emb_dim wc = (Ok mlp, wc').
Proof.
  intros H. unfold EncoderBlock.__init__ in H.
  unfold bind at 1 in H. cbn in H.
  init_step H Eln. init_step H Eattn. init_step H Emlp. injection H as <- <-.
  destruct (nn_LayerNorm_ok _ _ _ _ Eln) as (ln & wt & bt & -> & _).
  destruct (MultiQueryAttention_init_attrs _ _ _ _ _ _ Eattn) as (sa & -> & _).
  eexists _, ln, sa, _, _, _, _, _, _, _. split; [reflexivity|].
  split; [by simplify_map_eq|]. split; [by simplify_map_eq|].
  split; [by simplify_map_eq|]. eauto.
Qed.

Lemma TransformerBlock_init_parts emb_dim nhead dropout w self w1 :
  TransformerBlock.__init__ env emb_dim nhead dropout w = (Ok self, w1) →
  ∃ (attrs ln a1 : gmap string pyval) mlp wa wa' wb wb' wc wc',
    self = VModule "TransformerBlock" attrs
    ∧ attrs !! "ln1" = Some (VModule "LayerNorm" ln)
    ∧ attrs !! "self_attn" = Some (VModule "MultiQueryAttention" a1)
    ∧ attrs !! "mlp" = Some mlp
    ∧ nn_LayerNorm env emb_dim wa = (Ok (VModule "LayerNorm" ln), wa')
    ∧ MultiQueryAttention.__init__ env emb_dim nhead dropout wb
      = (Ok (VModule "MultiQueryAttention" a1), wb')
    ∧ MLP.__init__ env emb_dim wc = (Ok mlp, wc').
Proof.
  intros H. unfold TransformerBlock.__init__ in H.
  unfold bind at 1 in H. cbn in H.
  init_step H Eln. init_step H Eattn. init_step H Eln2. init_step H Ecross.
  init_step H Emlp. injection H as <- <-.
  destruct (nn_LayerNorm_ok _ _ _ _ Eln) as (ln & wt & bt & -> & _).
  destruct (MultiQueryAttention_init_attrs _ _ _ _ _ _ Eattn) as (sa & -> & _).
  eexists _, ln, sa, _, _, _, _, _, _, _. split; [reflexivity|].
  split; [by simplify_map_eq|]. split; [by simplify_map_eq|].
  split; [by simplify_map_eq|]. eauto.
Qed.

(** Normalization, then self-attention without a context, on any
    input: the normalization refuses the input, or the attention stops
    after its query projection. *)
Lemma block_self_attention_outcome ln d (wt bt : tensor) attrs h lq fq lkv (wkv : tensor)
    (input : pyval) (k : pyval → M pyval) :
  ln !! "normalized_shape" = Some (VInt d) →
  ln !! "weight" = Some (VTensor wt) →
  ln !! "bias" = Some (VTensor bt) →
  attrs !! "nhead" = Some h →
  attrs !! "to_q" = Some (VModule "Linear" lq) →
  lq !! "weight" = Some (VTensor (Tensor [Z.to_nat d; Z.to_nat d] fq)) →
  attrs !! "to_kv" = Some (VModule "Linear" lkv) →
  lkv !! "weight" = Some (VTensor wkv) →
  ∃ e evs,
    runs_to (do n <- call_module env (VModule "LayerNorm" ln) [input];
             do a <- call_module env (VModule "MultiQueryAttention" attrs) [n];
             k a) (Raise e) evs
    ∧ (evs = [] ∨ evs = [Op "layer_norm"; Op "linear"]).
Proof.
  intros Hd Hw Hb Hh Hq Hwq Hkv Hwkv.
  assert (Hln : ∀ w, call_module env (VModule "LayerNorm" ln) [input] w
                     = call_leaf env (VModule "LayerNorm" ln) input w) by done.
  assert (Hstop : ∀ e, (∀ w, call_leaf env (VModule "LayerNorm" ln) input w = (Raise e, w)) →
            ∃ e evs,
              runs_to (do n <- call_module env (VModule "LayerNorm" ln) [input];
                       do a <- call_module env (VModule "MultiQueryAttention" attrs) [n];
                       k a) (Raise e) evs
              ∧ (evs = [] ∨ evs = [Op "layer_norm"; Op "linear"])).
  { intros e He. exists e, []. split; [|by left]. intros w.
    unfold bind at 1. by rewrite Hln, He, world_eta. }
  destruct input as [| | | | |t| | |];
    try (apply (Hstop TypeError); intros w;
         by rewrite (call_LayerNorm _ _ _ _ _ _ Hd Hw Hb)).
  destruct (decide (last_dim t = Some (Z.to_nat d))) as [Hlast|Hno].
  - exists TypeError, [Op "layer_norm"; Op "linear"]. split; [|by right].
    apply last_Some in Hlast as [pre Hsh]. intros w.
    exact (proj2 (block_self_attention_raises ln d wt bt attrs h lq fq lkv wkv k
                    Hd Hw Hb Hh Hq Hwq Hkv Hwkv) t pre w Hsh).
  - apply (Hstop RuntimeError). intros w.
    rewrite (call_LayerNorm _ _ _ _ _ _ Hd Hw Hb).
    by rewrite bool_decide_eq_false_2.
Qed.

(** C7, on the code: [forward] of a constructed [EncoderBlock] and of a
    constructed [TransformerBlock] raise on every input and every
    context, in every state, having run the normalization and the query
    projection of the self-attention at most: the attention is called
    without a context and stops there, so the residual addition, the
    cross-attention and the MLP are never run and no block output
    exists. *)
Theorem blocks_forward_stop_before_residual
    (emb_dim nhead : Z) (dropout : R) (w w1 : world) (enc : pyval)
    (emb_dim' nhead' : Z) (dropout' : R) (w' w1' : world) (dec : pyval) :
  EncoderBlock.__init__ env emb_dim nhead dropout w = (Ok enc, w1) →
  TransformerBlock.__init__ env emb_dim' nhead' dropout' w' = (Ok dec, w1') →
  (∀ input, ∃ e evs,
      (∀ w2, EncoderBlock.forward env enc input w2
             = (Raise e, World (rng w2) (log w2 ++ evs)))
      ∧ (evs = [] ∨ evs = [Op "layer_norm"; Op "linear"]))
  ∧ (∀ input context, ∃ e evs,
      (∀ w2, TransformerBlock.forward env dec input context w2
             = (Raise e, World (rng w2) (log w2 ++ evs)))
      ∧ (evs = [] ∨ evs = [Op "layer_norm"; Op "linear"])).
Proof.
  intros Henc Hdec. split.
  - intros input.
    destruct (EncoderBlock_init_parts _ _ _ _ _ _ Henc)
      as (attrs & ln & a1 & mlp & wa & wa' & wb & wb' & wc & wc' & -> & Hl1 & Hsa & _
          & Eln & Eattn & _).
    destruct (nn_LayerNorm_ok _ _ _ _ Eln) as (ln0 & wt & bt & [= <-] & Hd & Hw & Hb).
    destruct (MultiQueryAttention_init_layers _ _ _ _ _ _ Eattn)
      as (a0 & lq & fq & lkv & wkv & [= <-] & Hh & Hq & Hwq & Hkv & Hwkv).
    unfold EncoderBlock.forward.
    apply (stops_after_getattr (λ evs, evs = [] ∨ evs = [Op "layer_norm"; Op "linear"])
             _ _ _ _ _ Hsa).
    apply (stops_after_getattr (λ evs, evs = [] ∨ evs = [Op "layer_norm"; Op "linear"])
             _ _ _ _ _ Hl1).
    apply (block_self_attention_outcome ln emb_dim wt bt a1 _ lq fq lkv wkv input _
             Hd Hw Hb Hh Hq Hwq Hkv Hwkv).
  - intros input context.
    destruct (TransformerBlock_init_parts _ _ _ _ _ _ Hdec)
      as (attrs & ln & a1 & mlp & wa & wa' & wb & wb' & wc & wc' & -> & Hl1 & Hsa & _
          & Eln & Eattn & _).
    destruct (nn_LayerNorm_ok _ _ _ _ Eln) as (ln0 & wt & bt & [= <-] & Hd & Hw & Hb).
    destruct (MultiQueryAttention_init_layers _ _ _ _ _ _ Eattn)
      as (a0 & lq & fq & lkv & wkv & [= <-] & Hh & Hq & Hwq & Hkv & Hwkv).
    unfold TransformerBlock.forward.
    apply (stops_after_getattr (λ evs, evs = [] ∨ evs = [Op "layer_norm"; Op "linear"])
             _ _ _ _ _ Hsa).
    apply (stops_after_getattr (λ evs, evs = [] ∨ evs = [Op "layer_norm"; Op "linear"])
             _ _ _ _ _ Hl1).
    apply (block_self_attention_outcome ln emb_dim' wt bt a1 _ lq fq lkv wkv input _
             Hd Hw Hb Hh Hq Hwq Hkv Hwkv).
Qed.

(** ** Evaluation mode: repeated calls *)




#[local] Arguments Nat.ltb : simpl never.

(** X2: the head split of [MultiAxisAttention.forward],
    [rearrange(t, 'b n p (h c) -> b h n p c', h=h)], followed by the head
    merge [rearrange(y, "b h n p c -> b n p (h c)")], gives back the
    tensor it started from. *)
Theorem MultiAxisAttention_heads_round_trip (t : tensor) (h : Z) (b n p c : nat)
    (w : world) :
  (0 < h)%Z → 0 < c →
  shape t = [b; n; p; Z.to_nat h * c] →
  ∃ y,
    (do s <- rearrange (λ t, split_heads_blocks t h) (VTensor t);
     rearrange merge_heads_blocks s) w
    = (Ok (VTensor y), World (rng w) (log w ++ [Op "rearrange"; Op "rearrange"]))
    ∧ shape y = shape t
    ∧ ∀ bi ni pi j, get y [bi; ni; pi; j] = get t [bi; ni; pi; j].
Proof.
  intros Hh Hc Hsh.
  assert (Hmod : (Z.to_nat h * c) `mod` Z.to_nat h = 0)
    by (rewrite Nat.mul_comm; apply Nat.Div0.mod_mul).
  assert (Hdiv : (Z.to_nat h * c) / Z.to_nat h = c)
    by (rewrite Nat.mul_comm; apply Nat.div_mul; lia).
  unfold rearrange, split_heads_blocks. rewrite Hsh.
  destruct (Z.eqb_spec h 0); [lia|]. destruct (Z.ltb_spec h 0); [lia|].
  rewrite Hmod, Hdiv. run_m.
  eexists. split; [by rewrite <- app_assoc|]. split; [reflexivity|].
  intros bi ni pi j. cbn.
  pose proof (Nat.div_mod_eq j c) as Hj.
  rewrite (Nat.mul_comm c) in Hj. by rewrite <- Hj.
Qed.

Lemma slice_bound_le len i : slice_bound len i ≤ len.
Proof. unfold slice_bound. destruct (Z.ltb_spec i 0); lia. Qed.

(** The number of heads of [H] that [axis_splitting] with head count [h]
    puts in its first, transposed group. *)
Lemma axis_splitting_run (q k v : tensor) (h : Z) (b H n c : nat) (w : world) :
  shape q = [b; H; n; n; c] → shape k = [b; H; n; n; c] → shape v = [b; H; n; n; c] →
  let a := slice_bound H (h `div` 2) in
  let flip (t : tensor) bi hi x y ci :=
    if hi <? a then get t [bi; hi; y; x; ci] else get t [bi; hi; x; y; ci] in
  ∃ q' k' v',
    axis_splitting (VTensor q) (VTensor k) (VTensor v) (VInt h) w
    = (Ok (VTensor q', VTensor k', VTensor v'),
       World (rng w)
         (log w ++ [Op "slice"; Op "slice"; Op "slice"; Op "slice"; Op "slice"; Op "slice";
                    Op "transpose"; Op "transpose"; Op "transpose";
                    Op "concat"; Op "concat"; Op "concat"]))
    ∧ shape q' = [b; H; n; n; c] ∧ shape k' = [b; H; n; n; c] ∧ shape v' = [b; H; n; n; c]
    ∧ ∀ bi hi x y ci, hi < H →
        get q' [bi; hi; x; y; ci] = flip q bi hi x y ci
        ∧ get k' [bi; hi; x; y; ci] = flip k bi hi x y ci
        ∧ get v' [bi; hi; x; y; ci] = flip v bi hi x y ci.
Proof.
  intros Hq Hk Hv a flip.
  pose proof (slice_bound_le H (h `div` 2)) as Ha. fold a in Ha.
  unfold axis_splitting, Tensor_slice_dim1, torch_transpose23, torch_concat_dim1,
    slice_dim1, transpose23, concat_dim1.
  run_m. rewrite Hq, Hk, Hv. run_m. fold a.
  rewrite !bool_decide_eq_true_2 by (by split). run_m.
  replace (a - 0 + (H - a)) with H by lia.
  eexists _, _, _. split; [by rewrite <- !app_assoc|].
  split; [reflexivity|]. split; [reflexivity|]. split; [reflexivity|].
  intros bi hi x y ci Hhi. unfold flip. cbn.
  replace (a - 0) with a by lia.
  destruct (Nat.ltb_spec hi a); [done|].
  by replace (a + (hi - a)) with hi by lia.
Qed.

(** X3: on three tensors of shape (b, h, n, n, c), [axis_splitting] with
    head count [h] returns tensors of the same shape in which the first
    [h // 2] heads have their two block axes transposed and the other
    heads are unchanged. *)
Theorem axis_splitting_transposes_first_half (q k v : tensor) (h b n c : nat) (w : world) :
  shape q = [b; h; n; n; c] → shape k = [b; h; n; n; c] → shape v = [b; h; n; n; c] →
  ∃ q' k' v' w',
    axis_splitting (VTensor q) (VTensor k) (VTensor v) (VInt (Z.of_nat h)) w
    = (Ok (VTensor q', VTensor k', VTensor v'), w')
    ∧ shape q' = shape q ∧ shape k' = shape k ∧ shape v' = shape v
    ∧ (∀ bi hi x y ci, hi < h / 2 →
         get q' [bi; hi; x; y; ci] = get q [bi; hi; y; x; ci]
         ∧ get k' [bi; hi; x; y; ci] = get k [bi; hi; y; x; ci]
         ∧ get v' [bi; hi; x; y; ci] = get v [bi; hi; y; x; ci])
    ∧ (∀ bi hi x y ci, h / 2 ≤ hi < h →
         get q' [bi; hi; x; y; ci] = get q [bi; hi; x; y; ci]
         ∧ get k' [bi; hi; x; y; ci] = get k [bi; hi; x; y; ci]
         ∧ get v' [bi; hi; x; y; ci] = get v [bi; hi; x; y; ci]).
Proof.
  intros Hq Hk Hv.
  destruct (axis_splitting_run q k v (Z.of_nat h) b h n c w Hq Hk Hv)
    as (q' & k' & v' & Hrun & Hq' & Hk' & Hv' & Hget).
  assert (Ha : slice_bound h (Z.of_nat h `div` 2) = h / 2).
  { unfold slice_bound. change 2%Z with (Z.of_nat 2). rewrite <- Nat2Z.inj_div.
    pose proof (Nat.Div0.div_le_upper_bound h 2 h).
    destruct (Z.ltb_spec (Z.of_nat (h / 2)) 0); lia. }
  rewrite Ha in Hget.
  exists q', k', v'. eexists. split; [exact Hrun|].
  rewrite Hq, Hk, Hv. split; [done|]. split; [done|]. split; [done|]. split.
  - intros bi hi x y ci Hhi.
    assert (hi < h) by (pose proof (Nat.Div0.div_le_upper_bound h 2 h); lia).
    specialize (Hget bi hi x y ci ltac:(done)).
    by destruct (Nat.ltb_spec hi (h / 2)); [|lia].
  - intros bi hi x y ci [Hlo Hhi].
    specialize (Hget bi hi x y ci Hhi).
    by destruct (Nat.ltb_spec hi (h / 2)); [lia|].
Qed.

(** X4: on tensors of shape (b, H, n, n, c), [axis_splitting] applied
    twice with the same head count gives back the three tensors. *)
Theorem axis_splitting_involution (q k v : tensor) (h : Z) (b H n c : nat) (w : world) :
  shape q = [b; H; n; n; c] → shape k = [b; H; n; n; c] → shape v = [b; H; n; n; c] →
  ∃ q2 k2 v2 w',
    (do qkv <- axis_splitting (VTensor q) (VTensor k) (VTensor v) (VInt h);
     let '(q1, k1, v1) := qkv in
     axis_splitting q1 k1 v1 (VInt h)) w
    = (Ok (VTensor q2, VTensor k2, VTensor v2), w')
    ∧ shape q2 = shape q ∧ shape k2 = shape k ∧ shape v2 = shape v
    ∧ ∀ bi hi x y ci, hi < H →
        get q2 [bi; hi; x; y; ci] = get q [bi; hi; x; y; ci]
        ∧ get k2 [bi; hi; x; y; ci] = get k [bi; hi; x; y; ci]
        ∧ get v2 [bi; hi; x; y; ci] = get v [bi; hi; x; y; ci].
Proof.
  intros Hq Hk Hv.
  destruct (axis_splitting_run q k v h b H n c w Hq Hk Hv)
    as (q1 & k1 & v1 & Hrun1 & Hq1 & Hk1 & Hv1 & Hget1).
  rewrite (bind_ok _ _ _ _ _ Hrun1).
  match goal with |- context [axis_splitting _ _ _ _ ?w1] =>
    destruct (axis_splitting_run q1 k1 v1 h b H n c w1 Hq1 Hk1 Hv1)
      as (q2 & k2 & v2 & Hrun2 & Hq2 & Hk2 & Hv2 & Hget2) end.
  exists q2, k2, v2. eexists. split; [exact Hrun2|].
  rewrite Hq, Hk, Hv. split; [done|]. split; [done|]. split; [done|].
  intros bi hi x y ci Hhi.
  destruct (Hget2 bi hi x y ci Hhi) as (-> & -> & ->).
  destruct (Nat.ltb_spec hi (slice_bound H (h `div` 2))).
  - destruct (Hget1 bi hi y x ci Hhi) as (-> & -> & ->).
    by destruct (Nat.ltb_spec hi (slice_bound H (h `div` 2))); [|lia].
  - destruct (Hget1 bi hi x y ci Hhi) as (-> & -> & ->).
    by destruct (Nat.ltb_spec hi (slice_bound H (h `div` 2))); [lia|].
Qed.

(** X5: when the two block axes differ, [n <> p], [axis_splitting]
    raises [RuntimeError] at the first concatenation, after the six
    slices and the three transposes: the transposed group has shape
    (.., p, n, c) and the other (.., n, p, c). *)
Theorem axis_splitting_needs_square_blocks (q k v : tensor) (h : Z) (b H n p c : nat)
    (w : world) :
  shape q = [b; H; n; p; c] → shape k = [b; H; n; p; c] → shape v = [b; H; n; p; c] →
  n ≠ p →
  axis_splitting (VTensor q) (VTensor k) (VTensor v) (VInt h) w
  = (Raise RuntimeError,
     World (rng w)
       (log w ++ [Op "slice"; Op "slice"; Op "slice"; Op "slice"; Op "slice"; Op "slice";
                  Op "transpose"; Op "transpose"; Op "transpose"])).
Proof.
  intros Hq Hk Hv Hne.
  unfold axis_splitting, Tensor_slice_dim1, torch_transpose23, torch_concat_dim1,
    slice_dim1, transpose23, concat_dim1.
  run_m. rewrite Hq, Hk, Hv. run_m.
  rewrite bool_decide_eq_false_2 by (intros [_ [=]]; done). run_m.
  by rewrite <- !app_assoc.
Qed.

End Proofs.

(** * The properties on concrete objects *)

Section Concrete.
Import Sym.

Lemma torch_F_no_typo : "scaled_dot_product_attnetion" ∉ F_names torch.
Proof. apply (bool_decide_eq_false_1 _). vm_compute. reflexivity. Qed.

Lemma torch_Module_no_dropoutdropout : "attn_dropoutdropout" ∉ Module_names torch.
Proof. apply (bool_decide_eq_false_1 _). vm_compute. reflexivity. Qed.

Lemma torch_Module_no_private_init :
  "_MultiAxisTransformerBlock__init" ∉ Module_names torch.
Proof. apply (bool_decide_eq_false_1 _). vm_compute. reflexivity. Qed.

(** A (1, 8, 17, 17) image and block size 4, from construction on: both
    assertions pass, the blocker keeps 4 x 4 windows, and the run ends in
    the [TypeError] of the projection. *)
Example MultiAxisAttention_side_17_run :
  let img := VTensor (full [1; 8; 17; 17] (Lit 1 1)) in
  let made := [New "MultiAxisAttention"; New "Unfold"; New "Linear"; New "Linear";
               New "Dropout"] in
  (do self <- MultiAxisAttention.__init__ torch 8 4 4 (Lit 0 1);
   MultiAxisAttention.check_image torch self img) w0
  = (Ok tt, World (2 : G) made)
  ∧ (do self <- MultiAxisAttention.__init__ torch 8 4 4 (Lit 0 1);
     do blocker <- getattr torch self "blocker";
     do blocks <- call_leaf torch blocker img;
     Tensor_shape blocks) w0
    = (Ok [1; 8 * 4 * 4; 4 * 4], World (2 : G) (made ++ [Op "unfold"]))
  ∧ (do self <- MultiAxisAttention.__init__ torch 8 4 4 (Lit 0 1);
     MultiAxisAttention.forward torch self img) w0
    = (Raise TypeError, World (2 : G) (made ++ [Op "unfold"])).
Proof. repeat split; vm_compute; reflexivity. Qed.

(** C2 as stated fails: on a (1, 8, 8, 8) image a [MultiAxisAttention]
    with block size 4 and 4 heads returns nothing. *)
Lemma MultiAxisAttention_rejects_8x8 :
  ¬ ∃ y w,
      (do self <- MultiAxisAttention.__init__ torch 8 4 4 (Lit 0 1);
       MultiAxisAttention.forward torch self (VTensor (full [1; 8; 8; 8] (Lit 1 1)))) w0
      = (Ok y, w).
Proof. intros (y & w & H). vm_compute in H. discriminate H. Qed.

(** The exception is the one of the second assertion, raised before any
    tensor operation. *)
Example MultiAxisAttention_8x8_assertion :
  (do self <- MultiAxisAttention.__init__ torch 8 4 4 (Lit 0 1);
   MultiAxisAttention.forward torch self (VTensor (full [1; 8; 8; 8] (Lit 1 1)))) w0
  = (Raise AssertionError,
     World (2 : G) [New "MultiAxisAttention"; New "Unfold"; New "Linear"; New "Linear";
                    New "Dropout"]).
Proof. vm_compute. reflexivity. Qed.

(** The explicit attention branch taken alone, twice in a row on the
    same tensors for one instance in evaluation mode: each run draws its
    own dropout mask.  ([forward] stops before this branch.) *)
Example MultiAxisAttention_attention_alone_draws_twice :
  let self := Module_eval (built (MultiAxisAttention.__init__ torch 2 1 2 (Lit 0 1))) in
  let q := VTensor (full [1; 2; 1; 1; 1] (Lit 1 1)) in
  let weight draw :=
    Dropout draw (Lit 1 2) [0; 0; 0; 0; 0] (Softmax [Dot [Lit 1 1] [Lit 1 1]] 0) in
  (do training <- getattr torch self "training";
   do y1 <- MultiAxisAttention.attention torch self q q q;
   do y2 <- MultiAxisAttention.attention torch self q q q;
   do a <- Tensor_item y1 [0; 0; 0; 0; 0];
   do b <- Tensor_item y2 [0; 0; 0; 0; 0];
   ret (truthy training, a, b)) w0
  = (Ok (false, Dot [weight 0] [Lit 1 1], Dot [weight 1] [Lit 1 1]),
     World (2 : G) [Op "einsum"; Op "softmax"; Op "dropout"; Op "einsum";
                    Op "einsum"; Op "softmax"; Op "dropout"; Op "einsum"]).
Proof. vm_compute; reflexivity. Qed.

(** With linear layers standing in for the attention and the MLP, the
    element returned by [EncoderBlock.forward] is the last layer's product
    over the sums [x + attn(ln1(x))]: the residual sits inside the MLP's
    argument and nothing is added to the MLP's result. *)
Example EncoderBlock_forward_data_flow :
  let x := vector [Lit 3 1; Lit 5 1] in
  let normed := LayerNorm [Lit 3 1; Lit 5 1] [Lit 1 1; Lit 1 1] [Lit 0 1; Lit 0 1] in
  let attn j := Dot [normed 0; normed 1] [Kaiming 0 [j; 0]; Kaiming 0 [j; 1]] in
  (do self <- stand_in_block "EncoderBlock";
   do y <- EncoderBlock.forward torch self (VTensor x);
   Tensor_item y [0]) w0
  = (Ok (Dot [Add (Lit 3 1) (attn 0); Add (Lit 5 1) (attn 1)]
             [Kaiming 1 [0; 0]; Kaiming 1 [0; 1]]),
     World (2 : G) [New "EncoderBlock"; New "LayerNorm"; New "Linear"; New "Linear";
                    Op "layer_norm"; Op "linear"; Op "add"; Op "linear"]).
Proof. vm_compute. reflexivity. Qed.

(** ** Instances of the general statements *)

(** A constructor run from the start state returned: its outcome is
    computed, the object itself is left as [built] names it. *)
Ltac constructed :=
  match goal with
  | |- ?m w0 = (Ok (built _), after _) =>
      let H := fresh "H" in
      assert (H : match (m w0).1 with Ok _ => true | Raise _ => false end = true)
        by (vm_compute; reflexivity);
      revert H; unfold built, after;
      destruct (m w0) as [[?|?] ?]; intros H; [reflexivity | discriminate H]
  end.

Lemma GEGLU_forward_gelu_raises_witness :
  let t := vector [Lit 1 1; Lit 2 1] in
  shape t = [] ++ [2 * 1]
  ∧ GEGLU.forward VNone (VTensor t) w0 = (Raise TypeError, World (0 : G) [Op "chunk"]).
Proof.
  intros t. split; [reflexivity|].
  exact (proj2 (GEGLU_forward_gelu_raises (RT:=runtime) VNone t [] 1 w0 eq_refl)).
Defined.

Lemma MultiQueryAttention_forward_always_raises_witness :
  let mk := MultiQueryAttention.__init__ torch 8 2 (Lit 0 1) in
  let x := VTensor (full [1; 4; 8] (Lit 1 1)) in
  mk w0 = (Ok (built mk), after mk)
  ∧ always_raises (MultiQueryAttention.forward torch (built mk) x x).
Proof.
  intros mk x. split; [reflexivity|].
  apply (MultiQueryAttention_forward_always_raises (RT:=runtime) torch 8 2 (Lit 0 1) w0
           (after mk) (built mk)
           torch_F_no_typo torch_Module_no_dropoutdropout eq_refl).
Defined.

Lemma MultiAxisTransformerBlock_init_raises_witness :
  MultiAxisTransformerBlock.__init__ torch 8 4 4 (Lit 0 1) w0
  = (Raise (AttributeError "_MultiAxisTransformerBlock__init"), w0).
Proof.
  apply (MultiAxisTransformerBlock_init_raises (RT:=runtime) torch 8 4 4 (Lit 0 1) w0
           torch_Module_no_private_init).
Defined.

Lemma MultiAxisAttention_blocking_witness :
  let mk := MultiAxisAttention.__init__ torch 8 4 4 (Lit 0 1) in
  let img := full [1; 8; 16; 16] (Lit 1 1) in
  mk w0 = (Ok (built mk), after mk)
  ∧ ∃ blocker u,
      call_leaf torch blocker (VTensor img) w0
      = (Ok (VTensor u), World (0 : G) [Op "unfold"])
      ∧ shape u = [1; 8 * 4 * 4; 4 * 4]
      ∧ MultiAxisAttention.check_image torch (built mk) (VTensor img) w0 = (Ok tt, w0).
Proof.
  intros mk img. split; [reflexivity|].
  destruct (MultiAxisAttention_blocking (RT:=runtime) torch 8 4 (Lit 0 1) 4 4 1 8 img
              w0 (after mk) (built mk) eq_refl) as (blocker & u & _ & Hcall & Hshape & _ & _ & Hcheck);
    [lia | lia | lia | reflexivity |].
  exists blocker, u. split; [exact (Hcall w0)|]. split; [exact Hshape|]. exact (Hcheck w0).
Defined.

Lemma MultiQueryAttention_self_attention_raises_witness :
  let mk := MultiQueryAttention.__init__ torch 8 2 (Lit 0 1) in
  mk w0 = (Ok (built mk), after mk)
  ∧ MultiQueryAttention.forward torch (built mk) (VTensor (full [1; 4; 8] (Lit 1 1))) VNone w0
    = (Raise TypeError, World (0 : G) [Op "linear"]).
Proof.
  intros mk. split; [reflexivity|].
  destruct (MultiQueryAttention_self_attention_raises (RT:=runtime) torch 8 2 (Lit 0 1) w0
              (after mk) (built mk) eq_refl) as [_ H].
  exact (H (full [1; 4; 8] (Lit 1 1)) w0 eq_refl).
Defined.

Lemma MultiQueryAttention_paths_raise_alike_witness :
  let mk := MultiQueryAttention.__init__ torch 8 2 (Lit 0 1) in
  mk w0 = (Ok (built mk), after mk)
  ∧ MultiQueryAttention.forward torch (setattr (built mk) "flash" (VBool true))
      (VTensor (full [1; 4; 8] (Lit 1 1))) VNone w0
    = (Raise TypeError, World (0 : G) [Op "linear"]).
Proof.
  intros mk. split; [reflexivity|].
  destruct (MultiQueryAttention_paths_raise_alike (RT:=runtime) torch 8 2 (Lit 0 1) w0
              (after mk) (built mk) true eq_refl) as (_ & _ & H).
  exact (H (full [1; 4; 8] (Lit 1 1)) w0 eq_refl).
Defined.

Lemma MultiAxisAttention_forward_scales_nothing_witness :
  let mk := MultiAxisAttention.__init__ torch 4 2 2 (Lit 0 1) in
  let img := VTensor (full [1; 4; 4; 4] (Lit 1 1)) in
  mk w0 = (Ok (built mk), after mk)
  ∧ ∃ e evs,
      MultiAxisAttention.forward torch (built mk) img w0 = (Raise e, World (0 : G) evs)
      ∧ (Op "mul" ∉ evs).
Proof.
  intros mk img. assert (Hinit : mk w0 = (Ok (built mk), after mk)) by constructed.
  split; [exact Hinit|].
  destruct (MultiAxisAttention_forward_scales_nothing (RT:=runtime) torch 4 2 2 (Lit 0 1)
              w0 (after mk) (built mk) img Hinit) as (e & evs & Hrun & _ & _ & _ & Hmul).
  exists e, evs. split; [exact (Hrun w0) | exact Hmul].
Defined.

Lemma blocks_forward_stop_before_residual_witness :
  let mke := EncoderBlock.__init__ torch 8 2 (Lit 0 1) in
  let mkd := TransformerBlock.__init__ torch 8 2 (Lit 0 1) in
  let x := VTensor (full [1; 4; 8] (Lit 1 1)) in
  mke w0 = (Ok (built mke), after mke)
  ∧ mkd w0 = (Ok (built mkd), after mkd)
  ∧ (∃ e evs,
       EncoderBlock.forward torch (built mke) x w0 = (Raise e, World (0 : G) evs)
       ∧ (evs = [] ∨ evs = [Op "layer_norm"; Op "linear"]))
  ∧ (∃ e evs,
       TransformerBlock.forward torch (built mkd) x x w0 = (Raise e, World (0 : G) evs)
       ∧ (evs = [] ∨ evs = [Op "layer_norm"; Op "linear"])).
Proof.
  intros mke mkd x.
  assert (He : mke w0 = (Ok (built mke), after mke)) by constructed.
  assert (Hd : mkd w0 = (Ok (built mkd), after mkd)) by constructed.
  split; [exact He|]. split; [exact Hd|].
  destruct (blocks_forward_stop_before_residual (RT:=runtime) torch
              8 2 (Lit 0 1) w0 (after mke) (built mke)
              8 2 (Lit 0 1) w0 (after mkd) (built mkd) He Hd) as [Henc Hdec].
  split.
  - destruct (Henc x) as (e & evs & Hrun & Hevs).
    exists e, evs. split; [exact (Hrun w0) | exact Hevs].
  - destruct (Hdec x x) as (e & evs & Hrun & Hevs).
    exists e, evs. split; [exact (Hrun w0) | exact Hevs].
Defined.


Example MultiAxisAttention_head_split_alone :
  let mk := MultiAxisAttention.__init__ torch 4 1 2 (Lit 0 1) in
  let q := full [1; 1; 1; 4] (Lit 1 1) in
  let k := full [1; 1; 1; 4] (Lit 3 1) in
  let v := full [1; 1; 1; 4] (Lit 5 1) in
  mk w0 = (Ok (built mk), after mk)
  ∧ ∃ q' k' v' w,
      MultiAxisAttention.project_heads torch (built mk) (VInt 2)
        (VTensor q) (VTensor k) (VTensor v) w0
      = (Ok (VTensor q', VTensor k', VTensor v'), w)
      ∧ get q' [0; 1; 0; 0; 1] = Mul (Lit 1 1) (PowNegHalf 2)
      ∧ get k' [0; 1; 0; 0; 1] = Mul (Lit 3 1) (PowNegHalf 2)
      ∧ get v' [0; 1; 0; 0; 1] = Mul (Lit 5 1) (PowNegHalf 2).
Proof.
  intros mk q k v. split; [reflexivity|].
  assert (Hheads : (0 < 2 ≤ 4)%Z) by lia.
  destruct (MultiAxisAttention_scales_keys_and_values (RT:=runtime) torch 4 1 2 (Lit 0 1)
              w0 (after mk) (built mk) q k v 1 1 1 2 eq_refl Hheads eq_refl eq_refl eq_refl w0)
    as (q' & k' & v' & w & Hrun & Hget).
  exists q', k', v', w. split; [exact Hrun|]. exact (Hget 0 1 0 0 1).
Qed.

Lemma MultiAxisAttention_accepts_overhang_witness :
  let mk := MultiAxisAttention.__init__ torch 8 4 4 (Lit 0 1) in
  let img := full [1; 8; 17; 17] (Lit 1 1) in
  mk w0 = (Ok (built mk), after mk)
  ∧ 17 `mod` 4 ≠ 0
  ∧ MultiAxisAttention.check_image torch (built mk) (VTensor img) w0 = (Ok tt, w0)
  ∧ MultiAxisAttention.forward torch (built mk) (VTensor img) w0
    = (Raise TypeError, World (0 : G) [Op "unfold"]).
Proof.
  intros mk img. split; [reflexivity|].
  assert (Hside : 4 * 4 < 17 < 4 * 4 + 4) by lia.
  assert (Hc : 0 < 8) by lia.
  destruct (MultiAxisAttention_accepts_overhang (RT:=runtime) torch 8 4 (Lit 0 1) 4 17 1 8 img
              w0 (after mk) (built mk) eq_refl Hc Hside eq_refl) as [Hmod Hrun].
  destruct (Hrun w0) as (Hcheck & _ & Hfwd).
  split; [exact Hmod|]. split; [exact Hcheck | exact Hfwd].
Defined.

Example MultiAxisAttention_attention_alone_in_eval_mode :
  let mk := MultiAxisAttention.__init__ torch 2 1 2 (Lit 0 1) in
  let q := full [1; 2; 1; 1; 1] (Lit 1 1) in
  mk w0 = (Ok (built mk), after mk)
  ∧ getattr torch (Module_eval (built mk)) "training" w0 = (Ok (VBool false), w0)
  ∧ (do y <- MultiAxisAttention.attention torch (Module_eval (built mk))
              (VTensor q) (VTensor q) (VTensor q);
     Tensor_item y [0; 0; 0; 0; 0]) w0
    = (Ok (Dot [Dropout 0 (Lit 1 2) [0; 0; 0; 0; 0] (Softmax [Dot [Lit 1 1] [Lit 1 1]] 0)]
               [Lit 1 1]),
       World (1 : G) [Op "einsum"; Op "softmax"; Op "dropout"; Op "einsum"]).
Proof.
  intros mk q. split; [reflexivity|].
  destruct (MultiAxisAttention_eval_attention_draws (RT:=runtime) torch 2 1 2 (Lit 0 1)
              w0 (after mk) (built mk) q q q
              torch_F_no_typo eq_refl eq_refl eq_refl w0) as [Htr Hrun].
  split; [exact Htr|].
  unfold bind. rewrite Hrun. vm_compute. reflexivity.
Qed.

(** ** The further properties on concrete objects *)

Lemma MultiQueryAttention_heads_round_trip_witness :
  let t : tensor := Tensor [1; 4] (λ idx, Lit (Z.of_nat (idx_last idx)) 1) in
  ∃ y, (do s <- rearrange (λ t, split_heads t 2) (VTensor t);
        rearrange merge_heads s) w0
       = (Ok (VTensor y), World (0 : G) [Op "rearrange"; Op "rearrange"])
     ∧ shape y = [1; 4]
     ∧ get y [0; 3] = Lit 3 1.
Proof.
  intros t.
  assert (Hh : (0 < 2)%Z) by lia.
  destruct (MultiQueryAttention_heads_round_trip (RT:=runtime) t 2 1 2 [] w0 Hh eq_refl)
    as (y & Hrun & Hshape & Hget).
  exists y. split; [exact Hrun|]. split; [exact Hshape|].
  apply (Hget [0; 3]). repeat constructor.
Defined.

Lemma MultiAxisAttention_heads_round_trip_witness :
  let t : tensor := Tensor [1; 1; 1; 4] (λ idx, Lit (Z.of_nat (idx_last idx)) 1) in
  ∃ y, (do s <- rearrange (λ t, split_heads_blocks t 2) (VTensor t);
        rearrange merge_heads_blocks s) w0
       = (Ok (VTensor y), World (0 : G) [Op "rearrange"; Op "rearrange"])
     ∧ shape y = [1; 1; 1; 4]
     ∧ get y [0; 0; 0; 3] = Lit 3 1.
Proof.
  intros t.
  assert (Hh : (0 < 2)%Z) by lia.
  assert (Hc : 0 < 2) by lia.
  destruct (MultiAxisAttention_heads_round_trip (RT:=runtime) t 2 1 1 1 2 w0 Hh Hc eq_refl)
    as (y & Hrun & Hshape & Hget).
  exists y. split; [exact Hrun|]. split; [exact Hshape|]. exact (Hget 0 0 0 3).
Defined.

Lemma axis_splitting_transposes_first_half_witness :
  let q : tensor := Tensor [1; 2; 2; 2; 1] (λ idx, Lit (Z.of_nat (nth 2 idx 0)) 1) in
  ∃ q' k' v' w,
    axis_splitting (VTensor q) (VTensor q) (VTensor q) (VInt 2) w0
    = (Ok (VTensor q', VTensor k', VTensor v'), w)
    ∧ get q [0; 0; 0; 1; 0] = Lit 0 1
    ∧ get q' [0; 0; 0; 1; 0] = Lit 1 1
    ∧ get q' [0; 1; 0; 1; 0] = Lit 0 1.
Proof.
  intros q.
  destruct (axis_splitting_transposes_first_half (RT:=runtime) q q q 2 1 2 1 w0
              eq_refl eq_refl eq_refl)
    as (q' & k' & v' & w & Hrun & _ & _ & _ & Hfirst & Hrest).
  assert (H0 : 0 < 2 / 2) by (cbn; lia).
  assert (H1 : 2 / 2 ≤ 1 < 2) by (cbn; lia).
  exists q', k', v', w. split; [exact Hrun|]. split; [reflexivity|]. split.
  - exact (proj1 (Hfirst 0 0 0 1 0 H0)).
  - exact (proj1 (Hrest 0 1 0 1 0 H1)).
Defined.

Lemma axis_splitting_involution_witness :
  let q : tensor := Tensor [1; 2; 2; 2; 1] (λ idx, Lit (Z.of_nat (nth 2 idx 0)) 1) in
  ∃ q2 k2 v2 w,
    (do qkv <- axis_splitting (VTensor q) (VTensor q) (VTensor q) (VInt 2);
     let '(q1, k1, v1) := qkv in
     axis_splitting q1 k1 v1 (VInt 2)) w0
    = (Ok (VTensor q2, VTensor k2, VTensor v2), w)
    ∧ get q2 [0; 0; 1; 0; 0] = Lit 1 1.
Proof.
  intros q.
  destruct (axis_splitting_involution (RT:=runtime) q q q 2 1 2 2 1 w0
              eq_refl eq_refl eq_refl)
    as (q2 & k2 & v2 & w & Hrun & _ & _ & _ & Hget).
  assert (H0 : 0 < 2) by lia.
  exists q2, k2, v2, w. split; [exact Hrun|].
  exact (proj1 (Hget 0 0 1 0 0 H0)).
Defined.

Lemma axis_splitting_needs_square_blocks_witness :
  let q := full [1; 2; 2; 3; 1] (Lit 1 1) in
  axis_splitting (VTensor q) (VTensor q) (VTensor q) (VInt 2) w0
  = (Raise RuntimeError,
     World (0 : G)
       [Op "slice"; Op "slice"; Op "slice"; Op "slice"; Op "slice"; Op "slice";
        Op "transpose"; Op "transpose"; Op "transpose"]).
Proof.
  intros q.
  assert (Hne : 2 ≠ 3) by lia.
  exact (axis_splitting_needs_square_blocks (RT:=runtime) q q q 2 1 2 2 3 1 w0
           eq_refl eq_refl eq_refl Hne).
Defined.

Lemma GEGLU_forward_never_returns_witness :
  GEGLU.forward VNone (VTensor (vector [Lit 1 1])) w0
  = (Raise ValueError, World (0 : G) [Op "chunk"])
  ∧ GEGLU.forward VNone (VTensor (vector [Lit 1 1; Lit 2 1; Lit 3 1])) w0
    = (Raise TypeError, World (0 : G) [Op "chunk"])
  ∧ GEGLU.forward VNone (VTensor (full [2; 0] (Lit 1 1))) w0
    = (Raise TypeError, World (0 : G) [Op "chunk"]).
Proof.
  split; [|split].
  - exact (proj2 (GEGLU_forward_never_returns (RT:=runtime) VNone
                    (vector [Lit 1 1]) [] 1 w0 eq_refl)).
  - exact (proj2 (GEGLU_forward_never_returns (RT:=runtime) VNone
                    (vector [Lit 1 1; Lit 2 1; Lit 3 1]) [] 3 w0 eq_refl)).
  - exact (proj2 (GEGLU_forward_never_returns (RT:=runtime) VNone
                    (full [2; 0] (Lit 1 1)) [2] 0 w0 eq_refl)).
Defined.

Lemma MLP_forward_never_returns_witness :
  let mk := MLP.__init__ torch 8 in
  mk w0 = (Ok (built mk), after mk)
  ∧ always_raises (MLP.forward torch (built mk) (VTensor (full [1; 4; 8] (Lit 1 1)))).
Proof.
  intros mk. assert (Hinit : mk w0 = (Ok (built mk), after mk)) by constructed.
  split; [exact Hinit|].
  exact (MLP_forward_never_returns (RT:=runtime) torch 8 w0 (after mk) (built mk) Hinit
           (VTensor (full [1; 4; 8] (Lit 1 1)))).
Defined.

Lemma MLP_forward_type_error_witness :
  let odd := MLP.__init__ torch 8 in
  let even := MLP.__init__ torch 3 in
  MLP.inner_dim 8 w0 = (Ok 21%Z, w0) ∧ MLP.inner_dim 3 w0 = (Ok 8%Z, w0)
  ∧ MLP.forward torch (built odd) (VTensor (full [1; 4; 8] (Lit 1 1))) w0
    = (Raise TypeError, World (0 : G) [Op "layer_norm"; Op "linear"; Op "chunk"])
  ∧ MLP.forward torch (built even) (VTensor (full [1; 4; 3] (Lit 1 1))) w0
    = (Raise TypeError, World (0 : G) [Op "layer_norm"; Op "linear"; Op "chunk"]).
Proof.
  intros odd even. split; [reflexivity|]. split; [reflexivity|].
  assert (H8 : (1 ≤ 8)%Z) by lia.
  assert (H3 : (1 ≤ 3)%Z) by lia.
  assert (Ho : odd w0 = (Ok (built odd), after odd)) by constructed.
  assert (He : even w0 = (Ok (built even), after even)) by constructed.
  split.
  - exact (MLP_forward_type_error (RT:=runtime) torch 8 w0 (after odd) (built odd)
             (full [1; 4; 8] (Lit 1 1)) [1; 4] w0 H8 Ho eq_refl).
  - exact (MLP_forward_type_error (RT:=runtime) torch 3 w0 (after even) (built even)
             (full [1; 4; 3] (Lit 1 1)) [1; 4] w0 H3 He eq_refl).
Defined.

Lemma MultiQueryAttention_cross_attention_run_witness :
  let mk := MultiQueryAttention.__init__ torch 8 2 (Lit 0 1) in
  let x := full [1; 4; 8] (Lit 1 1) in
  let c := full [1; 3; 8] (Lit 2 1) in
  mk w0 = (Ok (built mk), after mk)
  ∧ MultiQueryAttention.forward torch (built mk) (VTensor x) (VTensor c) w0
    = (Raise (AttributeError "attn_dropoutdropout"),
       World (0 : G)
         [Op "linear"; Op "linear"; Op "chunk"; Op "rearrange"; Op "mul"; Op "einsum"]).
Proof.
  intros mk x c. split; [reflexivity|].
  assert (Hh : (0 < 2)%Z) by lia.
  assert (Hd : 0 < 4) by lia.
  exact (MultiQueryAttention_cross_attention_run (RT:=runtime) torch 8 2 (Lit 0 1) w0
           (after mk) (built mk) x c 1 3 4 [4] w0
           torch_F_no_typo torch_Module_no_dropoutdropout eq_refl Hh Hd eq_refl
           eq_refl eq_refl).
Defined.

Lemma MultiAxisAttention_forward_never_returns_witness :
  let mk := MultiAxisAttention.__init__ torch 8 4 4 (Lit 0 1) in
  mk w0 = (Ok (built mk), after mk)
  ∧ always_raises
      (MultiAxisAttention.forward torch (built mk) (VTensor (full [1; 8; 16; 16] (Lit 1 1)))).
Proof.
  intros mk. split; [reflexivity|].
  exact (MultiAxisAttention_forward_never_returns (RT:=runtime) torch 8 4 4 (Lit 0 1) w0
           (after mk) (built mk) (VTensor (full [1; 8; 16; 16] (Lit 1 1))) eq_refl).
Defined.

Lemma MultiAxisAttention_forward_asserts_witness :
  let mk := MultiAxisAttention.__init__ torch 8 4 4 (Lit 0 1) in
  mk w0 = (Ok (built mk), after mk)
  ∧ MultiAxisAttention.forward torch (built mk) (VTensor (full [1; 8; 16; 12] (Lit 1 1))) w0
    = (Raise AssertionError, w0)
  ∧ MultiAxisAttention.forward torch (built mk) (VTensor (full [1; 8; 32; 32] (Lit 1 1))) w0
    = (Raise AssertionError, w0).
Proof.
  intros mk. split; [reflexivity|].
  assert (Hk : (0 < 4)%Z) by lia.
  assert (Hbad : 16 ≠ 12 ∨ (Z.of_nat 16 `div` 4 ≠ 4)%Z) by (left; lia).
  assert (Hbad' : 32 ≠ 32 ∨ (Z.of_nat 32 `div` 4 ≠ 4)%Z) by (right; by vm_compute).
  split.
  - exact (MultiAxisAttention_forward_asserts (RT:=runtime) torch 8 4 4 (Lit 0 1) w0
             (after mk) (built mk) (full [1; 8; 16; 12] (Lit 1 1)) 1 8 16 12 [] w0
             eq_refl Hk eq_refl Hbad).
  - exact (MultiAxisAttention_forward_asserts (RT:=runtime) torch 8 4 4 (Lit 0 1) w0
             (after mk) (built mk) (full [1; 8; 32; 32] (Lit 1 1)) 1 8 32 32 [] w0
             eq_refl Hk eq_refl Hbad').
Defined.

Lemma MultiAxisAttention_forward_low_rank_witness :
  let mk := MultiAxisAttention.__init__ torch 8 4 4 (Lit 0 1) in
  MultiAxisAttention.forward torch (built mk) (VTensor (full [1; 16; 8] (Lit 1 1))) w0
  = (Raise IndexError, w0).
Proof.
  intros mk.
  assert (Hr : ndim (full [1; 16; 8] (Lit 1 1)) < 4) by (cbn; lia).
  exact (MultiAxisAttention_forward_low_rank (RT:=runtime) torch (built mk)
           (full [1; 16; 8] (Lit 1 1)) w0 Hr).
Defined.

Lemma MultiAxisAttention_zero_block_size_witness :
  let mk := MultiAxisAttention.__init__ torch 8 0 4 (Lit 0 1) in
  mk w0 = (Ok (built mk), after mk)
  ∧ MultiAxisAttention.forward torch (built mk) (VTensor (full [1; 8; 16; 16] (Lit 1 1))) w0
    = (Raise ZeroDivisionError, w0).
Proof.
  intros mk. split; [reflexivity|].
  exact (MultiAxisAttention_zero_block_size (RT:=runtime) torch 8 4 (Lit 0 1) w0
           (after mk) (built mk) (full [1; 8; 16; 16] (Lit 1 1)) 1 8 16 [] w0
           eq_refl eq_refl).
Defined.

Lemma MultiQueryAttention_init_requires_witness :
  let mk := MultiQueryAttention.__init__ torch 8 2 (Lit 0 1) in
  mk w0 = (Ok (built mk), after mk)
  ∧ (0 < 2 ≤ 8)%Z ∧ ltb (Lit 0 1) (Lit 0 1) || ltb (Lit 1 1) (Lit 0 1) = false.
Proof.
  intros mk. assert (Hinit : mk w0 = (Ok (built mk), after mk)) by constructed.
  split; [exact Hinit|].
  exact (MultiQueryAttention_init_requires (RT:=runtime) torch 8 2 (Lit 0 1) w0
           (after mk) (built mk) Hinit).
Defined.

Lemma MultiAxisAttention_init_requires_witness :
  let mk := MultiAxisAttention.__init__ torch 4 2 (-2) (Lit 0 1) in
  mk w0 = (Ok (built mk), after mk)
  ∧ ((0 < -2 ≤ 4) ∨ (-2 < 0 ∧ 0 < 4))%Z.
Proof.
  intros mk. assert (Hinit : mk w0 = (Ok (built mk), after mk)) by constructed.
  split; [exact Hinit|].
  exact (proj1 (MultiAxisAttention_init_requires (RT:=runtime) torch 4 2 (-2) (Lit 0 1) w0
                  (after mk) (built mk) torch_F_no_typo Hinit)).
Defined.

Lemma EncoderBlock_init_requires_witness :
  let mk := EncoderBlock.__init__ torch 8 2 (Lit 0 1) in
  mk w0 = (Ok (built mk), after mk) ∧ (0 < 2 ≤ 8)%Z.
Proof.
  intros mk. assert (Hinit : mk w0 = (Ok (built mk), after mk)) by constructed.
  split; [exact Hinit|].
  exact (proj1 (EncoderBlock_init_requires (RT:=runtime) torch 8 2 (Lit 0 1) w0
                  (after mk) (built mk) Hinit)).
Defined.

Lemma TransformerBlock_init_requires_witness :
  let mk := TransformerBlock.__init__ torch 8 2 (Lit 0 1) in
  mk w0 = (Ok (built mk), after mk) ∧ (0 < 2 ≤ 8)%Z.
Proof.
  intros mk. assert (Hinit : mk w0 = (Ok (built mk), after mk)) by constructed.
  split; [exact Hinit|].
  exact (proj1 (TransformerBlock_init_requires (RT:=runtime) torch 8 2 (Lit 0 1) w0
                  (after mk) (built mk) Hinit)).
Defined.

Lemma MultiQueryAttention_init_zero_division_witness :
  MultiQueryAttention.__init__ torch 4 8 (Lit 0 1) w0
  = (Raise ZeroDivisionError, World (0 : G) [New "MultiQueryAttention"]).
Proof.
  assert (H : (8 = 0 ∨ 0 ≤ 4 < 8)%Z) by (right; lia).
  exact (MultiQueryAttention_init_zero_division (RT:=runtime) torch 4 8 (Lit 0 1) w0 H).
Defined.

Lemma MultiAxisAttention_init_zero_division_witness :
  MultiAxisAttention.__init__ torch 4 2 8 (Lit 0 1) w0
  = (Raise ZeroDivisionError, World (0 : G) [New "MultiAxisAttention"; New "Unfold"]).
Proof.
  assert (H : (8 = 0 ∨ 0 ≤ 4 < 8)%Z) by (right; lia).
  exact (MultiAxisAttention_init_zero_division (RT:=runtime) torch 4 2 8 (Lit 0 1) w0 H).
Defined.

Lemma EncoderBlock_forward_never_returns_witness :
  let mk := EncoderBlock.__init__ torch 8 2 (Lit 0 1) in
  let x := full [1; 4; 8] (Lit 1 1) in
  mk w0 = (Ok (built mk), after mk)
  ∧ always_raises (EncoderBlock.forward torch (built mk) (VTensor x))
  ∧ EncoderBlock.forward torch (built mk) (VTensor x) w0
    = (Raise TypeError, World (0 : G) [Op "layer_norm"; Op "linear"]).
Proof.
  intros mk x. assert (Hinit : mk w0 = (Ok (built mk), after mk)) by constructed.
  split; [exact Hinit|].
  destruct (EncoderBlock_forward_never_returns (RT:=runtime) torch 8 2 (Lit 0 1) w0
              (after mk) (built mk) Hinit) as [Hall Hrun].
  split; [exact (Hall (VTensor x)) | exact (Hrun x [1; 4] w0 eq_refl)].
Defined.

Lemma TransformerBlock_forward_never_returns_witness :
  let mk := TransformerBlock.__init__ torch 8 2 (Lit 0 1) in
  let x := full [1; 4; 8] (Lit 1 1) in
  let c := full [1; 3; 8] (Lit 2 1) in
  mk w0 = (Ok (built mk), after mk)
  ∧ always_raises (TransformerBlock.forward torch (built mk) (VTensor x) (VTensor c))
  ∧ TransformerBlock.forward torch (built mk) (VTensor x) (VTensor c) w0
    = (Raise TypeError, World (0 : G) [Op "layer_norm"; Op "linear"]).
Proof.
  intros mk x c. assert (Hinit : mk w0 = (Ok (built mk), after mk)) by constructed.
  split; [exact Hinit|].
  destruct (TransformerBlock_forward_never_returns (RT:=runtime) torch 8 2 (Lit 0 1) w0
              (after mk) (built mk) Hinit) as [Hall Hrun].
  split; [exact (Hall (VTensor x) (VTensor c)) | exact (Hrun x (VTensor c) [1; 4] w0 eq_refl)].
Defined.

End Concrete.
